(** * paddos-safety-map: safety engine and monitoring sessions

    A shallow embedding of [safety_engine.py] and [app.py].

    - Python values that travel through the program untyped (decoded JSON,
      request bodies) are values of [pyval]; numbers that the program
      computes are [pynum] (an [int] or a binary64 [float]).
    - Python floats are Rocq's primitive binary64 floats, so every
      arithmetic step rounds as it does in CPython.
    - Code that may raise returns [result]; [try_except] is the
      [try: ... except: ...] statement.
    - The outside world (the clock, the Overpass server) is an explicit
      [world] argument; the C math library is a [Section] variable. *)

From Stdlib Require Import ZArith List String Ascii Bool Uint63 Floats Lia.
From Stdlib Require Import DecimalString Sorted Permutation.
From stdpp Require Import base gmap strings.
Import ListNotations.

Set Warnings "-inexact-float,-register-all".
Local Open Scope string_scope.
Local Open Scope list_scope.
Local Open Scope Z_scope.

(** ** Exceptions and the error monad *)

Inductive exn_kind : Type :=
| TypeError | ValueError | AttributeError | OverflowError | KeyError
| RequestException.

(** An exception object; [exn_msg] is what [str(e)] returns. *)
Record exn : Type := Exn { exn_kind_of : exn_kind; exn_msg : string }.

Inductive result (A : Type) : Type :=
| Ok (a : A)
| Raise (e : exn).
Arguments Ok {A} a.
Arguments Raise {A} e.

Definition bind {A B} (c : result A) (k : A -> result B) : result B :=
  match c with
  | Ok a => k a
  | Raise e => Raise e
  end.

Notation "'let*' p ':=' c 'in' k" := (bind c (fun p => k))
  (at level 10, p pattern, c at level 200, k at level 200).

(** [try: body  except Exception as e: handler e] (also the bare
    [except:]). *)
Definition try_except {A} (body : result A) (handler : exn -> result A)
  : result A :=
  match body with
  | Ok a => Ok a
  | Raise e => handler e
  end.

(** ** Python values *)

Inductive pyval : Type :=
| PNone
| PBool (b : bool)
| PInt (z : Z)
| PFloat (f : float)
| PStr (s : string)
| PList (l : list pyval)
| PDict (d : list (string * pyval)).

(** A number computed by the program: Python keeps [int] and [float]
    apart ([round(100, 1)] is the int [100]). *)
Inductive pynum : Type :=
| NInt (z : Z)
| NFloat (f : float).

Definition type_name (v : pyval) : string :=
  match v with
  | PNone => "NoneType"
  | PBool _ => "bool"
  | PInt _ => "int"
  | PFloat _ => "float"
  | PStr _ => "str"
  | PList _ => "list"
  | PDict _ => "dict"
  end.

(** Truth value testing: [None], [False], zero of any numeric type and
    empty containers are false. *)
Definition truthy (v : pyval) : bool :=
  match v with
  | PNone => false
  | PBool b => b
  | PInt z => negb (z =? 0)
  | PFloat f => negb (f =? 0)%float
  | PStr s => negb (String.eqb s "")
  | PList l => match l with [] => false | _ => true end
  | PDict d => match d with [] => false | _ => true end
  end.

(** [a and b]: the first operand if it is false, else the second. *)
Definition py_and (a b : pyval) : pyval := if truthy a then b else a.

(** A decoded JSON object is kept as the list of its members, one per
    key; a key is looked up from the front. *)
Fixpoint dict_lookup (d : list (string * pyval)) (k : string) : option pyval :=
  match d with
  | [] => None
  | (k', v) :: d' => if String.eqb k' k then Some v else dict_lookup d' k
  end.

(** [obj.get(k, default)]: only a dict has the method. *)
Definition py_get (obj : pyval) (k : string) (default : pyval) : result pyval :=
  match obj with
  | PDict d => Ok (match dict_lookup d k with Some v => v | None => default end)
  | _ => Raise (Exn AttributeError
                  ("'" +:+ type_name obj +:+ "' object has no attribute 'get'"))
  end.

(** A [str] is kept as its UTF-8 encoding, one [ascii] per byte.  A
    character is a byte together with the continuation bytes
    ([10xxxxxx]) that follow it. *)
Definition is_continuation (c : ascii) : bool :=
  let n := Z.of_nat (nat_of_ascii c) in (128 <=? n) && (n <? 192).

Definition starts_inside (s : string) : bool :=
  match s with
  | String c _ => is_continuation c
  | EmptyString => false
  end.

(** The characters of a string. *)
Fixpoint utf8_chars (s : string) : list string :=
  match s with
  | EmptyString => []
  | String c s' =>
      match utf8_chars s' with
      | ch :: rest =>
          if starts_inside s' then String c ch :: rest
          else String c EmptyString :: ch :: rest
      | [] => [String c EmptyString]
      end
  end.

(** [for x in v]: the items the loop visits (a dict gives its keys, a
    string its characters). *)
Definition py_iter (v : pyval) : result (list pyval) :=
  match v with
  | PList l => Ok l
  | PDict d => Ok (map (fun kv => PStr (fst kv)) d)
  | PStr s => Ok (map PStr (utf8_chars s))
  | _ => Raise (Exn TypeError ("'" +:+ type_name v +:+ "' object is not iterable"))
  end.

(** ** Binary64 arithmetic as CPython does it *)

(** The double nearest to a positive int (ties to even): the machine
    conversion below 2^62 = 4611686018427387904, the rounding of the
    specification above. *)
Definition pos2float (p : positive) : float :=
  if (Zpos p <? 4611686018427387904)
  then of_uint63 (Uint63.of_Z (Zpos p))
  else SF2Prim (binary_normalize prec emax (Zpos p) 0 false).

(** The double nearest to [±n/d] (ties to even): Python's [int / int],
    and the decimal-to-double conversion at the end of [round].  Two
    ints below 2^53 = 9007199254740992 are exact doubles, and their
    quotient is the machine division. *)
Definition float_of_ratio (neg : bool) (n d : positive) : float :=
  let q :=
    if (Zpos n <? 9007199254740992) && (Zpos d <? 9007199254740992)
    then (pos2float n / pos2float d)%float
    else
      let '(q, e, l) := SFdiv_core_binary prec emax (Zpos n) 0 (Zpos d) 0 in
      SF2Prim (binary_round_aux prec emax false q e l) in
  if neg then (- q)%float else q.

Definition Z2float (z : Z) : float :=
  match z with
  | Z0 => 0%float
  | Zpos p => pos2float p
  | Zneg p => (- pos2float p)%float
  end.

(** [a / b] on ints ([b] is a nonzero literal wherever the program
    divides). *)
Definition int_true_div (a b : Z) : float :=
  match a, b with
  | Zpos p, Zpos q | Zneg p, Zneg q => float_of_ratio false p q
  | Zpos p, Zneg q | Zneg p, Zpos q => float_of_ratio true p q
  | Z0, _ => 0%float
  | _, Z0 => nan
  end.

(** [float(z)] for an int operand; too large an int raises. *)
Definition int_to_float (z : Z) : result float :=
  let f := Z2float z in
  if is_infinity f
  then Raise (Exn OverflowError "int too large to convert to float")
  else Ok f.

(** [PyFloat_AsDouble]: the conversion every [math] function applies to
    its argument. *)
Definition as_float (v : pyval) : result float :=
  match v with
  | PFloat f => Ok f
  | PInt z => int_to_float z
  | PBool b => Ok (if b then 1 else 0)%float
  | _ => Raise (Exn TypeError ("must be real number, not " +:+ type_name v))
  end.

Definition num_float (n : pynum) : float :=
  match n with
  | NInt z => Z2float z
  | NFloat f => f
  end.

(** Round [num / 2^k] ([0 < k]) to the nearest integer, ties to even. *)
Definition round_half_even (num k : Z) : Z :=
  let q := Z.shiftr num k in
  let r := num - Z.shiftl q k in
  match r ?= Z.shiftl 1 (k - 1) with
  | Lt => q
  | Gt => q + 1
  | Eq => if Z.even q then q else q + 1
  end.

(** [round(x, ndigits)] on a float with [0 <= ndigits]: the exact binary
    value [m * 2^e] is rounded to [ndigits] decimals (ties to even) and
    the decimal is converted back to the nearest double; NaN and the
    infinities round to themselves. *)
Definition float_round (x : float) (ndigits : Z) : float :=
  match Prim2SF x with
  | S754_finite s m e =>
      let p := 10 ^ ndigits in
      let n := if 0 <=? e
               then Z.shiftl (Zpos m * p) e
               else round_half_even (Zpos m * p) (- e) in
      match n, p with
      | Zpos n', Zpos p' => float_of_ratio s n' p'
      | _, _ => if s then (-0)%float else 0%float
      end
  | _ => x
  end.

(** [round(v, ndigits)] with [ndigits >= 0]: an int is returned as it
    is. *)
Definition py_round (v : pynum) (ndigits : Z) : pynum :=
  match v with
  | NInt z => NInt z
  | NFloat f => NFloat (float_round f ndigits)
  end.

(** Comparison of a number with an int literal. *)
Definition num_ge (v : pynum) (k : Z) : bool :=
  match v with
  | NInt z => k <=? z
  | NFloat f => (Z2float k <=? f)%float
  end.

Definition num_le (v : pynum) (k : Z) : bool :=
  match v with
  | NInt z => z <=? k
  | NFloat f => (f <=? Z2float k)%float
  end.

(** ** Strings *)

Definition is_lower (c : ascii) : bool :=
  let n := Z.of_nat (nat_of_ascii c) in (97 <=? n) && (n <=? 122).

Definition is_upper (c : ascii) : bool :=
  let n := Z.of_nat (nat_of_ascii c) in (65 <=? n) && (n <=? 90).

Definition to_upper (c : ascii) : ascii :=
  if is_lower c then ascii_of_nat (nat_of_ascii c - 32) else c.

Definition to_lower (c : ascii) : ascii :=
  if is_upper c then ascii_of_nat (nat_of_ascii c + 32) else c.

(** [len(s)]: the number of characters. *)
Fixpoint str_len (s : string) : nat :=
  match s with
  | EmptyString => 0
  | String c s' => if is_continuation c then str_len s' else S (str_len s')
  end.

(** The upper-case mapping of every character outside ASCII that has
    one: the Uppercase_Mapping of Unicode 14.0 (UnicodeData.txt, and
    SpecialCasing.txt for the characters that map to several), which is
    what [str.upper()] of CPython 3.11 applies character by character.
    A character that is not listed is its own upper case. *)
Definition unicode_upper : list (string * string) := [
  ("µ", "Μ"); ("ß", "SS"); ("à", "À"); ("á", "Á"); ("â", "Â");
  ("ã", "Ã"); ("ä", "Ä"); ("å", "Å"); ("æ", "Æ"); ("ç", "Ç");
  ("è", "È"); ("é", "É"); ("ê", "Ê"); ("ë", "Ë"); ("ì", "Ì");
  ("í", "Í"); ("î", "Î"); ("ï", "Ï"); ("ð", "Ð"); ("ñ", "Ñ");
  ("ò", "Ò"); ("ó", "Ó"); ("ô", "Ô"); ("õ", "Õ"); ("ö", "Ö");
  ("ø", "Ø"); ("ù", "Ù"); ("ú", "Ú"); ("û", "Û"); ("ü", "Ü");
  ("ý", "Ý"); ("þ", "Þ"); ("ÿ", "Ÿ"); ("ā", "Ā"); ("ă", "Ă");
  ("ą", "Ą"); ("ć", "Ć"); ("ĉ", "Ĉ"); ("ċ", "Ċ"); ("č", "Č");
  ("ď", "Ď"); ("đ", "Đ"); ("ē", "Ē"); ("ĕ", "Ĕ"); ("ė", "Ė");
  ("ę", "Ę"); ("ě", "Ě"); ("ĝ", "Ĝ"); ("ğ", "Ğ"); ("ġ", "Ġ");
  ("ģ", "Ģ"); ("ĥ", "Ĥ"); ("ħ", "Ħ"); ("ĩ", "Ĩ"); ("ī", "Ī");
  ("ĭ", "Ĭ"); ("į", "Į"); ("ı", "I"); ("ĳ", "Ĳ"); ("ĵ", "Ĵ");
  ("ķ", "Ķ"); ("ĺ", "Ĺ"); ("ļ", "Ļ"); ("ľ", "Ľ"); ("ŀ", "Ŀ");
  ("ł", "Ł"); ("ń", "Ń"); ("ņ", "Ņ"); ("ň", "Ň"); ("ŉ", "ʼN");
  ("ŋ", "Ŋ"); ("ō", "Ō"); ("ŏ", "Ŏ"); ("ő", "Ő"); ("œ", "Œ");
  ("ŕ", "Ŕ"); ("ŗ", "Ŗ"); ("ř", "Ř"); ("ś", "Ś"); ("ŝ", "Ŝ");
  ("ş", "Ş"); ("š", "Š"); ("ţ", "Ţ"); ("ť", "Ť"); ("ŧ", "Ŧ");
  ("ũ", "Ũ"); ("ū", "Ū"); ("ŭ", "Ŭ"); ("ů", "Ů"); ("ű", "Ű");
  ("ų", "Ų"); ("ŵ", "Ŵ"); ("ŷ", "Ŷ"); ("ź", "Ź"); ("ż", "Ż");
  ("ž", "Ž"); ("ſ", "S"); ("ƀ", "Ƀ"); ("ƃ", "Ƃ"); ("ƅ", "Ƅ");
  ("ƈ", "Ƈ"); ("ƌ", "Ƌ"); ("ƒ", "Ƒ"); ("ƕ", "Ƕ"); ("ƙ", "Ƙ");
  ("ƚ", "Ƚ"); ("ƞ", "Ƞ"); ("ơ", "Ơ"); ("ƣ", "Ƣ"); ("ƥ", "Ƥ");
  ("ƨ", "Ƨ"); ("ƭ", "Ƭ"); ("ư", "Ư"); ("ƴ", "Ƴ"); ("ƶ", "Ƶ");
  ("ƹ", "Ƹ"); ("ƽ", "Ƽ"); ("ƿ", "Ƿ"); ("ǅ", "Ǆ"); ("ǆ", "Ǆ");
  ("ǈ", "Ǉ"); ("ǉ", "Ǉ"); ("ǋ", "Ǌ"); ("ǌ", "Ǌ"); ("ǎ", "Ǎ");
  ("ǐ", "Ǐ"); ("ǒ", "Ǒ"); ("ǔ", "Ǔ"); ("ǖ", "Ǖ"); ("ǘ", "Ǘ");
  ("ǚ", "Ǚ"); ("ǜ", "Ǜ"); ("ǝ", "Ǝ"); ("ǟ", "Ǟ"); ("ǡ", "Ǡ");
  ("ǣ", "Ǣ"); ("ǥ", "Ǥ"); ("ǧ", "Ǧ"); ("ǩ", "Ǩ"); ("ǫ", "Ǫ");
  ("ǭ", "Ǭ"); ("ǯ", "Ǯ"); ("ǰ", "J̌"); ("ǲ", "Ǳ"); ("ǳ", "Ǳ");
  ("ǵ", "Ǵ"); ("ǹ", "Ǹ"); ("ǻ", "Ǻ"); ("ǽ", "Ǽ"); ("ǿ", "Ǿ");
  ("ȁ", "Ȁ"); ("ȃ", "Ȃ"); ("ȅ", "Ȅ"); ("ȇ", "Ȇ"); ("ȉ", "Ȉ");
  ("ȋ", "Ȋ"); ("ȍ", "Ȍ"); ("ȏ", "Ȏ"); ("ȑ", "Ȑ"); ("ȓ", "Ȓ");
  ("ȕ", "Ȕ"); ("ȗ", "Ȗ"); ("ș", "Ș"); ("ț", "Ț"); ("ȝ", "Ȝ");
  ("ȟ", "Ȟ"); ("ȣ", "Ȣ"); ("ȥ", "Ȥ"); ("ȧ", "Ȧ"); ("ȩ", "Ȩ");
  ("ȫ", "Ȫ"); ("ȭ", "Ȭ"); ("ȯ", "Ȯ"); ("ȱ", "Ȱ"); ("ȳ", "Ȳ");
  ("ȼ", "Ȼ"); ("ȿ", "Ȿ"); ("ɀ", "Ɀ"); ("ɂ", "Ɂ"); ("ɇ", "Ɇ");
  ("ɉ", "Ɉ"); ("ɋ", "Ɋ"); ("ɍ", "Ɍ"); ("ɏ", "Ɏ"); ("ɐ", "Ɐ");
  ("ɑ", "Ɑ"); ("ɒ", "Ɒ"); ("ɓ", "Ɓ"); ("ɔ", "Ɔ"); ("ɖ", "Ɖ");
  ("ɗ", "Ɗ"); ("ə", "Ə"); ("ɛ", "Ɛ"); ("ɜ", "Ɜ"); ("ɠ", "Ɠ");
  ("ɡ", "Ɡ"); ("ɣ", "Ɣ"); ("ɥ", "Ɥ"); ("ɦ", "Ɦ"); ("ɨ", "Ɨ");
  ("ɩ", "Ɩ"); ("ɪ", "Ɪ"); ("ɫ", "Ɫ"); ("ɬ", "Ɬ"); ("ɯ", "Ɯ");
  ("ɱ", "Ɱ"); ("ɲ", "Ɲ"); ("ɵ", "Ɵ"); ("ɽ", "Ɽ"); ("ʀ", "Ʀ");
  ("ʂ", "Ʂ"); ("ʃ", "Ʃ"); ("ʇ", "Ʇ"); ("ʈ", "Ʈ"); ("ʉ", "Ʉ");
  ("ʊ", "Ʊ"); ("ʋ", "Ʋ"); ("ʌ", "Ʌ"); ("ʒ", "Ʒ"); ("ʝ", "Ʝ");
  ("ʞ", "Ʞ"); ("ͅ", "Ι"); ("ͱ", "Ͱ"); ("ͳ", "Ͳ"); ("ͷ", "Ͷ");
  ("ͻ", "Ͻ"); ("ͼ", "Ͼ"); ("ͽ", "Ͽ"); ("ΐ", "Ϊ́"); ("ά", "Ά");
  ("έ", "Έ"); ("ή", "Ή"); ("ί", "Ί"); ("ΰ", "Ϋ́"); ("α", "Α");
  ("β", "Β"); ("γ", "Γ"); ("δ", "Δ"); ("ε", "Ε"); ("ζ", "Ζ");
  ("η", "Η"); ("θ", "Θ"); ("ι", "Ι"); ("κ", "Κ"); ("λ", "Λ");
  ("μ", "Μ"); ("ν", "Ν"); ("ξ", "Ξ"); ("ο", "Ο"); ("π", "Π");
  ("ρ", "Ρ"); ("ς", "Σ"); ("σ", "Σ"); ("τ", "Τ"); ("υ", "Υ");
  ("φ", "Φ"); ("χ", "Χ"); ("ψ", "Ψ"); ("ω", "Ω"); ("ϊ", "Ϊ");
  ("ϋ", "Ϋ"); ("ό", "Ό"); ("ύ", "Ύ"); ("ώ", "Ώ"); ("ϐ", "Β");
  ("ϑ", "Θ"); ("ϕ", "Φ"); ("ϖ", "Π"); ("ϗ", "Ϗ"); ("ϙ", "Ϙ");
  ("ϛ", "Ϛ"); ("ϝ", "Ϝ"); ("ϟ", "Ϟ"); ("ϡ", "Ϡ"); ("ϣ", "Ϣ");
  ("ϥ", "Ϥ"); ("ϧ", "Ϧ"); ("ϩ", "Ϩ"); ("ϫ", "Ϫ"); ("ϭ", "Ϭ");
  ("ϯ", "Ϯ"); ("ϰ", "Κ"); ("ϱ", "Ρ"); ("ϲ", "Ϲ"); ("ϳ", "Ϳ");
  ("ϵ", "Ε"); ("ϸ", "Ϸ"); ("ϻ", "Ϻ"); ("а", "А"); ("б", "Б");
  ("в", "В"); ("г", "Г"); ("д", "Д"); ("е", "Е"); ("ж", "Ж");
  ("з", "З"); ("и", "И"); ("й", "Й"); ("к", "К"); ("л", "Л");
  ("м", "М"); ("н", "Н"); ("о", "О"); ("п", "П"); ("р", "Р");
  ("с", "С"); ("т", "Т"); ("у", "У"); ("ф", "Ф"); ("х", "Х");
  ("ц", "Ц"); ("ч", "Ч"); ("ш", "Ш"); ("щ", "Щ"); ("ъ", "Ъ");
  ("ы", "Ы"); ("ь", "Ь"); ("э", "Э"); ("ю", "Ю"); ("я", "Я");
  ("ѐ", "Ѐ"); ("ё", "Ё"); ("ђ", "Ђ"); ("ѓ", "Ѓ"); ("є", "Є");
  ("ѕ", "Ѕ"); ("і", "І"); ("ї", "Ї"); ("ј", "Ј"); ("љ", "Љ");
  ("њ", "Њ"); ("ћ", "Ћ"); ("ќ", "Ќ"); ("ѝ", "Ѝ"); ("ў", "Ў");
  ("џ", "Џ"); ("ѡ", "Ѡ"); ("ѣ", "Ѣ"); ("ѥ", "Ѥ"); ("ѧ", "Ѧ");
  ("ѩ", "Ѩ"); ("ѫ", "Ѫ"); ("ѭ", "Ѭ"); ("ѯ", "Ѯ"); ("ѱ", "Ѱ");
  ("ѳ", "Ѳ"); ("ѵ", "Ѵ"); ("ѷ", "Ѷ"); ("ѹ", "Ѹ"); ("ѻ", "Ѻ");
  ("ѽ", "Ѽ"); ("ѿ", "Ѿ"); ("ҁ", "Ҁ"); ("ҋ", "Ҋ"); ("ҍ", "Ҍ");
  ("ҏ", "Ҏ"); ("ґ", "Ґ"); ("ғ", "Ғ"); ("ҕ", "Ҕ"); ("җ", "Җ");
  ("ҙ", "Ҙ"); ("қ", "Қ"); ("ҝ", "Ҝ"); ("ҟ", "Ҟ"); ("ҡ", "Ҡ");
  ("ң", "Ң"); ("ҥ", "Ҥ"); ("ҧ", "Ҧ"); ("ҩ", "Ҩ"); ("ҫ", "Ҫ");
  ("ҭ", "Ҭ"); ("ү", "Ү"); ("ұ", "Ұ"); ("ҳ", "Ҳ"); ("ҵ", "Ҵ");
  ("ҷ", "Ҷ"); ("ҹ", "Ҹ"); ("һ", "Һ"); ("ҽ", "Ҽ"); ("ҿ", "Ҿ");
  ("ӂ", "Ӂ"); ("ӄ", "Ӄ"); ("ӆ", "Ӆ"); ("ӈ", "Ӈ"); ("ӊ", "Ӊ");
  ("ӌ", "Ӌ"); ("ӎ", "Ӎ"); ("ӏ", "Ӏ"); ("ӑ", "Ӑ"); ("ӓ", "Ӓ");
  ("ӕ", "Ӕ"); ("ӗ", "Ӗ"); ("ә", "Ә"); ("ӛ", "Ӛ"); ("ӝ", "Ӝ");
  ("ӟ", "Ӟ"); ("ӡ", "Ӡ"); ("ӣ", "Ӣ"); ("ӥ", "Ӥ"); ("ӧ", "Ӧ");
  ("ө", "Ө"); ("ӫ", "Ӫ"); ("ӭ", "Ӭ"); ("ӯ", "Ӯ"); ("ӱ", "Ӱ");
  ("ӳ", "Ӳ"); ("ӵ", "Ӵ"); ("ӷ", "Ӷ"); ("ӹ", "Ӹ"); ("ӻ", "Ӻ");
  ("ӽ", "Ӽ"); ("ӿ", "Ӿ"); ("ԁ", "Ԁ"); ("ԃ", "Ԃ"); ("ԅ", "Ԅ");
  ("ԇ", "Ԇ"); ("ԉ", "Ԉ"); ("ԋ", "Ԋ"); ("ԍ", "Ԍ"); ("ԏ", "Ԏ");
  ("ԑ", "Ԑ"); ("ԓ", "Ԓ"); ("ԕ", "Ԕ"); ("ԗ", "Ԗ"); ("ԙ", "Ԙ");
  ("ԛ", "Ԛ"); ("ԝ", "Ԝ"); ("ԟ", "Ԟ"); ("ԡ", "Ԡ"); ("ԣ", "Ԣ");
  ("ԥ", "Ԥ"); ("ԧ", "Ԧ"); ("ԩ", "Ԩ"); ("ԫ", "Ԫ"); ("ԭ", "Ԭ");
  ("ԯ", "Ԯ"); ("ա", "Ա"); ("բ", "Բ"); ("գ", "Գ"); ("դ", "Դ");
  ("ե", "Ե"); ("զ", "Զ"); ("է", "Է"); ("ը", "Ը"); ("թ", "Թ");
  ("ժ", "Ժ"); ("ի", "Ի"); ("լ", "Լ"); ("խ", "Խ"); ("ծ", "Ծ");
  ("կ", "Կ"); ("հ", "Հ"); ("ձ", "Ձ"); ("ղ", "Ղ"); ("ճ", "Ճ");
  ("մ", "Մ"); ("յ", "Յ"); ("ն", "Ն"); ("շ", "Շ"); ("ո", "Ո");
  ("չ", "Չ"); ("պ", "Պ"); ("ջ", "Ջ"); ("ռ", "Ռ"); ("ս", "Ս");
  ("վ", "Վ"); ("տ", "Տ"); ("ր", "Ր"); ("ց", "Ց"); ("ւ", "Ւ");
  ("փ", "Փ"); ("ք", "Ք"); ("օ", "Օ"); ("ֆ", "Ֆ"); ("և", "ԵՒ");
  ("ა", "Ა"); ("ბ", "Ბ"); ("გ", "Გ"); ("დ", "Დ");
  ("ე", "Ე"); ("ვ", "Ვ"); ("ზ", "Ზ"); ("თ", "Თ");
  ("ი", "Ი"); ("კ", "Კ"); ("ლ", "Ლ"); ("მ", "Მ");
  ("ნ", "Ნ"); ("ო", "Ო"); ("პ", "Პ"); ("ჟ", "Ჟ");
  ("რ", "Რ"); ("ს", "Ს"); ("ტ", "Ტ"); ("უ", "Უ");
  ("ფ", "Ფ"); ("ქ", "Ქ"); ("ღ", "Ღ"); ("ყ", "Ყ");
  ("შ", "Შ"); ("ჩ", "Ჩ"); ("ც", "Ც"); ("ძ", "Ძ");
  ("წ", "Წ"); ("ჭ", "Ჭ"); ("ხ", "Ხ"); ("ჯ", "Ჯ");
  ("ჰ", "Ჰ"); ("ჱ", "Ჱ"); ("ჲ", "Ჲ"); ("ჳ", "Ჳ");
  ("ჴ", "Ჴ"); ("ჵ", "Ჵ"); ("ჶ", "Ჶ"); ("ჷ", "Ჷ");
  ("ჸ", "Ჸ"); ("ჹ", "Ჹ"); ("ჺ", "Ჺ"); ("ჽ", "Ჽ");
  ("ჾ", "Ჾ"); ("ჿ", "Ჿ"); ("ᏸ", "Ᏸ"); ("ᏹ", "Ᏹ");
  ("ᏺ", "Ᏺ"); ("ᏻ", "Ᏻ"); ("ᏼ", "Ᏼ"); ("ᏽ", "Ᏽ");
  ("ᲀ", "В"); ("ᲁ", "Д"); ("ᲂ", "О"); ("ᲃ", "С");
  ("ᲄ", "Т"); ("ᲅ", "Т"); ("ᲆ", "Ъ"); ("ᲇ", "Ѣ");
  ("ᲈ", "Ꙋ"); ("ᵹ", "Ᵹ"); ("ᵽ", "Ᵽ"); ("ᶎ", "Ᶎ");
  ("ḁ", "Ḁ"); ("ḃ", "Ḃ"); ("ḅ", "Ḅ"); ("ḇ", "Ḇ");
  ("ḉ", "Ḉ"); ("ḋ", "Ḋ"); ("ḍ", "Ḍ"); ("ḏ", "Ḏ");
  ("ḑ", "Ḑ"); ("ḓ", "Ḓ"); ("ḕ", "Ḕ"); ("ḗ", "Ḗ");
  ("ḙ", "Ḙ"); ("ḛ", "Ḛ"); ("ḝ", "Ḝ"); ("ḟ", "Ḟ");
  ("ḡ", "Ḡ"); ("ḣ", "Ḣ"); ("ḥ", "Ḥ"); ("ḧ", "Ḧ");
  ("ḩ", "Ḩ"); ("ḫ", "Ḫ"); ("ḭ", "Ḭ"); ("ḯ", "Ḯ");
  ("ḱ", "Ḱ"); ("ḳ", "Ḳ"); ("ḵ", "Ḵ"); ("ḷ", "Ḷ");
  ("ḹ", "Ḹ"); ("ḻ", "Ḻ"); ("ḽ", "Ḽ"); ("ḿ", "Ḿ");
  ("ṁ", "Ṁ"); ("ṃ", "Ṃ"); ("ṅ", "Ṅ"); ("ṇ", "Ṇ");
  ("ṉ", "Ṉ"); ("ṋ", "Ṋ"); ("ṍ", "Ṍ"); ("ṏ", "Ṏ");
  ("ṑ", "Ṑ"); ("ṓ", "Ṓ"); ("ṕ", "Ṕ"); ("ṗ", "Ṗ");
  ("ṙ", "Ṙ"); ("ṛ", "Ṛ"); ("ṝ", "Ṝ"); ("ṟ", "Ṟ");
  ("ṡ", "Ṡ"); ("ṣ", "Ṣ"); ("ṥ", "Ṥ"); ("ṧ", "Ṧ");
  ("ṩ", "Ṩ"); ("ṫ", "Ṫ"); ("ṭ", "Ṭ"); ("ṯ", "Ṯ");
  ("ṱ", "Ṱ"); ("ṳ", "Ṳ"); ("ṵ", "Ṵ"); ("ṷ", "Ṷ");
  ("ṹ", "Ṹ"); ("ṻ", "Ṻ"); ("ṽ", "Ṽ"); ("ṿ", "Ṿ");
  ("ẁ", "Ẁ"); ("ẃ", "Ẃ"); ("ẅ", "Ẅ"); ("ẇ", "Ẇ");
  ("ẉ", "Ẉ"); ("ẋ", "Ẋ"); ("ẍ", "Ẍ"); ("ẏ", "Ẏ");
  ("ẑ", "Ẑ"); ("ẓ", "Ẓ"); ("ẕ", "Ẕ"); ("ẖ", "H̱");
  ("ẗ", "T̈"); ("ẘ", "W̊"); ("ẙ", "Y̊"); ("ẚ", "Aʾ");
  ("ẛ", "Ṡ"); ("ạ", "Ạ"); ("ả", "Ả"); ("ấ", "Ấ");
  ("ầ", "Ầ"); ("ẩ", "Ẩ"); ("ẫ", "Ẫ"); ("ậ", "Ậ");
  ("ắ", "Ắ"); ("ằ", "Ằ"); ("ẳ", "Ẳ"); ("ẵ", "Ẵ");
  ("ặ", "Ặ"); ("ẹ", "Ẹ"); ("ẻ", "Ẻ"); ("ẽ", "Ẽ");
  ("ế", "Ế"); ("ề", "Ề"); ("ể", "Ể"); ("ễ", "Ễ");
  ("ệ", "Ệ"); ("ỉ", "Ỉ"); ("ị", "Ị"); ("ọ", "Ọ");
  ("ỏ", "Ỏ"); ("ố", "Ố"); ("ồ", "Ồ"); ("ổ", "Ổ");
  ("ỗ", "Ỗ"); ("ộ", "Ộ"); ("ớ", "Ớ"); ("ờ", "Ờ");
  ("ở", "Ở"); ("ỡ", "Ỡ"); ("ợ", "Ợ"); ("ụ", "Ụ");
  ("ủ", "Ủ"); ("ứ", "Ứ"); ("ừ", "Ừ"); ("ử", "Ử");
  ("ữ", "Ữ"); ("ự", "Ự"); ("ỳ", "Ỳ"); ("ỵ", "Ỵ");
  ("ỷ", "Ỷ"); ("ỹ", "Ỹ"); ("ỻ", "Ỻ"); ("ỽ", "Ỽ");
  ("ỿ", "Ỿ"); ("ἀ", "Ἀ"); ("ἁ", "Ἁ"); ("ἂ", "Ἂ");
  ("ἃ", "Ἃ"); ("ἄ", "Ἄ"); ("ἅ", "Ἅ"); ("ἆ", "Ἆ");
  ("ἇ", "Ἇ"); ("ἐ", "Ἐ"); ("ἑ", "Ἑ"); ("ἒ", "Ἒ");
  ("ἓ", "Ἓ"); ("ἔ", "Ἔ"); ("ἕ", "Ἕ"); ("ἠ", "Ἠ");
  ("ἡ", "Ἡ"); ("ἢ", "Ἢ"); ("ἣ", "Ἣ"); ("ἤ", "Ἤ");
  ("ἥ", "Ἥ"); ("ἦ", "Ἦ"); ("ἧ", "Ἧ"); ("ἰ", "Ἰ");
  ("ἱ", "Ἱ"); ("ἲ", "Ἲ"); ("ἳ", "Ἳ"); ("ἴ", "Ἴ");
  ("ἵ", "Ἵ"); ("ἶ", "Ἶ"); ("ἷ", "Ἷ"); ("ὀ", "Ὀ");
  ("ὁ", "Ὁ"); ("ὂ", "Ὂ"); ("ὃ", "Ὃ"); ("ὄ", "Ὄ");
  ("ὅ", "Ὅ"); ("ὐ", "Υ̓"); ("ὑ", "Ὑ"); ("ὒ", "Υ̓̀");
  ("ὓ", "Ὓ"); ("ὔ", "Υ̓́"); ("ὕ", "Ὕ"); ("ὖ", "Υ̓͂");
  ("ὗ", "Ὗ"); ("ὠ", "Ὠ"); ("ὡ", "Ὡ"); ("ὢ", "Ὢ");
  ("ὣ", "Ὣ"); ("ὤ", "Ὤ"); ("ὥ", "Ὥ"); ("ὦ", "Ὦ");
  ("ὧ", "Ὧ"); ("ὰ", "Ὰ"); ("ά", "Ά"); ("ὲ", "Ὲ");
  ("έ", "Έ"); ("ὴ", "Ὴ"); ("ή", "Ή"); ("ὶ", "Ὶ");
  ("ί", "Ί"); ("ὸ", "Ὸ"); ("ό", "Ό"); ("ὺ", "Ὺ");
  ("ύ", "Ύ"); ("ὼ", "Ὼ"); ("ώ", "Ώ"); ("ᾀ", "ἈΙ");
  ("ᾁ", "ἉΙ"); ("ᾂ", "ἊΙ"); ("ᾃ", "ἋΙ"); ("ᾄ", "ἌΙ");
  ("ᾅ", "ἍΙ"); ("ᾆ", "ἎΙ"); ("ᾇ", "ἏΙ"); ("ᾈ", "ἈΙ");
  ("ᾉ", "ἉΙ"); ("ᾊ", "ἊΙ"); ("ᾋ", "ἋΙ"); ("ᾌ", "ἌΙ");
  ("ᾍ", "ἍΙ"); ("ᾎ", "ἎΙ"); ("ᾏ", "ἏΙ"); ("ᾐ", "ἨΙ");
  ("ᾑ", "ἩΙ"); ("ᾒ", "ἪΙ"); ("ᾓ", "ἫΙ"); ("ᾔ", "ἬΙ");
  ("ᾕ", "ἭΙ"); ("ᾖ", "ἮΙ"); ("ᾗ", "ἯΙ"); ("ᾘ", "ἨΙ");
  ("ᾙ", "ἩΙ"); ("ᾚ", "ἪΙ"); ("ᾛ", "ἫΙ"); ("ᾜ", "ἬΙ");
  ("ᾝ", "ἭΙ"); ("ᾞ", "ἮΙ"); ("ᾟ", "ἯΙ"); ("ᾠ", "ὨΙ");
  ("ᾡ", "ὩΙ"); ("ᾢ", "ὪΙ"); ("ᾣ", "ὫΙ"); ("ᾤ", "ὬΙ");
  ("ᾥ", "ὭΙ"); ("ᾦ", "ὮΙ"); ("ᾧ", "ὯΙ"); ("ᾨ", "ὨΙ");
  ("ᾩ", "ὩΙ"); ("ᾪ", "ὪΙ"); ("ᾫ", "ὫΙ"); ("ᾬ", "ὬΙ");
  ("ᾭ", "ὭΙ"); ("ᾮ", "ὮΙ"); ("ᾯ", "ὯΙ"); ("ᾰ", "Ᾰ");
  ("ᾱ", "Ᾱ"); ("ᾲ", "ᾺΙ"); ("ᾳ", "ΑΙ"); ("ᾴ", "ΆΙ");
  ("ᾶ", "Α͂"); ("ᾷ", "Α͂Ι"); ("ᾼ", "ΑΙ"); ("ι", "Ι");
  ("ῂ", "ῊΙ"); ("ῃ", "ΗΙ"); ("ῄ", "ΉΙ"); ("ῆ", "Η͂");
  ("ῇ", "Η͂Ι"); ("ῌ", "ΗΙ"); ("ῐ", "Ῐ"); ("ῑ", "Ῑ");
  ("ῒ", "Ϊ̀"); ("ΐ", "Ϊ́"); ("ῖ", "Ι͂"); ("ῗ", "Ϊ͂");
  ("ῠ", "Ῠ"); ("ῡ", "Ῡ"); ("ῢ", "Ϋ̀"); ("ΰ", "Ϋ́");
  ("ῤ", "Ρ̓"); ("ῥ", "Ῥ"); ("ῦ", "Υ͂"); ("ῧ", "Ϋ͂");
  ("ῲ", "ῺΙ"); ("ῳ", "ΩΙ"); ("ῴ", "ΏΙ"); ("ῶ", "Ω͂");
  ("ῷ", "Ω͂Ι"); ("ῼ", "ΩΙ"); ("ⅎ", "Ⅎ"); ("ⅰ", "Ⅰ");
  ("ⅱ", "Ⅱ"); ("ⅲ", "Ⅲ"); ("ⅳ", "Ⅳ"); ("ⅴ", "Ⅴ");
  ("ⅵ", "Ⅵ"); ("ⅶ", "Ⅶ"); ("ⅷ", "Ⅷ"); ("ⅸ", "Ⅸ");
  ("ⅹ", "Ⅹ"); ("ⅺ", "Ⅺ"); ("ⅻ", "Ⅻ"); ("ⅼ", "Ⅼ");
  ("ⅽ", "Ⅽ"); ("ⅾ", "Ⅾ"); ("ⅿ", "Ⅿ"); ("ↄ", "Ↄ");
  ("ⓐ", "Ⓐ"); ("ⓑ", "Ⓑ"); ("ⓒ", "Ⓒ"); ("ⓓ", "Ⓓ");
  ("ⓔ", "Ⓔ"); ("ⓕ", "Ⓕ"); ("ⓖ", "Ⓖ"); ("ⓗ", "Ⓗ");
  ("ⓘ", "Ⓘ"); ("ⓙ", "Ⓙ"); ("ⓚ", "Ⓚ"); ("ⓛ", "Ⓛ");
  ("ⓜ", "Ⓜ"); ("ⓝ", "Ⓝ"); ("ⓞ", "Ⓞ"); ("ⓟ", "Ⓟ");
  ("ⓠ", "Ⓠ"); ("ⓡ", "Ⓡ"); ("ⓢ", "Ⓢ"); ("ⓣ", "Ⓣ");
  ("ⓤ", "Ⓤ"); ("ⓥ", "Ⓥ"); ("ⓦ", "Ⓦ"); ("ⓧ", "Ⓧ");
  ("ⓨ", "Ⓨ"); ("ⓩ", "Ⓩ"); ("ⰰ", "Ⰰ"); ("ⰱ", "Ⰱ");
  ("ⰲ", "Ⰲ"); ("ⰳ", "Ⰳ"); ("ⰴ", "Ⰴ"); ("ⰵ", "Ⰵ");
  ("ⰶ", "Ⰶ"); ("ⰷ", "Ⰷ"); ("ⰸ", "Ⰸ"); ("ⰹ", "Ⰹ");
  ("ⰺ", "Ⰺ"); ("ⰻ", "Ⰻ"); ("ⰼ", "Ⰼ"); ("ⰽ", "Ⰽ");
  ("ⰾ", "Ⰾ"); ("ⰿ", "Ⰿ"); ("ⱀ", "Ⱀ"); ("ⱁ", "Ⱁ");
  ("ⱂ", "Ⱂ"); ("ⱃ", "Ⱃ"); ("ⱄ", "Ⱄ"); ("ⱅ", "Ⱅ");
  ("ⱆ", "Ⱆ"); ("ⱇ", "Ⱇ"); ("ⱈ", "Ⱈ"); ("ⱉ", "Ⱉ");
  ("ⱊ", "Ⱊ"); ("ⱋ", "Ⱋ"); ("ⱌ", "Ⱌ"); ("ⱍ", "Ⱍ");
  ("ⱎ", "Ⱎ"); ("ⱏ", "Ⱏ"); ("ⱐ", "Ⱐ"); ("ⱑ", "Ⱑ");
  ("ⱒ", "Ⱒ"); ("ⱓ", "Ⱓ"); ("ⱔ", "Ⱔ"); ("ⱕ", "Ⱕ");
  ("ⱖ", "Ⱖ"); ("ⱗ", "Ⱗ"); ("ⱘ", "Ⱘ"); ("ⱙ", "Ⱙ");
  ("ⱚ", "Ⱚ"); ("ⱛ", "Ⱛ"); ("ⱜ", "Ⱜ"); ("ⱝ", "Ⱝ");
  ("ⱞ", "Ⱞ"); ("ⱟ", "Ⱟ"); ("ⱡ", "Ⱡ"); ("ⱥ", "Ⱥ");
  ("ⱦ", "Ⱦ"); ("ⱨ", "Ⱨ"); ("ⱪ", "Ⱪ"); ("ⱬ", "Ⱬ");
  ("ⱳ", "Ⱳ"); ("ⱶ", "Ⱶ"); ("ⲁ", "Ⲁ"); ("ⲃ", "Ⲃ");
  ("ⲅ", "Ⲅ"); ("ⲇ", "Ⲇ"); ("ⲉ", "Ⲉ"); ("ⲋ", "Ⲋ");
  ("ⲍ", "Ⲍ"); ("ⲏ", "Ⲏ"); ("ⲑ", "Ⲑ"); ("ⲓ", "Ⲓ");
  ("ⲕ", "Ⲕ"); ("ⲗ", "Ⲗ"); ("ⲙ", "Ⲙ"); ("ⲛ", "Ⲛ");
  ("ⲝ", "Ⲝ"); ("ⲟ", "Ⲟ"); ("ⲡ", "Ⲡ"); ("ⲣ", "Ⲣ");
  ("ⲥ", "Ⲥ"); ("ⲧ", "Ⲧ"); ("ⲩ", "Ⲩ"); ("ⲫ", "Ⲫ");
  ("ⲭ", "Ⲭ"); ("ⲯ", "Ⲯ"); ("ⲱ", "Ⲱ"); ("ⲳ", "Ⲳ");
  ("ⲵ", "Ⲵ"); ("ⲷ", "Ⲷ"); ("ⲹ", "Ⲹ"); ("ⲻ", "Ⲻ");
  ("ⲽ", "Ⲽ"); ("ⲿ", "Ⲿ"); ("ⳁ", "Ⳁ"); ("ⳃ", "Ⳃ");
  ("ⳅ", "Ⳅ"); ("ⳇ", "Ⳇ"); ("ⳉ", "Ⳉ"); ("ⳋ", "Ⳋ");
  ("ⳍ", "Ⳍ"); ("ⳏ", "Ⳏ"); ("ⳑ", "Ⳑ"); ("ⳓ", "Ⳓ");
  ("ⳕ", "Ⳕ"); ("ⳗ", "Ⳗ"); ("ⳙ", "Ⳙ"); ("ⳛ", "Ⳛ");
  ("ⳝ", "Ⳝ"); ("ⳟ", "Ⳟ"); ("ⳡ", "Ⳡ"); ("ⳣ", "Ⳣ");
  ("ⳬ", "Ⳬ"); ("ⳮ", "Ⳮ"); ("ⳳ", "Ⳳ"); ("ⴀ", "Ⴀ");
  ("ⴁ", "Ⴁ"); ("ⴂ", "Ⴂ"); ("ⴃ", "Ⴃ"); ("ⴄ", "Ⴄ");
  ("ⴅ", "Ⴅ"); ("ⴆ", "Ⴆ"); ("ⴇ", "Ⴇ"); ("ⴈ", "Ⴈ");
  ("ⴉ", "Ⴉ"); ("ⴊ", "Ⴊ"); ("ⴋ", "Ⴋ"); ("ⴌ", "Ⴌ");
  ("ⴍ", "Ⴍ"); ("ⴎ", "Ⴎ"); ("ⴏ", "Ⴏ"); ("ⴐ", "Ⴐ");
  ("ⴑ", "Ⴑ"); ("ⴒ", "Ⴒ"); ("ⴓ", "Ⴓ"); ("ⴔ", "Ⴔ");
  ("ⴕ", "Ⴕ"); ("ⴖ", "Ⴖ"); ("ⴗ", "Ⴗ"); ("ⴘ", "Ⴘ");
  ("ⴙ", "Ⴙ"); ("ⴚ", "Ⴚ"); ("ⴛ", "Ⴛ"); ("ⴜ", "Ⴜ");
  ("ⴝ", "Ⴝ"); ("ⴞ", "Ⴞ"); ("ⴟ", "Ⴟ"); ("ⴠ", "Ⴠ");
  ("ⴡ", "Ⴡ"); ("ⴢ", "Ⴢ"); ("ⴣ", "Ⴣ"); ("ⴤ", "Ⴤ");
  ("ⴥ", "Ⴥ"); ("ⴧ", "Ⴧ"); ("ⴭ", "Ⴭ"); ("ꙁ", "Ꙁ");
  ("ꙃ", "Ꙃ"); ("ꙅ", "Ꙅ"); ("ꙇ", "Ꙇ"); ("ꙉ", "Ꙉ");
  ("ꙋ", "Ꙋ"); ("ꙍ", "Ꙍ"); ("ꙏ", "Ꙏ"); ("ꙑ", "Ꙑ");
  ("ꙓ", "Ꙓ"); ("ꙕ", "Ꙕ"); ("ꙗ", "Ꙗ"); ("ꙙ", "Ꙙ");
  ("ꙛ", "Ꙛ"); ("ꙝ", "Ꙝ"); ("ꙟ", "Ꙟ"); ("ꙡ", "Ꙡ");
  ("ꙣ", "Ꙣ"); ("ꙥ", "Ꙥ"); ("ꙧ", "Ꙧ"); ("ꙩ", "Ꙩ");
  ("ꙫ", "Ꙫ"); ("ꙭ", "Ꙭ"); ("ꚁ", "Ꚁ"); ("ꚃ", "Ꚃ");
  ("ꚅ", "Ꚅ"); ("ꚇ", "Ꚇ"); ("ꚉ", "Ꚉ"); ("ꚋ", "Ꚋ");
  ("ꚍ", "Ꚍ"); ("ꚏ", "Ꚏ"); ("ꚑ", "Ꚑ"); ("ꚓ", "Ꚓ");
  ("ꚕ", "Ꚕ"); ("ꚗ", "Ꚗ"); ("ꚙ", "Ꚙ"); ("ꚛ", "Ꚛ");
  ("ꜣ", "Ꜣ"); ("ꜥ", "Ꜥ"); ("ꜧ", "Ꜧ"); ("ꜩ", "Ꜩ");
  ("ꜫ", "Ꜫ"); ("ꜭ", "Ꜭ"); ("ꜯ", "Ꜯ"); ("ꜳ", "Ꜳ");
  ("ꜵ", "Ꜵ"); ("ꜷ", "Ꜷ"); ("ꜹ", "Ꜹ"); ("ꜻ", "Ꜻ");
  ("ꜽ", "Ꜽ"); ("ꜿ", "Ꜿ"); ("ꝁ", "Ꝁ"); ("ꝃ", "Ꝃ");
  ("ꝅ", "Ꝅ"); ("ꝇ", "Ꝇ"); ("ꝉ", "Ꝉ"); ("ꝋ", "Ꝋ");
  ("ꝍ", "Ꝍ"); ("ꝏ", "Ꝏ"); ("ꝑ", "Ꝑ"); ("ꝓ", "Ꝓ");
  ("ꝕ", "Ꝕ"); ("ꝗ", "Ꝗ"); ("ꝙ", "Ꝙ"); ("ꝛ", "Ꝛ");
  ("ꝝ", "Ꝝ"); ("ꝟ", "Ꝟ"); ("ꝡ", "Ꝡ"); ("ꝣ", "Ꝣ");
  ("ꝥ", "Ꝥ"); ("ꝧ", "Ꝧ"); ("ꝩ", "Ꝩ"); ("ꝫ", "Ꝫ");
  ("ꝭ", "Ꝭ"); ("ꝯ", "Ꝯ"); ("ꝺ", "Ꝺ"); ("ꝼ", "Ꝼ");
  ("ꝿ", "Ꝿ"); ("ꞁ", "Ꞁ"); ("ꞃ", "Ꞃ"); ("ꞅ", "Ꞅ");
  ("ꞇ", "Ꞇ"); ("ꞌ", "Ꞌ"); ("ꞑ", "Ꞑ"); ("ꞓ", "Ꞓ");
  ("ꞔ", "Ꞔ"); ("ꞗ", "Ꞗ"); ("ꞙ", "Ꞙ"); ("ꞛ", "Ꞛ");
  ("ꞝ", "Ꞝ"); ("ꞟ", "Ꞟ"); ("ꞡ", "Ꞡ"); ("ꞣ", "Ꞣ");
  ("ꞥ", "Ꞥ"); ("ꞧ", "Ꞧ"); ("ꞩ", "Ꞩ"); ("ꞵ", "Ꞵ");
  ("ꞷ", "Ꞷ"); ("ꞹ", "Ꞹ"); ("ꞻ", "Ꞻ"); ("ꞽ", "Ꞽ");
  ("ꞿ", "Ꞿ"); ("ꟁ", "Ꟁ"); ("ꟃ", "Ꟃ"); ("ꟈ", "Ꟈ");
  ("ꟊ", "Ꟊ"); ("ꟑ", "Ꟑ"); ("ꟗ", "Ꟗ"); ("ꟙ", "Ꟙ");
  ("ꟶ", "Ꟶ"); ("ꭓ", "Ꭓ"); ("ꭰ", "Ꭰ"); ("ꭱ", "Ꭱ");
  ("ꭲ", "Ꭲ"); ("ꭳ", "Ꭳ"); ("ꭴ", "Ꭴ"); ("ꭵ", "Ꭵ");
  ("ꭶ", "Ꭶ"); ("ꭷ", "Ꭷ"); ("ꭸ", "Ꭸ"); ("ꭹ", "Ꭹ");
  ("ꭺ", "Ꭺ"); ("ꭻ", "Ꭻ"); ("ꭼ", "Ꭼ"); ("ꭽ", "Ꭽ");
  ("ꭾ", "Ꭾ"); ("ꭿ", "Ꭿ"); ("ꮀ", "Ꮀ"); ("ꮁ", "Ꮁ");
  ("ꮂ", "Ꮂ"); ("ꮃ", "Ꮃ"); ("ꮄ", "Ꮄ"); ("ꮅ", "Ꮅ");
  ("ꮆ", "Ꮆ"); ("ꮇ", "Ꮇ"); ("ꮈ", "Ꮈ"); ("ꮉ", "Ꮉ");
  ("ꮊ", "Ꮊ"); ("ꮋ", "Ꮋ"); ("ꮌ", "Ꮌ"); ("ꮍ", "Ꮍ");
  ("ꮎ", "Ꮎ"); ("ꮏ", "Ꮏ"); ("ꮐ", "Ꮐ"); ("ꮑ", "Ꮑ");
  ("ꮒ", "Ꮒ"); ("ꮓ", "Ꮓ"); ("ꮔ", "Ꮔ"); ("ꮕ", "Ꮕ");
  ("ꮖ", "Ꮖ"); ("ꮗ", "Ꮗ"); ("ꮘ", "Ꮘ"); ("ꮙ", "Ꮙ");
  ("ꮚ", "Ꮚ"); ("ꮛ", "Ꮛ"); ("ꮜ", "Ꮜ"); ("ꮝ", "Ꮝ");
  ("ꮞ", "Ꮞ"); ("ꮟ", "Ꮟ"); ("ꮠ", "Ꮠ"); ("ꮡ", "Ꮡ");
  ("ꮢ", "Ꮢ"); ("ꮣ", "Ꮣ"); ("ꮤ", "Ꮤ"); ("ꮥ", "Ꮥ");
  ("ꮦ", "Ꮦ"); ("ꮧ", "Ꮧ"); ("ꮨ", "Ꮨ"); ("ꮩ", "Ꮩ");
  ("ꮪ", "Ꮪ"); ("ꮫ", "Ꮫ"); ("ꮬ", "Ꮬ"); ("ꮭ", "Ꮭ");
  ("ꮮ", "Ꮮ"); ("ꮯ", "Ꮯ"); ("ꮰ", "Ꮰ"); ("ꮱ", "Ꮱ");
  ("ꮲ", "Ꮲ"); ("ꮳ", "Ꮳ"); ("ꮴ", "Ꮴ"); ("ꮵ", "Ꮵ");
  ("ꮶ", "Ꮶ"); ("ꮷ", "Ꮷ"); ("ꮸ", "Ꮸ"); ("ꮹ", "Ꮹ");
  ("ꮺ", "Ꮺ"); ("ꮻ", "Ꮻ"); ("ꮼ", "Ꮼ"); ("ꮽ", "Ꮽ");
  ("ꮾ", "Ꮾ"); ("ꮿ", "Ꮿ"); ("ﬀ", "FF"); ("ﬁ", "FI");
  ("ﬂ", "FL"); ("ﬃ", "FFI"); ("ﬄ", "FFL"); ("ﬅ", "ST");
  ("ﬆ", "ST"); ("ﬓ", "ՄՆ"); ("ﬔ", "ՄԵ"); ("ﬕ", "ՄԻ");
  ("ﬖ", "ՎՆ"); ("ﬗ", "ՄԽ"); ("ａ", "Ａ"); ("ｂ", "Ｂ");
  ("ｃ", "Ｃ"); ("ｄ", "Ｄ"); ("ｅ", "Ｅ"); ("ｆ", "Ｆ");
  ("ｇ", "Ｇ"); ("ｈ", "Ｈ"); ("ｉ", "Ｉ"); ("ｊ", "Ｊ");
  ("ｋ", "Ｋ"); ("ｌ", "Ｌ"); ("ｍ", "Ｍ"); ("ｎ", "Ｎ");
  ("ｏ", "Ｏ"); ("ｐ", "Ｐ"); ("ｑ", "Ｑ"); ("ｒ", "Ｒ");
  ("ｓ", "Ｓ"); ("ｔ", "Ｔ"); ("ｕ", "Ｕ"); ("ｖ", "Ｖ");
  ("ｗ", "Ｗ"); ("ｘ", "Ｘ"); ("ｙ", "Ｙ"); ("ｚ", "Ｚ");
  ("𐐨", "𐐀"); ("𐐩", "𐐁"); ("𐐪", "𐐂"); ("𐐫", "𐐃");
  ("𐐬", "𐐄"); ("𐐭", "𐐅"); ("𐐮", "𐐆"); ("𐐯", "𐐇");
  ("𐐰", "𐐈"); ("𐐱", "𐐉"); ("𐐲", "𐐊"); ("𐐳", "𐐋");
  ("𐐴", "𐐌"); ("𐐵", "𐐍"); ("𐐶", "𐐎"); ("𐐷", "𐐏");
  ("𐐸", "𐐐"); ("𐐹", "𐐑"); ("𐐺", "𐐒"); ("𐐻", "𐐓");
  ("𐐼", "𐐔"); ("𐐽", "𐐕"); ("𐐾", "𐐖"); ("𐐿", "𐐗");
  ("𐑀", "𐐘"); ("𐑁", "𐐙"); ("𐑂", "𐐚"); ("𐑃", "𐐛");
  ("𐑄", "𐐜"); ("𐑅", "𐐝"); ("𐑆", "𐐞"); ("𐑇", "𐐟");
  ("𐑈", "𐐠"); ("𐑉", "𐐡"); ("𐑊", "𐐢"); ("𐑋", "𐐣");
  ("𐑌", "𐐤"); ("𐑍", "𐐥"); ("𐑎", "𐐦"); ("𐑏", "𐐧");
  ("𐓘", "𐒰"); ("𐓙", "𐒱"); ("𐓚", "𐒲"); ("𐓛", "𐒳");
  ("𐓜", "𐒴"); ("𐓝", "𐒵"); ("𐓞", "𐒶"); ("𐓟", "𐒷");
  ("𐓠", "𐒸"); ("𐓡", "𐒹"); ("𐓢", "𐒺"); ("𐓣", "𐒻");
  ("𐓤", "𐒼"); ("𐓥", "𐒽"); ("𐓦", "𐒾"); ("𐓧", "𐒿");
  ("𐓨", "𐓀"); ("𐓩", "𐓁"); ("𐓪", "𐓂"); ("𐓫", "𐓃");
  ("𐓬", "𐓄"); ("𐓭", "𐓅"); ("𐓮", "𐓆"); ("𐓯", "𐓇");
  ("𐓰", "𐓈"); ("𐓱", "𐓉"); ("𐓲", "𐓊"); ("𐓳", "𐓋");
  ("𐓴", "𐓌"); ("𐓵", "𐓍"); ("𐓶", "𐓎"); ("𐓷", "𐓏");
  ("𐓸", "𐓐"); ("𐓹", "𐓑"); ("𐓺", "𐓒"); ("𐓻", "𐓓");
  ("𐖗", "𐕰"); ("𐖘", "𐕱"); ("𐖙", "𐕲"); ("𐖚", "𐕳");
  ("𐖛", "𐕴"); ("𐖜", "𐕵"); ("𐖝", "𐕶"); ("𐖞", "𐕷");
  ("𐖟", "𐕸"); ("𐖠", "𐕹"); ("𐖡", "𐕺"); ("𐖣", "𐕼");
  ("𐖤", "𐕽"); ("𐖥", "𐕾"); ("𐖦", "𐕿"); ("𐖧", "𐖀");
  ("𐖨", "𐖁"); ("𐖩", "𐖂"); ("𐖪", "𐖃"); ("𐖫", "𐖄");
  ("𐖬", "𐖅"); ("𐖭", "𐖆"); ("𐖮", "𐖇"); ("𐖯", "𐖈");
  ("𐖰", "𐖉"); ("𐖱", "𐖊"); ("𐖳", "𐖌"); ("𐖴", "𐖍");
  ("𐖵", "𐖎"); ("𐖶", "𐖏"); ("𐖷", "𐖐"); ("𐖸", "𐖑");
  ("𐖹", "𐖒"); ("𐖻", "𐖔"); ("𐖼", "𐖕"); ("𐳀", "𐲀");
  ("𐳁", "𐲁"); ("𐳂", "𐲂"); ("𐳃", "𐲃"); ("𐳄", "𐲄");
  ("𐳅", "𐲅"); ("𐳆", "𐲆"); ("𐳇", "𐲇"); ("𐳈", "𐲈");
  ("𐳉", "𐲉"); ("𐳊", "𐲊"); ("𐳋", "𐲋"); ("𐳌", "𐲌");
  ("𐳍", "𐲍"); ("𐳎", "𐲎"); ("𐳏", "𐲏"); ("𐳐", "𐲐");
  ("𐳑", "𐲑"); ("𐳒", "𐲒"); ("𐳓", "𐲓"); ("𐳔", "𐲔");
  ("𐳕", "𐲕"); ("𐳖", "𐲖"); ("𐳗", "𐲗"); ("𐳘", "𐲘");
  ("𐳙", "𐲙"); ("𐳚", "𐲚"); ("𐳛", "𐲛"); ("𐳜", "𐲜");
  ("𐳝", "𐲝"); ("𐳞", "𐲞"); ("𐳟", "𐲟"); ("𐳠", "𐲠");
  ("𐳡", "𐲡"); ("𐳢", "𐲢"); ("𐳣", "𐲣"); ("𐳤", "𐲤");
  ("𐳥", "𐲥"); ("𐳦", "𐲦"); ("𐳧", "𐲧"); ("𐳨", "𐲨");
  ("𐳩", "𐲩"); ("𐳪", "𐲪"); ("𐳫", "𐲫"); ("𐳬", "𐲬");
  ("𐳭", "𐲭"); ("𐳮", "𐲮"); ("𐳯", "𐲯"); ("𐳰", "𐲰");
  ("𐳱", "𐲱"); ("𐳲", "𐲲"); ("𑣀", "𑢠"); ("𑣁", "𑢡");
  ("𑣂", "𑢢"); ("𑣃", "𑢣"); ("𑣄", "𑢤"); ("𑣅", "𑢥");
  ("𑣆", "𑢦"); ("𑣇", "𑢧"); ("𑣈", "𑢨"); ("𑣉", "𑢩");
  ("𑣊", "𑢪"); ("𑣋", "𑢫"); ("𑣌", "𑢬"); ("𑣍", "𑢭");
  ("𑣎", "𑢮"); ("𑣏", "𑢯"); ("𑣐", "𑢰"); ("𑣑", "𑢱");
  ("𑣒", "𑢲"); ("𑣓", "𑢳"); ("𑣔", "𑢴"); ("𑣕", "𑢵");
  ("𑣖", "𑢶"); ("𑣗", "𑢷"); ("𑣘", "𑢸"); ("𑣙", "𑢹");
  ("𑣚", "𑢺"); ("𑣛", "𑢻"); ("𑣜", "𑢼"); ("𑣝", "𑢽");
  ("𑣞", "𑢾"); ("𑣟", "𑢿"); ("𖹠", "𖹀"); ("𖹡", "𖹁");
  ("𖹢", "𖹂"); ("𖹣", "𖹃"); ("𖹤", "𖹄"); ("𖹥", "𖹅");
  ("𖹦", "𖹆"); ("𖹧", "𖹇"); ("𖹨", "𖹈"); ("𖹩", "𖹉");
  ("𖹪", "𖹊"); ("𖹫", "𖹋"); ("𖹬", "𖹌"); ("𖹭", "𖹍");
  ("𖹮", "𖹎"); ("𖹯", "𖹏"); ("𖹰", "𖹐"); ("𖹱", "𖹑");
  ("𖹲", "𖹒"); ("𖹳", "𖹓"); ("𖹴", "𖹔"); ("𖹵", "𖹕");
  ("𖹶", "𖹖"); ("𖹷", "𖹗"); ("𖹸", "𖹘"); ("𖹹", "𖹙");
  ("𖹺", "𖹚"); ("𖹻", "𖹛"); ("𖹼", "𖹜"); ("𖹽", "𖹝");
  ("𖹾", "𖹞"); ("𖹿", "𖹟"); ("𞤢", "𞤀"); ("𞤣", "𞤁");
  ("𞤤", "𞤂"); ("𞤥", "𞤃"); ("𞤦", "𞤄"); ("𞤧", "𞤅");
  ("𞤨", "𞤆"); ("𞤩", "𞤇"); ("𞤪", "𞤈"); ("𞤫", "𞤉");
  ("𞤬", "𞤊"); ("𞤭", "𞤋"); ("𞤮", "𞤌"); ("𞤯", "𞤍");
  ("𞤰", "𞤎"); ("𞤱", "𞤏"); ("𞤲", "𞤐"); ("𞤳", "𞤑");
  ("𞤴", "𞤒"); ("𞤵", "𞤓"); ("𞤶", "𞤔"); ("𞤷", "𞤕");
  ("𞤸", "𞤖"); ("𞤹", "𞤗"); ("𞤺", "𞤘"); ("𞤻", "𞤙");
  ("𞤼", "𞤚"); ("𞤽", "𞤛"); ("𞤾", "𞤜"); ("𞤿", "𞤝");
  ("𞥀", "𞤞"); ("𞥁", "𞤟"); ("𞥂", "𞤠"); ("𞥃", "𞤡")
].

Fixpoint unicode_lookup (t : list (string * string)) (ch : string) : string :=
  match t with
  | [] => ch
  | (k, v) :: t' => if String.eqb k ch then v else unicode_lookup t' ch
  end.

(** The upper case of one character. *)
Definition upper_char (ch : string) : string :=
  match ch with
  | String c EmptyString => String (to_upper c) EmptyString
  | _ => unicode_lookup unicode_upper ch
  end.

(** [s.upper()]. *)
Definition str_upper (s : string) : string :=
  String.concat "" (map upper_char (utf8_chars s)).

(** [s.title()]: a letter that follows a non-letter is upper-cased, every
    other letter lower-cased.  The program calls it on the keys of
    [queries] only, which are ASCII; so are the letters cased here. *)
Fixpoint title_from (after_letter : bool) (s : string) : string :=
  match s with
  | EmptyString => EmptyString
  | String c s' =>
      let letter := is_lower c || is_upper c in
      String (if after_letter then to_lower c else to_upper c)
             (title_from letter s')
  end.

Definition str_title (s : string) : string := title_from false s.

(** [str(z)] for an int. *)
Definition str_of_Z (z : Z) : string := NilZero.string_of_int (Z.to_int z).

(** [sep.join(l)]. *)
Definition str_join (sep : string) (l : list string) : string :=
  String.concat sep l.

(** [s[:n]]: the first [n] characters. *)
Fixpoint str_prefix (n : nat) (s : string) : string :=
  match s with
  | EmptyString => EmptyString
  | String c s' =>
      if is_continuation c then String c (str_prefix n s')
      else match n with
           | O => EmptyString
           | S n' => String c (str_prefix n' s')
           end
  end.

(** ** Numeric operators on untyped values *)

Definition int_of (v : pyval) : option Z :=
  match v with
  | PInt z => Some z
  | PBool b => Some (if b then 1 else 0)
  | _ => None
  end.

Definition is_real (v : pyval) : bool :=
  match v with
  | PInt _ | PBool _ | PFloat _ => true
  | _ => false
  end.

(** [a - b]: exact on two ints, binary64 as soon as one operand is a
    float, a [TypeError] for anything that is not a number. *)
Definition py_sub (a b : pyval) : result pyval :=
  match int_of a, int_of b with
  | Some x, Some y => Ok (PInt (x - y))
  | _, _ =>
      if is_real a && is_real b
      then let* x := as_float a in
           let* y := as_float b in
           Ok (PFloat (x - y))
      else Raise (Exn TypeError
                    ("unsupported operand type(s) for -: '" +:+ type_name a
                     +:+ "' and '" +:+ type_name b +:+ "'"))
  end.

(** [k <= v] and [v <= k] for an int literal [k]; ordering an int with a
    value that is not a number raises. *)
Definition py_le_lit (k : Z) (v : pyval) : result bool :=
  match v with
  | PFloat f => Ok (Z2float k <=? f)%float
  | PInt z => Ok (k <=? z)
  | PBool b => Ok (k <=? (if b then 1 else 0))
  | _ => Raise (Exn TypeError
                  ("'<=' not supported between instances of 'int' and '"
                   +:+ type_name v +:+ "'"))
  end.

Definition py_ge_lit (v : pyval) (k : Z) : result bool :=
  match v with
  | PFloat f => Ok (f <=? Z2float k)%float
  | PInt z => Ok (z <=? k)
  | PBool b => Ok ((if b then 1 else 0) <=? k)
  | _ => Raise (Exn TypeError
                  ("'<=' not supported between instances of '"
                   +:+ type_name v +:+ "' and 'int'"))
  end.

(** [format(v, '.4f')]: defined for numbers only; the text itself is only
    printed, so the model keeps whether it raises. *)
Definition format_4f (v : pyval) : result unit :=
  match v with
  | PFloat _ | PBool _ => Ok tt
  | PInt z => let* _ := int_to_float z in Ok tt
  | PStr _ => Raise (Exn ValueError "Unknown format code 'f' for object of type 'str'")
  | _ => Raise (Exn TypeError
                  ("unsupported format string passed to " +:+ type_name v
                   +:+ ".__format__"))
  end.

(** ** The [math] module *)

Definition math_domain_error : exn := Exn ValueError "math domain error".
Definition math_range_error : exn := Exn OverflowError "math range error".

Definition signbit (x : float) : bool :=
  match classify x with
  | NInf | NNormal | NSubn | NZero => true
  | _ => false
  end.

Definition copysign (a y : float) : float :=
  if signbit y then (- abs a)%float else abs a.

Definition Py_MATH_PI : float := 0x1.921fb54442d18p+1%float.

(** [math.radians]: [x * (pi / 180)], no error case of its own. *)
Definition math_radians (v : pyval) : result float :=
  let* x := as_float v in
  Ok (x * (Py_MATH_PI / 180))%float.

(** [math_1] of mathmodule.c: the domain check around a one-argument
    libm function. *)
Definition math_1 (f : float -> float) (x : float) : result float :=
  let r := f x in
  if is_nan r && negb (is_nan x) then Raise math_domain_error
  else if is_infinity r && is_finite x then Raise math_domain_error
  else Ok r.

(** [math_2] of mathmodule.c. *)
Definition math_2 (f : float -> float -> float) (x y : float) : result float :=
  let r := f x y in
  if is_nan r then
    if negb (is_nan x) && negb (is_nan y) then Raise math_domain_error else Ok r
  else if is_infinity r then
    if is_finite x && is_finite y then Raise math_range_error else Ok r
  else Ok r.

(** The platform's C library: [sin], [cos], [atan2] and [pow] of
    <math.h> ([sqrt] is IEEE 754's, which the primitive floats have). *)
Record LibM : Type := {
  c_sin : float -> float;
  c_cos : float -> float;
  c_atan2 : float -> float -> float;
  c_pow : float -> float -> float
}.

(** What ISO C (Annex F) fixes exactly and the distance code relies on:
    [sin(±0) = ±0], [cos(±0) = 1], and NaN for [sin] and [cos] of an
    infinity. *)
Record AnnexF (m : LibM) : Prop := {
  sin_zero : c_sin m 0%float = 0%float;
  cos_zero : c_cos m 0%float = 1%float;
  sin_infinity : c_sin m infinity = nan /\ c_sin m neg_infinity = nan;
  cos_infinity : c_cos m infinity = nan /\ c_cos m neg_infinity = nan
}.

(** *** A reference libm

    Series implementations, accurate on the arguments the haversine
    formula produces for valid coordinates; they let the model run on
    concrete inputs. *)

Fixpoint sin_series (k : nat) (x2 acc : float) : float :=
  match k with
  | O => acc
  | S k' =>
      let n := Z2float (Z.of_nat (2 * k) * Z.of_nat (2 * k + 1)) in
      sin_series k' x2 (1 - x2 / n * acc)%float
  end.

Definition ref_sin (x : float) : float :=
  if is_nan x || is_infinity x then nan
  else (x * sin_series 12 (x * x) 1)%float.

Fixpoint cos_series (k : nat) (x2 acc : float) : float :=
  match k with
  | O => acc
  | S k' =>
      let n := Z2float (Z.of_nat (2 * k - 1) * Z.of_nat (2 * k)) in
      cos_series k' x2 (1 - x2 / n * acc)%float
  end.

Definition ref_cos (x : float) : float :=
  if is_nan x || is_infinity x then nan
  else cos_series 12 (x * x) 1%float.

Fixpoint atan_series (k : nat) (t2 acc : float) : float :=
  match k with
  | O => acc
  | S k' =>
      let a := Z2float (Z.of_nat (2 * k - 1)) in
      let b := Z2float (Z.of_nat (2 * k + 1)) in
      atan_series k' t2 (1 - t2 * a / b * acc)%float
  end.

(** [atan t] for [0 <= t]: two argument halvings, then the series. *)
Definition ref_atan_pos (t : float) : float :=
  let small (u : float) : float :=
    let h (v : float) := (v / (1 + PrimFloat.sqrt (1 + v * v)))%float in
    let v := h (h u) in
    (4 * (v * atan_series 14 (v * v) 1))%float in
  if (1 <? t)%float then (Py_MATH_PI / 2 - small (1 / t))%float else small t.

Definition ref_atan2 (y x : float) : float :=
  let a := ref_atan_pos (abs (y / x)) in
  let r := if (x <? 0)%float then (Py_MATH_PI - a)%float
           else if (x =? 0)%float then (Py_MATH_PI / 2)%float
           else a in
  copysign r y.

(** [pow(x, y)] for the exponents 0, 1 and 2. *)
Definition ref_pow (x y : float) : float :=
  if (y =? 2)%float then (x * x)%float
  else if (y =? 1)%float then x
  else if (y =? 0)%float then 1%float
  else nan.

Definition ref_libm : LibM :=
  {| c_sin := ref_sin; c_cos := ref_cos; c_atan2 := ref_atan2;
     c_pow := ref_pow |}.

Section SafetyEngine.

Variable libm : LibM.

Definition math_sin : float -> result float := math_1 (c_sin libm).
Definition math_cos : float -> result float := math_1 (c_cos libm).
Definition math_sqrt : float -> result float := math_1 PrimFloat.sqrt.

(** [m_atan2] of mathmodule.c: the special cases CPython settles before
    it calls libm. *)
Definition m_atan2 (y x : float) : float :=
  if is_nan x || is_nan y then nan
  else if is_infinity y then
    if is_infinity x then
      if (copysign 1 x =? 1)%float
      then copysign (0.25 * Py_MATH_PI) y
      else copysign (0.75 * Py_MATH_PI) y
    else copysign (0.5 * Py_MATH_PI) y
  else if is_infinity x || (y =? 0)%float then
    if (copysign 1 x =? 1)%float
    then copysign 0 y
    else copysign Py_MATH_PI y
  else c_atan2 libm y x.

Definition math_atan2 : float -> float -> result float := math_2 m_atan2.

(** [x ** 2] on a float ([float_pow] of floatobject.c with the exponent
    [2.0]). *)
Definition float_pow2 (iv : float) : result float :=
  if is_nan iv then Ok iv
  else if is_infinity iv then Ok (abs iv)
  else if (iv =? 0)%float then Ok 0%float
  else
    let iv := if (iv <? 0)%float then (- iv)%float else iv in
    if (iv =? 1)%float then Ok 1%float
    else
      let ix := c_pow libm iv 2 in
      if is_infinity ix
      then Raise (Exn OverflowError "(34, 'Numerical result out of range')")
      else Ok ix.

(** ** safety_engine.py *)

Definition TIMEOUT : Z := 15.

Definition COUNTRY_BASELINES : list (string * float) :=
  [ ("NO", 1.18); ("SE", 1.16); ("DK", 1.16); ("FI", 1.17); ("CH", 1.15);
    ("CA", 1.11); ("DE", 1.10); ("AU", 1.09); ("GB", 1.08); ("US", 1.04);
    ("IN", 0.88); ("BR", 0.89); ("CN", 0.94); ("MX", 0.84);
    ("DEFAULT", 1.00) ]%float.

(** The four entries of [WEIGHTS]. *)
Definition WEIGHTS_temporal_risk : float := 0.28.
Definition WEIGHTS_emergency_proximity : float := 0.27.
Definition WEIGHTS_population_density : float := 0.25.
Definition WEIGHTS_infrastructure : float := 0.20.

(** Haversine distance.  The whole body is inside [try]; the bare
    [except] turns any exception into [float('inf')]. *)
Definition calculate_distance (lat1 lon1 lat2 lon2 : pyval) : result float :=
  try_except
    (let* phi1 := math_radians lat1 in
     let* phi2 := math_radians lat2 in
     let* dlat := py_sub lat2 lat1 in
     let* dphi := math_radians dlat in
     let* dlon := py_sub lon2 lon1 in
     let* dlam := math_radians dlon in
     let* s1 := math_sin (dphi / 2) in
     let* p1 := float_pow2 s1 in
     let* c1 := math_cos phi1 in
     let* c2 := math_cos phi2 in
     let* s2 := math_sin (dlam / 2) in
     let* p2 := float_pow2 s2 in
     let a := (p1 + c1 * c2 * p2)%float in
     let* sa := math_sqrt a in
     let* sb := math_sqrt (1 - a) in
     let* t := math_atan2 sa sb in
     Ok (Z2float (6371 * 2) * t)%float)
    (fun _ => Ok infinity).

(** What one call of [requests.post] to the Overpass server does: it
    raises, or it returns a response with a status code and a body that
    [response.json()] decodes or fails to decode. *)
Inductive http_response : Type :=
| RequestFailed (e : exn)
| Response (status_code : Z) (json : result pyval).

(** The world one scoring call runs in: the hour and the ISO timestamp
    [datetime.now()] gives (one reading of the clock serves the whole
    call), and the server's response to the query built for each place
    type. *)
Record world : Type := World {
  hour_now : Z;
  now_isoformat : string;
  overpass : string -> http_response
}.

(** Fetch OSM data with success indicator. *)
Definition fetch_osm_data (resp : http_response) : result (pyval * bool) :=
  try_except
    (match resp with
     | RequestFailed e => Raise e
     | Response status_code json =>
         if status_code =? 200 then
           let* body := json in
           let* elements := py_get body "elements" (PList []) in
           Ok (elements, true)
         else Ok (PList [], false)
     end)
    (fun _ => Ok (PList [], false)).

(** One entry of the list [get_nearby_places] returns. *)
Record place : Type := Place {
  name : pyval;
  type_ : string;
  distance : float;
  latitude : pyval;
  longitude : pyval
}.

(** The keys of the [queries] table. *)
Definition queries : list string :=
  ["hospital"; "police"; "bus_stop"; "train"; "activity"; "infrastructure"].

(** Lines 76-77: the element's own coordinate, else its centre's. *)
Definition resolve_coord (elem : pyval) (key : string) : result pyval :=
  let* a := py_get elem key PNone in
  if truthy a then Ok a
  else let* c := py_get elem "center" (PDict []) in py_get c key PNone.

(** The body of the [try] inside the loop over the elements: [Ok None]
    is a [continue]. *)
Definition place_of_elem_body (lat lon : pyval) (place_type : string)
    (elem : pyval) : result (option place) :=
  let* e_lat := resolve_coord elem "lat" in
  let* e_lon := resolve_coord elem "lon" in
  if negb (truthy (py_and e_lat e_lon)) then Ok None
  else
    let* dist := calculate_distance lat lon e_lat e_lon in
    if (dist =? infinity)%float then Ok None
    else
      let* tags := py_get elem "tags" (PDict []) in
      let* nm := py_get tags "name" (PStr (str_title place_type)) in
      Ok (Some {| name := nm;
                  type_ := place_type;
                  distance := float_round dist 2;
                  latitude := e_lat;
                  longitude := e_lon |}).

(** One iteration of the loop: [except: continue] drops the element. *)
Definition place_of_elem (lat lon : pyval) (place_type : string)
    (elem : pyval) : option place :=
  match place_of_elem_body lat lon place_type elem with
  | Ok r => r
  | Raise _ => None
  end.

Fixpoint places_of_elems (lat lon : pyval) (place_type : string)
    (elements : list pyval) : list place :=
  match elements with
  | [] => []
  | elem :: rest =>
      match place_of_elem lat lon place_type elem with
      | Some p => p :: places_of_elems lat lon place_type rest
      | None => places_of_elems lat lon place_type rest
      end
  end.

(** [sorted(places, key=lambda x: x['distance'])]: a stable sort on the
    float key.  Without a NaN key the floats are totally preordered and
    the stably sorted list is unique, so this is the list [sorted]
    returns.  With a NaN key CPython's answer depends on its run
    detection and merges: the list below is then a permutation of the
    program's and can differ from it in order. *)
Fixpoint insert_by_distance (p : place) (l : list place) : list place :=
  match l with
  | [] => [p]
  | q :: l' =>
      if (distance q <? distance p)%float
      then q :: insert_by_distance p l'
      else p :: q :: l'
  end.

Fixpoint sorted_by_distance (l : list place) : list place :=
  match l with
  | [] => []
  | p :: l' => insert_by_distance p (sorted_by_distance l')
  end.

(** Get nearby places with success status.  The query text only selects
    which response the server gives, which [overpass w place_type]
    provides. *)
Definition get_nearby_places (w : world) (lat lon : pyval)
    (place_type : string) (radius : Z) : result (list place * bool) :=
  if negb (existsb (String.eqb place_type) queries) then Ok ([], false)
  else
    let* (elements, success) := fetch_osm_data (overpass w place_type) in
    if negb success then Ok ([], false)
    else
      let* elems := py_iter elements in
      Ok (sorted_by_distance (places_of_elems lat lon place_type elems), true).

(** *** The report *)

Record Breakdown : Type := {
  temporal_risk : pynum;
  emergency_proximity : pynum;
  population_density : pynum;
  infrastructure : pynum
}.

Record ServiceStatus : Type := {
  overall : string;
  status_color : string;
  unavailable : list string;
  message : option string
}.

Record Nearest : Type := {
  hospital : option place;
  police : option place;
  bus_stop : option place;
  train_station : option place
}.

Record AllPlaces : Type := {
  hospitals : list place;
  police_stations : list place;
  bus_stops : list place;
  train_stations : list place
}.

Record Stats : Type := {
  activity_count : Z;
  infrastructure_count : Z;
  emergency_services_density : pynum
}.

Record SafetyReport : Type := {
  score : pynum;
  rating : string;
  color : string;
  confidence : pynum;
  timestamp : string;
  breakdown : Breakdown;
  time_period : string;
  service_status : ServiceStatus;
  nearest : Nearest;
  all_places : AllPlaces;
  stats : Stats
}.

Definition zero_breakdown : Breakdown :=
  {| temporal_risk := NInt 0; emergency_proximity := NInt 0;
     population_density := NInt 0; infrastructure := NInt 0 |}.

Definition no_nearest : Nearest :=
  {| hospital := None; police := None; bus_stop := None;
     train_station := None |}.

Definition no_places : AllPlaces :=
  {| hospitals := []; police_stations := []; bus_stops := [];
     train_stations := [] |}.

Definition zero_stats : Stats :=
  {| activity_count := 0; infrastructure_count := 0;
     emergency_services_density := NInt 0 |}.

(** The report returned when the minimum required data is not
    available (lines 135-171). *)
Definition unavailable_report (w : world) (period : string) : SafetyReport :=
  {| score := NInt 0;
     rating := "SERVICE UNAVAILABLE";
     color := "#999999";
     confidence := NInt 0;
     timestamp := now_isoformat w;
     breakdown := zero_breakdown;
     time_period := period;
     service_status :=
       {| overall := "Sorry, we don't have services running for this location";
          status_color := "#f44336";
          unavailable := ["emergency_services"; "activity_data"];
          message := Some "Paddos is not available in this area yet. We're working to expand our coverage!" |};
     nearest := no_nearest;
     all_places := no_places;
     stats := zero_stats |}.

(** The report the [except Exception as e] handler returns (lines
    302-324). *)
Definition error_report (w : world) (e : exn) : SafetyReport :=
  {| score := NInt 0;
     rating := "ERROR";
     color := "#999999";
     confidence := NInt 0;
     timestamp := now_isoformat w;
     breakdown := zero_breakdown;
     time_period := str_of_Z (hour_now w) +:+ ":00";
     service_status :=
       {| overall := "System error occurred";
          status_color := "#f44336";
          unavailable := ["all"];
          message := Some ("Error: " +:+ str_prefix 100 (exn_msg e)) |};
     nearest := no_nearest;
     all_places := no_places;
     stats := zero_stats |}.

(** *** The scoring steps *)

(** Time-based risk: [(time_score, period)]. *)
Definition time_risk (hour : Z) : Z * string :=
  if (9 <=? hour) && (hour <=? 18)
  then (88, str_of_Z hour +:+ ":00 - Low Risk")
  else if ((7 <=? hour) && (hour <? 9)) || ((18 <? hour) && (hour <=? 20))
  then (62, str_of_Z hour +:+ ":00 - Moderate Risk")
  else (25, str_of_Z hour +:+ ":00 - High Risk").

(** [min(...)] over floats: the first item stays unless a later one is
    smaller. *)
Definition float_min (x : float) (l : list float) : float :=
  fold_left (fun m y => if (y <? m)%float then y else m) l x.

(** Emergency proximity. *)
Definition emergency_score (emergency : list place) : Z :=
  match emergency with
  | [] => 22
  | p :: rest =>
      let min_dist := float_min (distance p) (map distance rest) in
      if (min_dist <=? 0.8)%float then 96
      else if (min_dist <=? 1.5)%float then 85
      else if (min_dist <=? 2.5)%float then 70
      else if (min_dist <=? 4.0)%float then 50
      else 30
  end.

(** Population density, with [pop_score *= 0.7] at night. *)
Definition population_score (hour act_count : Z) : pynum :=
  let pop_score :=
    if 60 <=? act_count then 92
    else if 40 <=? act_count then 82
    else if 25 <=? act_count then 68
    else if 12 <=? act_count then 50
    else 35 in
  if (hour <? 6) || (22 <? hour)
  then NFloat (Z2float pop_score * 0.7)%float
  else NInt pop_score.

(** Infrastructure. *)
Definition infrastructure_score (hour infra_count : Z) : Z :=
  if (6 <=? hour) && (hour <=? 19) then
    if 20 <=? infra_count then 80 else 65
  else if 20 <=? infra_count then 85
  else if 10 <=? infra_count then 60
  else 30.

(** Calculate weighted score. *)
Definition weighted_score (time_score emerg_score : Z) (pop_score : pynum)
    (infra_score : Z) : float :=
  (Z2float time_score * WEIGHTS_temporal_risk
   + Z2float emerg_score * WEIGHTS_emergency_proximity
   + num_float pop_score * WEIGHTS_population_density
   + Z2float infra_score * WEIGHTS_infrastructure)%float.

(** [d[k]]. *)
Fixpoint table_index (d : list (string * float)) (k : string) : result float :=
  match d with
  | [] => Raise (Exn KeyError ("'" +:+ k +:+ "'"))
  | (k', v) :: d' => if String.eqb k' k then Ok v else table_index d' k
  end.

(** [d.get(k, default)]. *)
Definition table_get (d : list (string * float)) (k : string)
    (default : float) : float :=
  match table_index d k with
  | Ok v => v
  | Raise _ => default
  end.

(** [country_code.upper()]. *)
Definition py_upper (v : pyval) : result string :=
  match v with
  | PStr s => Ok (str_upper s)
  | _ => Raise (Exn AttributeError
                  ("'" +:+ type_name v +:+ "' object has no attribute 'upper'"))
  end.

(** Line 228. *)
Definition country_multiplier (country_code : pyval) : result float :=
  let* code := py_upper country_code in
  let* default := table_index COUNTRY_BASELINES "DEFAULT" in
  Ok (table_get COUNTRY_BASELINES code default).

(** [max(v, k)] and [min(v, k)] with an int literal second: the first
    argument is returned unless the second is strictly beyond it. *)
Definition py_max (v : float) (k : Z) : pynum :=
  if (v <? Z2float k)%float then NInt k else NFloat v.

Definition py_min (v : pynum) (k : Z) : pynum :=
  match v with
  | NInt z => if k <? z then NInt k else NInt z
  | NFloat f => if (Z2float k <? f)%float then NInt k else NFloat f
  end.

(** Line 229: [min(max(raw_score * multiplier, 0), 100)]. *)
Definition final_score_of (raw_score multiplier : float) : pynum :=
  py_min (py_max (raw_score * multiplier)%float 0) 100.

(** Rating: [(rating, color)]. *)
Definition rating_of (final_score : pynum) : string * string :=
  if num_ge final_score 75 then ("SAFE", "#4CAF50")
  else if num_ge final_score 55 then ("MODERATE", "#FFC107")
  else if num_ge final_score 35 then ("CAUTION", "#FF9800")
  else ("HIGH RISK", "#F44336").

(** [sum([...])] of the four tracked success flags. *)
Definition successful_count (hosp police activity infra : bool) : Z :=
  Z.b2z hosp + Z.b2z police + Z.b2z activity + Z.b2z infra.

(** Calculate confidence (lines 244-245). *)
Definition confidence_of (hosp police activity infra : bool) : pynum :=
  let data_quality := int_true_div (successful_count hosp police activity infra) 4 in
  NFloat (float_round (data_quality * Z2float 85)%float 1).

(** Service status (lines 248-254). *)
Definition unavailable_of (hosp police activity infra : bool) : list string :=
  (if negb hosp && negb police then ["emergency_services"] else [])
  ++ (if negb activity then ["activity_data"] else [])
  ++ (if negb infra then ["infrastructure"] else []).

Definition len (l : list place) : Z := Z.of_nat (length l).

(** What lines 123-128 bind: the six place lists with their success
    flags. *)
Record Sources : Type := {
  src_hospitals : list place;  hosp_success : bool;
  src_police : list place;     police_success : bool;
  src_bus_stops : list place;  bus_success : bool;
  src_trains : list place;     train_success : bool;
  src_activity : list place;   activity_success : bool;
  src_infra : list place;      infra_success : bool
}.

(** Get data with success tracking (lines 123-128). *)
Definition fetch_sources (w : world) (lat lon : pyval) : result Sources :=
  let* (hospitals, hosp_ok) := get_nearby_places w lat lon "hospital" 5000 in
  let* (police, police_ok) := get_nearby_places w lat lon "police" 5000 in
  let* (bus_stops, bus_ok) := get_nearby_places w lat lon "bus_stop" 1000 in
  let* (trains, train_ok) := get_nearby_places w lat lon "train" 2000 in
  let* (activity, activity_ok) := get_nearby_places w lat lon "activity" 600 in
  let* (infra, infra_ok) := get_nearby_places w lat lon "infrastructure" 500 in
  Ok {| src_hospitals := hospitals; hosp_success := hosp_ok;
        src_police := police; police_success := police_ok;
        src_bus_stops := bus_stops; bus_success := bus_ok;
        src_trains := trains; train_success := train_ok;
        src_activity := activity; activity_success := activity_ok;
        src_infra := infra; infra_success := infra_ok |}.

(** Check if minimum required data is available (line 131). *)
Definition services_available (s : Sources) : bool :=
  (hosp_success s || police_success s) && activity_success s.

(** The local variables of lines 176-226 as functions of the hour and
    the fetched data. *)
Definition emergency_of (s : Sources) : list place :=
  src_hospitals s ++ src_police s.

Definition infra_count_of (s : Sources) : Z :=
  len (src_infra s) + len (src_bus_stops s) + len (src_trains s).

Definition raw_score_of (hour : Z) (s : Sources) : float :=
  weighted_score (fst (time_risk hour))
    (emergency_score (emergency_of s))
    (population_score hour (len (src_activity s)))
    (infrastructure_score hour (infra_count_of s)).

(** The report built on lines 231-295, [final_score] being the value
    line 229 computed. *)
Definition scored_report (w : world) (s : Sources) (final_score : pynum)
  : SafetyReport :=
  let hour := hour_now w in
  let unavail :=
    unavailable_of (hosp_success s) (police_success s) (activity_success s)
      (infra_success s) in
  {| score := py_round final_score 1;
     rating := fst (rating_of final_score);
     color := snd (rating_of final_score);
     confidence :=
       confidence_of (hosp_success s) (police_success s) (activity_success s)
         (infra_success s);
     timestamp := now_isoformat w;
     breakdown :=
       {| temporal_risk := py_round (NInt (fst (time_risk hour))) 1;
          emergency_proximity :=
            py_round (NInt (emergency_score (emergency_of s))) 1;
          population_density :=
            py_round (population_score hour (len (src_activity s))) 1;
          infrastructure :=
            py_round (NInt (infrastructure_score hour (infra_count_of s))) 1 |};
     time_period := snd (time_risk hour);
     service_status :=
       {| overall := match unavail with
                     | [] => "All services operational"
                     | _ => "Limited data: " +:+ str_join ", " unavail
                     end;
          status_color := match unavail with
                          | [] => "#4CAF50"
                          | _ => "#FF9800"
                          end;
          unavailable := unavail;
          message := None |};
     nearest :=
       {| hospital := head (src_hospitals s);
          police := head (src_police s);
          bus_stop := head (src_bus_stops s);
          train_station := head (src_trains s) |};
     all_places :=
       {| hospitals := firstn 5 (src_hospitals s);
          police_stations := firstn 5 (src_police s);
          bus_stops := firstn 10 (src_bus_stops s);
          train_stations := firstn 5 (src_trains s) |};
     stats :=
       {| activity_count := len (src_activity s);
          infrastructure_count := infra_count_of s;
          emergency_services_density :=
            match emergency_of s with
            | [] => NInt 0
            | _ => NFloat (float_round (int_true_div (len (emergency_of s)) 25) 2)
            end |} |}.

(** The body of the [try] of [calculate_safety_score] (lines 111-295). *)
Definition calculate_safety_score_body (w : world)
    (lat lon country_code : pyval) : result SafetyReport :=
  let hour := hour_now w in
  let period := snd (time_risk hour) in
  let* s := fetch_sources w lat lon in
  if negb (services_available s) then Ok (unavailable_report w period)
  else
    let raw_score := raw_score_of hour s in
    let* multiplier := country_multiplier country_code in
    let final_score := final_score_of raw_score multiplier in
    Ok (scored_report w s final_score).

(** Calculate safety score with service availability detection.  The
    banner printed before [try] formats both coordinates with [.4f]. *)
Definition calculate_safety_score (w : world) (lat lon country_code : pyval)
  : result SafetyReport :=
  let* _ := format_4f lat in
  let* _ := format_4f lon in
  try_except (calculate_safety_score_body w lat lon country_code)
             (fun e => Ok (error_report w e)).

(** ** app.py *)

(** What [jsonify(...)] carries, next to the HTTP status. *)
Inductive api_body : Type :=
| ApiData (data : SafetyReport)
| ApiError (error : string).

(** [POST /api/safety].  [request_json] is what [request.json]
    evaluates to (it raises on a body that is not JSON). *)
Definition api_safety (w : world) (request_json : result pyval)
  : api_body * Z :=
  match
    (let* data := request_json in
     let* lat := py_get data "latitude" PNone in
     let* lon := py_get data "longitude" PNone in
     let* country_code := py_get data "country_code" (PStr "XX") in
     if negb (truthy (py_and lat lon))
     then Ok (ApiError "Invalid coordinates", 400)
     else
       let* lat_lo := py_le_lit (-90) lat in
       let* lat_ok := (if lat_lo then py_ge_lit lat 90 else Ok false) in
       let* in_range :=
         (if lat_ok then
            let* lon_lo := py_le_lit (-180) lon in
            if lon_lo then py_ge_lit lon 180 else Ok false
          else Ok false) in
       if negb in_range
       then Ok (ApiError "Coordinates out of range", 400)
       else
         let* report := calculate_safety_score w lat lon country_code in
         Ok (ApiData report, 200))
  with
  | Ok r => r
  | Raise e => (ApiError (exn_msg e), 500)
  end.

(** A record of [active_sessions]. *)
Record session : Type := Session {
  active : bool;
  session_latitude : pyval;
  session_longitude : pyval;
  session_country_code : pyval;
  update_count : Z
}.

(** Where a [monitor_location] thread stands: before the check at the
    top of the loop, before the scoring call, or returned. *)
Inductive thread_pc : Type := AtCheck | AtScore | Returned.

(** A started [monitor_location] thread with its arguments. *)
Record thread : Type := Thread {
  thread_session_id : string;
  thread_lat : pyval;
  thread_lon : pyval;
  thread_country_code : pyval;
  pc : thread_pc
}.

(** The process state: the shared dict, every thread started so far,
    and the events emitted (room, event name). *)
Record server : Type := Server {
  active_sessions : gmap string session;
  threads : list thread;
  emitted : list (string * string)
}.

Definition initial_server : server :=
  {| active_sessions := ∅; threads := []; emitted := [] |}.

Definition emit (sid event : string) (st : server) : server :=
  {| active_sessions := active_sessions st;
     threads := threads st;
     emitted := emitted st ++ [(sid, event)] |}.

(** [@socketio.on('start_monitoring')]. *)
Definition handle_start_monitoring (sid : string) (data : pyval)
    (st : server) : server :=
  match
    (let* lat := py_get data "latitude" PNone in
     let* lon := py_get data "longitude" PNone in
     let* country_code := py_get data "country_code" (PStr "XX") in
     if negb (truthy (py_and lat lon))
     then Ok (emit sid "error" st)
     else
       let record := {| active := true; session_latitude := lat;
                        session_longitude := lon;
                        session_country_code := country_code;
                        update_count := 0 |} in
       let t := {| thread_session_id := sid; thread_lat := lat;
                   thread_lon := lon; thread_country_code := country_code;
                   pc := AtCheck |} in
       Ok (emit sid "monitoring_started"
             {| active_sessions := <[sid := record]> (active_sessions st);
                threads := threads st ++ [t];
                emitted := emitted st |}))
  with
  | Ok st' => st'
  | Raise _ => emit sid "error" st
  end.

(** The shared body of the stop and disconnect handlers: the record is
    marked inactive and deleted. *)
Definition remove_session (sid : string) (st : server) : server :=
  {| active_sessions := delete sid (active_sessions st);
     threads := threads st;
     emitted := emitted st |}.

(** [@socketio.on('stop_monitoring')]. *)
Definition handle_stop_monitoring (sid : string) (st : server) : server :=
  match active_sessions st !! sid with
  | Some _ => emit sid "monitoring_stopped" (remove_session sid st)
  | None => st
  end.

(** [@socketio.on('disconnect')]. *)
Definition handle_disconnect (sid : string) (st : server) : server :=
  match active_sessions st !! sid with
  | Some _ => remove_session sid st
  | None => st
  end.

Definition set_pc (t : thread) (p : thread_pc) : thread :=
  {| thread_session_id := thread_session_id t; thread_lat := thread_lat t;
     thread_lon := thread_lon t;
     thread_country_code := thread_country_code t; pc := p |}.

(** One step of a [monitor_location] thread: the check under the lock
    at the top of the loop, or the scoring call with what follows it up
    to the end of the sleep.  The increment of 'update_count' under the
    lock (lines 154-156) and the emit after it (line 158) are one step:
    the state between the two and an emit that raises are not
    represented, and nothing stated below relates the counter to the
    events emitted. *)
Definition monitor_location_step (w : world) (t : thread) (st : server)
  : thread * server :=
  let sid := thread_session_id t in
  match pc t with
  | AtCheck =>
      match active_sessions st !! sid with
      | Some r => if active r then (set_pc t AtScore, st)
                  else (set_pc t Returned, st)
      | None => (set_pc t Returned, st)
      end
  | AtScore =>
      match calculate_safety_score w (thread_lat t) (thread_lon t)
              (thread_country_code t) with
      | Ok _ =>
          let sessions' :=
            match active_sessions st !! sid with
            | Some r =>
                <[sid := {| active := active r;
                            session_latitude := session_latitude r;
                            session_longitude := session_longitude r;
                            session_country_code := session_country_code r;
                            update_count := update_count r + 1 |}]>
                  (active_sessions st)
            | None => active_sessions st
            end in
          (set_pc t AtCheck,
           emit sid "safety_update"
             {| active_sessions := sessions'; threads := threads st;
                emitted := emitted st |})
      | Raise _ => (set_pc t AtCheck, st)
      end
  | Returned => (t, st)
  end.

(** What can happen next in the process. *)
Inductive operation : Type :=
| StartMonitoring (sid : string) (data : pyval)
| StopMonitoring (sid : string)
| Disconnect (sid : string)
| ThreadStep (i : nat) (w : world).

Definition run_operation (st : server) (op : operation) : server :=
  match op with
  | StartMonitoring sid data => handle_start_monitoring sid data st
  | StopMonitoring sid => handle_stop_monitoring sid st
  | Disconnect sid => handle_disconnect sid st
  | ThreadStep i w =>
      match threads st !! i with
      | Some t =>
          let (t', st') := monitor_location_step w t st in
          {| active_sessions := active_sessions st';
             threads := <[i := t']> (threads st');
             emitted := emitted st' |}
      | None => st
      end
  end.

Definition run (ops : list operation) (st : server) : server :=
  fold_left run_operation ops st.

(** A thread is live until [monitor_location] returns. *)
Definition live (t : thread) : bool :=
  match pc t with
  | Returned => false
  | _ => true
  end.

(** A live thread bound to [sid]. *)
Definition bound_live (sid : string) (t : thread) : bool :=
  String.eqb (thread_session_id t) sid && live t.

(** The number of live [monitor_location] threads bound to [sid]. *)
Definition live_tasks (sid : string) (st : server) : nat :=
  length (List.filter (bound_live sid) (threads st)).

(** ** Vocabulary of the specification *)

(** A coordinate value that is missing or equals exactly 0. *)
Definition missing_or_zero (v : pyval) : bool :=
  match v with
  | PNone => true
  | PBool b => negb b
  | PInt z => z =? 0
  | PFloat f => (f =? 0)%float
  | _ => false
  end.


(** Two float longitudes whose difference [lon2 - lon1] is infinite:
    one is infinite and the other finite, or they are the two opposite
    infinities. *)
Definition infinite_difference (lon1 lon2 : pyval) : bool :=
  match lon1, lon2 with
  | PFloat y1, PFloat y2 => is_infinity (y2 - y1)
  | _, _ => false
  end.

Definition in_range (lo hi : Z) (v : pynum) : bool :=
  num_ge v lo && num_le v hi.

Definition ratings : list string :=
  ["SAFE"; "MODERATE"; "CAUTION"; "HIGH RISK"; "SERVICE UNAVAILABLE"; "ERROR"].

Definition valid_breakdown (b : Breakdown) : bool :=
  in_range 0 100 (temporal_risk b) && in_range 0 100 (emergency_proximity b)
  && in_range 0 100 (population_density b) && in_range 0 100 (infrastructure b).

(** A structurally valid SafetyReport (section 3 of the specification):
    score in [0,100], one of the six ratings, confidence in [0,85], every
    breakdown entry in [0,100], and the capped place lists. *)
Definition valid_report (r : SafetyReport) : bool :=
  in_range 0 100 (score r)
  && existsb (String.eqb (rating r)) ratings
  && in_range 0 85 (confidence r)
  && valid_breakdown (breakdown r)
  && (length (hospitals (all_places r)) <=? 5)%nat
  && (length (police_stations (all_places r)) <=? 5)%nat
  && (length (bus_stops (all_places r)) <=? 10)%nat
  && (length (train_stations (all_places r)) <=? 5)%nat.



(** The two ways the body of the [try] returns: the early return of the
    availability gate, or the report built after scoring. *)
Inductive body_returns (w : world) (lat lon country_code : pyval)
  : SafetyReport -> Prop :=
| ReturnsUnavailable (s : Sources) :
    fetch_sources w lat lon = Ok s ->
    services_available s = false ->
    body_returns w lat lon country_code
      (unavailable_report w (snd (time_risk (hour_now w))))
| ReturnsScored (s : Sources) (m : float) :
    fetch_sources w lat lon = Ok s ->
    services_available s = true ->
    country_multiplier country_code = Ok m ->
    body_returns w lat lon country_code
      (scored_report w s (final_score_of (raw_score_of (hour_now w) s) m)).

(** The values each scoring step can produce. *)
Definition time_scores : list Z := [88; 62; 25].
Definition emergency_scores : list Z := [96; 85; 70; 50; 30; 22].
Definition population_scores : list pynum :=
  [NInt 92; NInt 82; NInt 68; NInt 50; NInt 35;
   NFloat (Z2float 92 * 0.7)%float; NFloat (Z2float 82 * 0.7)%float;
   NFloat (Z2float 68 * 0.7)%float; NFloat (Z2float 50 * 0.7)%float;
   NFloat (Z2float 35 * 0.7)%float].
Definition infrastructure_scores : list Z := [80; 65; 85; 60; 30].
Definition multipliers : list float := map snd COUNTRY_BASELINES.

(** A check over every combination of step values and multipliers. *)
Definition for_all_scores (P : Z -> Z -> pynum -> Z -> float -> bool) : bool :=
  forallb (fun t =>
    forallb (fun e =>
      forallb (fun p =>
        forallb (fun i =>
          forallb (fun m => P t e p i m) multipliers)
          infrastructure_scores)
        population_scores)
      emergency_scores)
    time_scores.

(** The final score is a number in [0,100] and so is its rounding. *)
Definition final_score_in_range (t e : Z) (p : pynum) (i : Z) (m : float) : bool :=
  let final_score := final_score_of (weighted_score t e p i) m in
  in_range 0 100 final_score && in_range 0 100 (py_round final_score 1).

(** The bands are nested: a final score that reaches a threshold reaches
    the lower ones. *)
Definition bands_nested (t e : Z) (p : pynum) (i : Z) (m : float) : bool :=
  let final_score := final_score_of (weighted_score t e p i) m in
  implb (num_ge final_score 75) (num_ge final_score 55)
  && implb (num_ge final_score 55) (num_ge final_score 35).



(** ** Worlds to run the program in *)

Definition elements_response (l : list pyval) : http_response :=
  Response 200 (Ok (PDict [("elements", PList l)])).

Definition timed_out : http_response :=
  RequestFailed (Exn RequestException "Read timed out. (read timeout=15)").

Definition osm_node (lat lon : float) : pyval :=
  PDict [("type", PStr "node"); ("lat", PFloat lat); ("lon", PFloat lon)].

(** A way on the equator: its coordinates are those of its centre. *)
Definition equator_way : pyval :=
  PDict [("type", PStr "way");
         ("center", PDict [("lat", PInt 0); ("lon", PFloat 9.5)])].

(** Noon; a hospital 40 m away and a way on the equator; the lighting
    query times out, every other query succeeds. *)
Definition world_noon : world :=
  {| hour_now := 12;
     now_isoformat := "2025-06-01T12:00:00";
     overpass := fun place_type =>
       if String.eqb place_type "hospital"
       then elements_response [osm_node 48.857 2.3522; equator_way]
       else if String.eqb place_type "infrastructure" then timed_out
       else elements_response [] |}.

(** The activity query times out; every other query succeeds. *)
Definition world_activity_down : world :=
  {| hour_now := 12;
     now_isoformat := "2025-06-01T12:00:00";
     overpass := fun place_type =>
       if String.eqb place_type "activity" then timed_out
       else elements_response [] |}.

(** The hospital and police queries time out; the others succeed. *)
Definition world_emergency_down : world :=
  {| hour_now := 12;
     now_isoformat := "2025-06-01T12:00:00";
     overpass := fun place_type =>
       if String.eqb place_type "hospital" || String.eqb place_type "police"
       then timed_out
       else elements_response [] |}.

(** The server answers the hospital query with ["elements": null]. *)
Definition world_null_elements : world :=
  {| hour_now := 12;
     now_isoformat := "2025-06-01T12:00:00";
     overpass := fun place_type =>
       if String.eqb place_type "hospital"
       then Response 200 (Ok (PDict [("elements", PNone)]))
       else elements_response [] |}.

Definition start_request : pyval :=
  PDict [("latitude", PFloat 48.8566); ("longitude", PFloat 2.3522);
         ("country_code", PStr "FR")].

(** ** app.py: location detection *)

(** The dict a provider's [parse] builds. *)
Record location : Type := Location {
  loc_lat : pyval;
  loc_lon : pyval;
  loc_city : pyval;
  loc_country : pyval;
  loc_code : pyval
}.

(** The [parse] lambda of https://ipapi.co/json/. *)
Definition parse_ipapi (d : pyval) : result location :=
  let* lat := py_get d "latitude" PNone in
  let* lon := py_get d "longitude" PNone in
  let* city := py_get d "city" (PStr "Unknown") in
  let* country := py_get d "country_name" (PStr "Unknown") in
  let* code := py_get d "country_code" (PStr "XX") in
  Ok {| loc_lat := lat; loc_lon := lon; loc_city := city;
        loc_country := country; loc_code := code |}.

(** The [parse] lambda of http://ip-api.com/json/. *)
Definition parse_ip_api (d : pyval) : result location :=
  let* lat := py_get d "lat" PNone in
  let* lon := py_get d "lon" PNone in
  let* city := py_get d "city" (PStr "Unknown") in
  let* country := py_get d "country" (PStr "Unknown") in
  let* code := py_get d "countryCode" (PStr "XX") in
  Ok {| loc_lat := lat; loc_lon := lon; loc_city := city;
        loc_country := country; loc_code := code |}.

(** The [apis] list: url and parser, in the order they are tried. *)
Definition apis : list (string * (pyval -> result location)) :=
  [ ("https://ipapi.co/json/", parse_ipapi);
    ("http://ip-api.com/json/", parse_ip_api) ].

(** The body of the [try] for one provider: [Ok (Some loc)] is the
    [return loc], [Ok None] falls through to the next iteration. *)
Definition try_provider (resp : http_response)
    (parse : pyval -> result location) : result (option location) :=
  match resp with
  | RequestFailed e => Raise e
  | Response status_code json =>
      if status_code =? 200 then
        let* body := json in
        let* loc := parse body in
        if truthy (py_and (loc_lat loc) (loc_lon loc))
        then Ok (Some loc)
        else Ok None
      else Ok None
  end.

(** The loop of [get_location_multi_source] over a list of providers;
    [net url] is what [requests.get(url, timeout=5)] does. *)
Fixpoint first_location (net : string -> http_response)
    (providers : list (string * (pyval -> result location)))
  : option location :=
  match providers with
  | [] => None
  | (url, parse) :: rest =>
      match try_except (try_provider (net url) parse) (fun _ => Ok None) with
      | Ok (Some loc) => Some loc
      | _ => first_location net rest
      end
  end.

(** Detecting location with fallback. *)
Definition get_location_multi_source (net : string -> http_response)
  : option location :=
  first_location net apis.

Inductive location_body : Type :=
| LocationData (data : location)
| LocationError (error : string).

(** [GET /api/location]. *)
Definition api_location (net : string -> http_response) : location_body * Z :=
  match get_location_multi_source net with
  | Some loc => (LocationData loc, 200)
  | None => (LocationError "Location detection failed", 503)
  end.

(** ** Vocabulary of the added properties *)

(** A provider's answer that [get_location_multi_source] accepts: status
    200, a body that parses, and both coordinates true. *)
Definition provider_location (resp : http_response)
    (parse : pyval -> result location) : option location :=
  match try_provider resp parse with
  | Ok (Some loc) => Some loc
  | _ => None
  end.

(** A value a [for] loop can run over. *)
Definition iterable (v : pyval) : bool :=
  match v with
  | PList _ | PDict _ | PStr _ => true
  | _ => false
  end.



(** The reported score of a scored report is at least 21. *)
Definition score_at_least_21 (t e : Z) (p : pynum) (i : Z) (m : float) : bool :=
  in_range 21 100 (py_round (final_score_of (weighted_score t e p i) m) 1).


(** The four colours and ratings of section 9, and the gray of the two
    reports without a score. *)
Definition no_score (r : SafetyReport) : Prop :=
  rating r = "SERVICE UNAVAILABLE" \/ rating r = "ERROR".

(** Two worlds that differ only in the answers to the bus stop and train
    station queries. *)
Definition same_but_transit (w w' : world) : Prop :=
  hour_now w = hour_now w'
  /\ now_isoformat w = now_isoformat w'
  /\ forall place_type,
       place_type <> "bus_stop" -> place_type <> "train" ->
       overpass w place_type = overpass w' place_type.

(** The emergency band of a nearest distance (lines 179-188). *)
Definition distance_band (min_dist : float) : Z :=
  if (min_dist <=? 0.8)%float then 96
  else if (min_dist <=? 1.5)%float then 85
  else if (min_dist <=? 2.5)%float then 70
  else if (min_dist <=? 4.0)%float then 50
  else 30.

(** With a time score of 88 the final score reaches 35, and with a time
    score of 25 and a country factor of at most 1 it stays below 75. *)
Definition time_score_dominates (t e : Z) (p : pynum) (i : Z) (m : float)
  : bool :=
  let final_score := final_score_of (weighted_score t e p i) m in
  (if t =? 88 then num_ge final_score 35 else true)
  && (if (t =? 25) && (m <=? 1)%float then negb (num_ge final_score 75)
      else true).


(** The ints of [-180, 180]. *)
Definition small_ints : list Z :=
  map (fun n => Z.of_nat n - 180) (seq 0 361).

(** A provider's answer that locates the caller: status 200 and a JSON
    object whose members under the provider's two coordinate keys are
    both true values (neither missing, null nor 0). *)
Definition usable (resp : http_response) (lat_key lon_key : string) : Prop :=
  exists d lat lon,
    resp = Response 200 (Ok (PDict d))
    /\ dict_lookup d lat_key = Some lat
    /\ dict_lookup d lon_key = Some lon
    /\ truthy lat = true /\ truthy lon = true.

(** [d.get(k, default)] on a dict's members. *)
Definition member_or (d : list (string * pyval)) (k : string)
    (default : pyval) : pyval :=
  match dict_lookup d k with
  | Some v => v
  | None => default
  end.

(** ** app.py: the session registry *)

(** What every record of [active_sessions] satisfies. *)
Definition record_ok (r : session) : Prop :=
  active r = true
  /\ truthy (session_latitude r) = true
  /\ truthy (session_longitude r) = true
  /\ 0 <= update_count r.

(** The fields of a record a client sets. *)
Definition client_fields (r : session) : bool * pyval * pyval * pyval :=
  (active r, session_latitude r, session_longitude r, session_country_code r).

(** How many more of its own steps a thread whose session is gone makes
    before [monitor_location] returns. *)
Definition remaining (p : thread_pc) : nat :=
  match p with
  | AtScore => 2
  | AtCheck => 1
  | Returned => 0
  end.

(** The number of steps thread [i] makes in [ops]. *)
Fixpoint thread_steps (i : nat) (ops : list operation) : nat :=
  match ops with
  | [] => 0
  | ThreadStep j _ :: ops' =>
      if Nat.eqb j i then S (thread_steps i ops') else thread_steps i ops'
  | _ :: ops' => thread_steps i ops'
  end.

(** No [start_monitoring] event of the client [sid] occurs in [ops]. *)
Fixpoint no_start (sid : string) (ops : list operation) : bool :=
  match ops with
  | [] => true
  | StartMonitoring sid' _ :: ops' =>
      negb (String.eqb sid' sid) && no_start sid ops'
  | _ :: ops' => no_start sid ops'
  end.

(** The session an operation belongs to: the client's for an event, the
    thread's [session_id] for a thread step. *)
Definition op_session (st : server) (op : operation) : option string :=
  match op with
  | StartMonitoring sid _ | StopMonitoring sid | Disconnect sid => Some sid
  | ThreadStep i _ => thread_session_id <$> threads st !! i
  end.

(** The events emitted to the room [sid]. *)
Definition room_events (sid : string) (st : server) : list (string * string) :=
  List.filter (fun ev => String.eqb (fst ev) sid) (emitted st).

(** ** Further worlds *)

(** As [world_noon], with the bus stop and train queries timing out. *)
Definition world_transit_down : world :=
  {| hour_now := 12;
     now_isoformat := "2025-06-01T12:00:00";
     overpass := fun place_type =>
       if String.eqb place_type "bus_stop" || String.eqb place_type "train"
       then timed_out
       else overpass world_noon place_type |}.

Definition ipapi_answer : pyval :=
  PDict [("latitude", PFloat 48.8566); ("longitude", PFloat 2.3522);
         ("city", PStr "Paris"); ("country_name", PStr "France");
         ("country_code", PStr "FR")].

(** An answer of ip-api.com without a country. *)
Definition ip_api_answer : pyval :=
  PDict [("lat", PFloat 48.8566); ("lon", PFloat 2.3522);
         ("city", PStr "Paris"); ("countryCode", PStr "FR")].

(** Both providers answer. *)
Definition net_up (url : string) : http_response :=
  if String.eqb url "https://ipapi.co/json/"
  then Response 200 (Ok ipapi_answer)
  else Response 200 (Ok ip_api_answer).

(** The first provider limits the rate of requests. *)
Definition net_rate_limited (url : string) : http_response :=
  if String.eqb url "https://ipapi.co/json/"
  then Response 429 (Ok (PDict [("error", PBool true)]))
  else Response 200 (Ok ip_api_answer).

(** A thread in its scoring call whose session is gone. *)
Definition stale_thread : thread :=
  {| thread_session_id := "sid-1"; thread_lat := PFloat 48.8566;
     thread_lon := PFloat 2.3522; thread_country_code := PStr "FR";
     pc := AtScore |}.

Definition stale_server : server :=
  {| active_sessions := ∅; threads := [stale_thread]; emitted := [] |}.

(** * Properties *)

(** ** Rounding and conversions, against CPython's results *)

Example float_round_tie_even : float_round 21.25 1 = 21.2%float.
Proof. vm_compute. reflexivity. Qed.

Example float_round_up : float_round 63.75 1 = 63.8%float.
Proof. vm_compute. reflexivity. Qed.

Example float_round_binary : float_round 2.675 2 = 2.67%float.
Proof. vm_compute. reflexivity. Qed.

Example float_round_band : float_round 74.96 1 = 75%float.
Proof. vm_compute. reflexivity. Qed.

Example float_round_neg_zero : float_round (-0.04) 1 = (-0)%float.
Proof. vm_compute. reflexivity. Qed.

Example float_round_big : float_round 1e300 1 = 1e300%float.
Proof. vm_compute. reflexivity. Qed.

Example Z2float_88 : Z2float 88 = 88%float.
Proof. vm_compute. reflexivity. Qed.

Example int_true_div_quarter : int_true_div 3 4 = 0.75%float.
Proof. vm_compute. reflexivity. Qed.

Example str_title_bus_stop : str_title "bus_stop" = "Bus_Stop".
Proof. reflexivity. Qed.

Example str_upper_mixed : str_upper "no" = "NO" /\ str_upper "N0-x" = "N0-X".
Proof. split; reflexivity. Qed.

(** Outside ASCII: the long s, a ligature and the sharp s. *)
Example str_upper_unicode :
  str_upper "ſe" = "SE" /\ str_upper "ﬁ" = "FI"
  /\ str_upper "straße" = "STRASSE".
Proof. vm_compute. repeat split. Qed.

(** ** The error monad *)

Lemma try_except_bind {A B} (c : result A) (k : A -> result B)
    (h : exn -> result B) :
  try_except (bind c k) h
  = match c with
    | Ok a => try_except (k a) h
    | Raise e => h e
    end.
Proof. destruct c; reflexivity. Qed.

Lemma try_except_total {A} (body : result A) (h : exn -> A) :
  exists a, try_except body (fun e => Ok (h e)) = Ok a.
Proof. destruct body; simpl; eauto. Qed.

Lemma bind_Ok {A B} (c : result A) (k : A -> result B) (b : B) :
  bind c k = Ok b -> exists a, c = Ok a /\ k a = Ok b.
Proof. destruct c; simpl; [eauto | discriminate]. Qed.

(** ** calculate_distance *)

(** Peel the next statement of a [try] body whose handler returns
    [infinity]: if it raises, the handler answers. *)
Ltac next_statement :=
  rewrite try_except_bind;
  match goal with
  | |- match ?c with Ok _ => _ | Raise _ => _ end = _ =>
      let E := fresh "E" in
      destruct c eqn:E; [ | reflexivity ]
  end.

Lemma math_radians_float (x : float) :
  math_radians (PFloat x) = Ok (x * (Py_MATH_PI / 180))%float.
Proof. reflexivity. Qed.

Lemma math_1_nan_raises (f : float -> float) (x : float) :
  f x = nan -> is_nan x = false -> math_1 f x = Raise math_domain_error.
Proof.
  intros Hf Hx. unfold math_1. rewrite Hf, Hx. reflexivity.
Qed.

Lemma is_infinity_inv (d : float) :
  is_infinity d = true -> d = infinity \/ d = neg_infinity.
Proof.
  unfold is_infinity. rewrite FloatAxioms.eqb_spec, abs_spec.
  intros H. rewrite <- (SF2Prim_Prim2SF d).
  destruct (Prim2SF d) as [s | s | | s m e]; try discriminate H.
  destruct s; [ right | left ]; reflexivity.
Qed.


Lemma math_sin_infinity (H : AnnexF libm) (d : float) :
  is_infinity d = true ->
  math_sin (d * (Py_MATH_PI / 180) / 2) = Raise math_domain_error.
Proof.
  destruct H as [_ _ [Hp Hn] _].
  intros [-> | ->]%is_infinity_inv; apply math_1_nan_raises;
    solve [ exact Hp | exact Hn | reflexivity ].
Qed.





(** An infinite difference of the longitudes makes the second [sin]
    raise. *)
Lemma calculate_distance_infinite_dlon (H : AnnexF libm)
    (lat1 lon1 lat2 lon2 : pyval) :
  infinite_difference lon1 lon2 = true ->
  calculate_distance lat1 lon1 lat2 lon2 = Ok infinity.
Proof.
  destruct lon1 as [ | | | y1 | | | ]; try discriminate.
  destruct lon2 as [ | | | y2 | | | ]; try discriminate.
  cbn [infinite_difference]. intros Hd. unfold calculate_distance.
  do 4 next_statement.
  change (py_sub (PFloat y2) (PFloat y1)) with (Ok (PFloat (y2 - y1)%float)).
  cbn [bind]. rewrite math_radians_float. cbn [bind].
  do 4 next_statement. rewrite try_except_bind.
  rewrite (math_sin_infinity H _ Hd). reflexivity.
Qed.




(** ** get_nearby_places *)

Lemma missing_or_zero_falsy (v : pyval) :
  missing_or_zero v = true -> truthy v = false.
Proof.
  destruct v as [ | b | z | f | s | l | d ]; simpl; intros Hv;
    try discriminate; try reflexivity.
  - destruct b; [ discriminate | reflexivity ].
  - rewrite Hv. reflexivity.
  - rewrite Hv. reflexivity.
Qed.

(** Line 79: an element one of whose resolved coordinates is false is
    skipped before any distance is computed. *)
Lemma place_of_elem_excluded (lat lon : pyval) (place_type : string)
    (elem v : pyval) :
  resolve_coord elem "lat" = Ok v \/ resolve_coord elem "lon" = Ok v ->
  missing_or_zero v = true ->
  place_of_elem lat lon place_type elem = None.
Proof.
  intros Hres Hv. apply missing_or_zero_falsy in Hv.
  unfold place_of_elem, place_of_elem_body.
  destruct (resolve_coord elem "lat") as [e_lat | ] eqn:Elat; simpl;
    [ | reflexivity ].
  destruct (resolve_coord elem "lon") as [e_lon | ] eqn:Elon; simpl;
    [ | reflexivity ].
  unfold py_and.
  destruct Hres as [Hres | Hres]; injection Hres as ->.
  - rewrite Hv. simpl. rewrite Hv. reflexivity.
  - destruct (truthy e_lat) eqn:Et; simpl.
    + rewrite Hv. reflexivity.
    + rewrite Et. reflexivity.
Qed.

Lemma places_of_elems_app (lat lon : pyval) (place_type : string)
    (l1 l2 : list pyval) :
  places_of_elems lat lon place_type (l1 ++ l2)
  = places_of_elems lat lon place_type l1
    ++ places_of_elems lat lon place_type l2.
Proof.
  induction l1 as [ | e l1 IH]; simpl; [ reflexivity | ].
  destruct (place_of_elem lat lon place_type e); rewrite IH; reflexivity.
Qed.

Lemma places_of_elems_skip (lat lon : pyval) (place_type : string)
    (pre post : list pyval) (elem : pyval) :
  place_of_elem lat lon place_type elem = None ->
  places_of_elems lat lon place_type (pre ++ elem :: post)
  = places_of_elems lat lon place_type (pre ++ post).
Proof.
  intros Hskip. rewrite !places_of_elems_app. simpl. rewrite Hskip.
  reflexivity.
Qed.

Lemma get_nearby_places_list (w : world) (lat lon : pyval)
    (place_type : string) (radius : Z) (elems : list pyval) :
  existsb (String.eqb place_type) queries = true ->
  fetch_osm_data (overpass w place_type) = Ok (PList elems, true) ->
  get_nearby_places w lat lon place_type radius
  = Ok (sorted_by_distance (places_of_elems lat lon place_type elems), true).
Proof.
  intros Hq Hfetch. unfold get_nearby_places. rewrite Hq, Hfetch.
  reflexivity.
Qed.

(** C10.  When the server's answer contains an element whose resolved
    latitude or longitude is missing ([None]) or equals exactly 0,
    [get_nearby_places] returns precisely the records of the other
    elements: the element is excluded, although 0 is a valid coordinate. *)
Theorem get_nearby_places_excludes_zero_coordinate (w : world)
    (lat lon : pyval) (place_type : string) (radius : Z)
    (pre post : list pyval) (elem v : pyval) :
  existsb (String.eqb place_type) queries = true ->
  fetch_osm_data (overpass w place_type)
  = Ok (PList (pre ++ elem :: post), true) ->
  resolve_coord elem "lat" = Ok v \/ resolve_coord elem "lon" = Ok v ->
  missing_or_zero v = true ->
  place_of_elem lat lon place_type elem = None
  /\ get_nearby_places w lat lon place_type radius
     = Ok (sorted_by_distance
             (places_of_elems lat lon place_type (pre ++ post)), true).
Proof.
  intros Hq Hfetch Hres Hv.
  pose proof (place_of_elem_excluded lat lon place_type elem v Hres Hv) as Hskip.
  split; [ exact Hskip | ].
  rewrite (get_nearby_places_list w lat lon place_type radius _ Hq Hfetch).
  rewrite (places_of_elems_skip lat lon place_type pre post elem Hskip).
  reflexivity.
Qed.

(** ** The scoring steps take finitely many values *)

Ltac in_list :=
  solve [ cbv [In]; repeat (first [ left; reflexivity | right ]) ].

Lemma time_risk_in (hour : Z) : In (fst (time_risk hour)) time_scores.
Proof.
  unfold time_risk, time_scores.
  destruct ((9 <=? hour) && (hour <=? 18));
    [ | destruct (((7 <=? hour) && (hour <? 9)) || ((18 <? hour) && (hour <=? 20))) ];
    in_list.
Qed.

Lemma emergency_score_in (emergency : list place) :
  In (emergency_score emergency) emergency_scores.
Proof.
  unfold emergency_score, emergency_scores.
  destruct emergency as [ | p rest ]; [ in_list | ].
  cbv zeta.
  repeat match goal with
         | |- context [ if ?b then _ else _ ] => destruct b
         end; in_list.
Qed.

Lemma population_score_in (hour act_count : Z) :
  In (population_score hour act_count) population_scores.
Proof.
  unfold population_score, population_scores.
  destruct ((hour <? 6) || (22 <? hour));
    destruct (60 <=? act_count); try in_list;
    destruct (40 <=? act_count); try in_list;
    destruct (25 <=? act_count); try in_list;
    destruct (12 <=? act_count); in_list.
Qed.

Lemma infrastructure_score_in (hour infra_count : Z) :
  In (infrastructure_score hour infra_count) infrastructure_scores.
Proof.
  unfold infrastructure_score, infrastructure_scores.
  destruct ((6 <=? hour) && (hour <=? 19));
    destruct (20 <=? infra_count); try in_list;
    destruct (10 <=? infra_count); in_list.
Qed.

Lemma table_get_in (d : list (string * float)) (k : string) (default : float) :
  table_get d k default = default \/ In (table_get d k default) (map snd d).
Proof.
  unfold table_get.
  induction d as [ | [k' v] d IH ]; simpl; [ left; reflexivity | ].
  destruct (String.eqb k' k); [ right; left; reflexivity | ].
  destruct IH as [IH | IH]; [ left; exact IH | right; right; exact IH ].
Qed.

Lemma baseline_default : table_index COUNTRY_BASELINES "DEFAULT" = Ok 1%float.
Proof. reflexivity. Qed.

Lemma country_multiplier_str (code : string) :
  country_multiplier (PStr code)
  = Ok (table_get COUNTRY_BASELINES (str_upper code) 1%float).
Proof. reflexivity. Qed.

Lemma country_multiplier_in (country_code : pyval) (m : float) :
  country_multiplier country_code = Ok m -> In m multipliers.
Proof.
  destruct country_code; try discriminate.
  rewrite country_multiplier_str. intros [= <-].
  destruct (table_get_in COUNTRY_BASELINES (str_upper s) 1%float) as [-> | H].
  - unfold multipliers. in_list.
  - exact H.
Qed.

Lemma for_all_scores_spec (P : Z -> Z -> pynum -> Z -> float -> bool) :
  for_all_scores P = true ->
  forall t e p i m,
    In t time_scores -> In e emergency_scores -> In p population_scores ->
    In i infrastructure_scores -> In m multipliers ->
    P t e p i m = true.
Proof.
  unfold for_all_scores. intros H t e p i m Ht He Hp Hi Hm.
  rewrite forallb_forall in H. specialize (H t Ht).
  rewrite forallb_forall in H. specialize (H e He).
  rewrite forallb_forall in H. specialize (H p Hp).
  rewrite forallb_forall in H. specialize (H i Hi).
  rewrite forallb_forall in H. exact (H m Hm).
Qed.

Lemma final_score_in_range_all : for_all_scores final_score_in_range = true.
Proof. vm_compute. reflexivity. Qed.

(** On every run, the value of line 229 and its rounding are numbers of
    [0, 100]. *)
Lemma final_score_bounds (hour : Z) (s : Sources) (country_code : pyval)
    (m : float) :
  country_multiplier country_code = Ok m ->
  let final_score := final_score_of (raw_score_of hour s) m in
  in_range 0 100 final_score = true
  /\ in_range 0 100 (py_round final_score 1) = true.
Proof.
  intros Hm. cbv zeta. apply andb_prop.
  apply (for_all_scores_spec _ final_score_in_range_all).
  - apply time_risk_in.
  - apply emergency_score_in.
  - apply population_score_in.
  - apply infrastructure_score_in.
  - exact (country_multiplier_in _ _ Hm).
Qed.

Lemma bands_nested_all : for_all_scores bands_nested = true.
Proof. vm_compute. reflexivity. Qed.

Lemma final_score_bands_nested (hour : Z) (s : Sources) (country_code : pyval)
    (m : float) :
  country_multiplier country_code = Ok m ->
  let final_score := final_score_of (raw_score_of hour s) m in
  (num_ge final_score 55 = false -> num_ge final_score 75 = false)
  /\ (num_ge final_score 35 = false -> num_ge final_score 55 = false).
Proof.
  intros Hm. cbv zeta.
  assert (H : bands_nested (fst (time_risk hour))
                (emergency_score (emergency_of s))
                (population_score hour (len (src_activity s)))
                (infrastructure_score hour (infra_count_of s)) m = true).
  { apply (for_all_scores_spec _ bands_nested_all).
    - apply time_risk_in.
    - apply emergency_score_in.
    - apply population_score_in.
    - apply infrastructure_score_in.
    - exact (country_multiplier_in _ _ Hm). }
  unfold bands_nested in H. cbv zeta in H. fold (raw_score_of hour s) in H.
  apply andb_prop in H as [H1 H2].
  split; intros Hlow.
  - rewrite Hlow in H1. destruct (num_ge _ 75); [ discriminate H1 | reflexivity ].
  - rewrite Hlow in H2. destruct (num_ge _ 55); [ discriminate H2 | reflexivity ].
Qed.

Lemma rating_of_in (final_score : pynum) :
  existsb (String.eqb (fst (rating_of final_score))) ratings = true.
Proof.
  unfold rating_of.
  destruct (num_ge final_score 75); [ reflexivity | ].
  destruct (num_ge final_score 55); [ reflexivity | ].
  destruct (num_ge final_score 35); reflexivity.
Qed.


Lemma confidence_of_in_range (hosp police activity infra : bool) :
  in_range 0 85 (confidence_of hosp police activity infra) = true.
Proof. destruct hosp, police, activity, infra; vm_compute; reflexivity. Qed.

Lemma in_range_of_list (lo hi : Z) (l : list Z) (z : Z) :
  forallb (fun x => in_range lo hi (NInt x)) l = true ->
  In z l -> in_range lo hi (py_round (NInt z) 1) = true.
Proof. intros H Hz. rewrite forallb_forall in H. exact (H z Hz). Qed.

Lemma population_in_range (hour act_count : Z) :
  in_range 0 100 (py_round (population_score hour act_count) 1) = true.
Proof.
  assert (H : forallb (fun p => in_range 0 100 (py_round p 1)) population_scores
              = true) by (vm_compute; reflexivity).
  rewrite forallb_forall in H. apply H, population_score_in.
Qed.

Lemma firstn_leb {A} (n : nat) (l : list A) :
  (length (firstn n l) <=? n)%nat = true.
Proof. apply Nat.leb_le. rewrite length_firstn. apply Nat.le_min_l. Qed.

(** A report built on the scoring path is structurally valid. *)
Lemma scored_report_valid (w : world) (s : Sources) (country_code : pyval)
    (m : float) :
  country_multiplier country_code = Ok m ->
  valid_report
    (scored_report w s (final_score_of (raw_score_of (hour_now w) s) m)) = true.
Proof.
  intros Hm.
  destruct (final_score_bounds (hour_now w) s country_code m Hm) as [_ Hscore].
  unfold valid_report, valid_breakdown. cbn [scored_report score rating
    confidence breakdown all_places temporal_risk emergency_proximity
    population_density infrastructure hospitals police_stations bus_stops
    train_stations].
  rewrite Hscore, rating_of_in, confidence_of_in_range, population_in_range,
    !firstn_leb.
  rewrite (in_range_of_list 0 100 time_scores) by
    (first [ reflexivity | apply time_risk_in ]).
  rewrite (in_range_of_list 0 100 emergency_scores) by
    (first [ reflexivity | apply emergency_score_in ]).
  rewrite (in_range_of_list 0 100 infrastructure_scores) by
    (first [ reflexivity | apply infrastructure_score_in ]).
  reflexivity.
Qed.

Lemma unavailable_report_valid (w : world) (period : string) :
  valid_report (unavailable_report w period) = true.
Proof. reflexivity. Qed.

Lemma error_report_valid (w : world) (e : exn) :
  valid_report (error_report w e) = true.
Proof. reflexivity. Qed.

(** ** calculate_safety_score *)

Lemma calculate_safety_score_float (w : world) (x y : float)
    (country_code : pyval) :
  calculate_safety_score w (PFloat x) (PFloat y) country_code
  = try_except
      (calculate_safety_score_body w (PFloat x) (PFloat y) country_code)
      (fun e => Ok (error_report w e)).
Proof. reflexivity. Qed.

Lemma body_returns_iff (w : world) (lat lon country_code : pyval)
    (r : SafetyReport) :
  calculate_safety_score_body w lat lon country_code = Ok r
  <-> body_returns w lat lon country_code r.
Proof.
  unfold calculate_safety_score_body. cbv zeta. split.
  - intros H. apply bind_Ok in H as (s & Hs & H).
    destruct (services_available s) eqn:Hgate; simpl in H.
    + apply bind_Ok in H as (m & Hm & H). injection H as <-.
      exact (ReturnsScored w lat lon country_code s m Hs Hgate Hm).
    + injection H as <-.
      exact (ReturnsUnavailable w lat lon country_code s Hs Hgate).
  - intros [s Hs Hgate | s m Hs Hgate Hm]; rewrite Hs; simpl;
      rewrite Hgate; simpl; [ reflexivity | ].
    rewrite Hm. reflexivity.
Qed.

Lemma body_returns_valid (w : world) (lat lon country_code : pyval)
    (r : SafetyReport) :
  body_returns w lat lon country_code r -> valid_report r = true.
Proof.
  intros [s _ _ | s m _ _ Hm].
  - apply unavailable_report_valid.
  - exact (scored_report_valid w s country_code m Hm).
Qed.

(** Every report of [calculate_safety_score] comes from the handler,
    from the availability gate or from scoring. *)
Lemma calculate_safety_score_inv (w : world) (lat lon country_code : pyval)
    (r : SafetyReport) :
  calculate_safety_score w lat lon country_code = Ok r ->
  (exists e, calculate_safety_score_body w lat lon country_code = Raise e
             /\ r = error_report w e)
  \/ body_returns w lat lon country_code r.
Proof.
  unfold calculate_safety_score.
  destruct (format_4f lat); [ | discriminate ].
  destruct (format_4f lon); [ | discriminate ]. cbn [bind].
  destruct (calculate_safety_score_body w lat lon country_code)
    as [r' | e] eqn:Hbody; simpl; intros [= <-].
  - right. apply body_returns_iff. exact Hbody.
  - left. exists e. split; reflexivity.
Qed.

Lemma scored_rating_not_degraded (w : world) (s : Sources) (fs : pynum) :
  rating (scored_report w s fs) <> "SERVICE UNAVAILABLE"
  /\ rating (scored_report w s fs) <> "ERROR".
Proof.
  cbn [scored_report rating]. unfold rating_of.
  destruct (num_ge fs 75); [ split; discriminate | ].
  destruct (num_ge fs 55); [ split; discriminate | ].
  destruct (num_ge fs 35); split; discriminate.
Qed.

(** A report whose rating is neither "SERVICE UNAVAILABLE" nor "ERROR"
    was built on the scoring path. *)
Lemma scored_path_inv (w : world) (lat lon country_code : pyval)
    (r : SafetyReport) :
  calculate_safety_score w lat lon country_code = Ok r ->
  rating r <> "SERVICE UNAVAILABLE" -> rating r <> "ERROR" ->
  exists s m,
    fetch_sources w lat lon = Ok s
    /\ services_available s = true
    /\ country_multiplier country_code = Ok m
    /\ r = scored_report w s (final_score_of (raw_score_of (hour_now w) s) m).
Proof.
  intros Hr Hu He.
  destruct (calculate_safety_score_inv w lat lon country_code r Hr)
    as [(e & _ & ->) | Hb].
  - exfalso. apply He. reflexivity.
  - inversion Hb as [s Hs Hgate Heq | s m Hs Hgate Hm Heq]; subst r.
    + exfalso. apply Hu. reflexivity.
    + exists s, m. repeat split; assumption.
Qed.

Lemma str_prefix_length (n : nat) (s : string) :
  (str_len (str_prefix n s) <= n)%nat.
Proof.
  revert n. induction s as [ | c s IH ]; intros n; simpl; [ lia | ].
  destruct (is_continuation c) eqn:Hc; simpl.
  - rewrite Hc. apply IH.
  - destruct n as [ | n ]; simpl; [ lia | ].
    rewrite Hc. specialize (IH n). lia.
Qed.

(** The same for any coordinates the banner can format (floats, bools,
    ints that convert to a float). *)
Lemma calculate_safety_score_formattable (w : world)
    (lat lon country_code : pyval) :
  format_4f lat = Ok tt -> format_4f lon = Ok tt ->
  exists r,
    calculate_safety_score w lat lon country_code = Ok r
    /\ valid_report r = true.
Proof.
  intros Hlat Hlon. unfold calculate_safety_score.
  rewrite Hlat, Hlon. cbn [bind].
  destruct (calculate_safety_score_body w lat lon country_code)
    as [r | e] eqn:Hbody; simpl.
  - exists r. split; [ reflexivity | ].
    apply body_returns_iff in Hbody. exact (body_returns_valid _ _ _ _ _ Hbody).
  - exists (error_report w e). split; [ reflexivity | apply error_report_valid ].
Qed.

(** C1.  The code at the failing inputs.  The banner of line 107
    formats both coordinates with [.4f] before the [try] is entered, so
    a coordinate that is a string, or an int too large for a float,
    makes [calculate_safety_score] raise: the exception reaches the
    caller and no report is returned.  This is the only way out: the call
    raises exactly when the banner does, with the banner's exception;
    for coordinates the banner can format (floats, bools, ints that
    convert to a float) it returns a structurally valid report, and a
    fault [e] inside the [try] gives the error report: rating "ERROR",
    score 0, gray, unavailable ["all"], message "Error: " followed by
    the first 100 characters of [str(e)]. *)
Theorem calculate_safety_score_raises_at_banner (w : world)
    (lat lon country_code : pyval) (s : string) :
  calculate_safety_score w (PStr s) lon country_code
  = Raise (Exn ValueError "Unknown format code 'f' for object of type 'str'")
  /\ calculate_safety_score w (PInt (10 ^ 400)) lon country_code
     = Raise (Exn OverflowError "int too large to convert to float")
  /\ (forall e, calculate_safety_score w lat lon country_code = Raise e <->
                format_4f lat = Raise e
                \/ (format_4f lat = Ok tt /\ format_4f lon = Raise e))
  /\ (format_4f lat = Ok tt -> format_4f lon = Ok tt ->
      exists r,
        calculate_safety_score w lat lon country_code = Ok r
        /\ valid_report r = true
        /\ forall e,
             calculate_safety_score_body w lat lon country_code = Raise e ->
             r = error_report w e
             /\ rating r = "ERROR"
             /\ score r = NInt 0
             /\ color r = "#999999"
             /\ unavailable (service_status r) = ["all"]
             /\ message (service_status r)
                = Some ("Error: " +:+ str_prefix 100 (exn_msg e))
             /\ (str_len (str_prefix 100 (exn_msg e)) <= 100)%nat).
Proof.
  split; [ reflexivity | ]. split; [ vm_compute; reflexivity | ].
  split.
  2:{ intros Hlat Hlon. unfold calculate_safety_score.
      rewrite Hlat, Hlon. cbn [bind].
      destruct (calculate_safety_score_body w lat lon country_code)
        as [r | e] eqn:Hbody; simpl.
      - exists r. split; [ reflexivity | ]. split.
        + apply body_returns_iff in Hbody.
          exact (body_returns_valid _ _ _ _ _ Hbody).
        + intros e He. discriminate He.
      - exists (error_report w e). split; [ reflexivity | ]. split.
        + apply error_report_valid.
        + intros e' [= <-]. repeat split. apply str_prefix_length. }
  intros e. unfold calculate_safety_score.
  destruct (format_4f lat) as [[] | e1]; cbn [bind].
  - destruct (format_4f lon) as [[] | e2]; cbn [bind].
    + destruct (try_except_total
                  (calculate_safety_score_body w lat lon country_code)
                  (error_report w)) as [r ->].
      split; [ discriminate | ].
      intros [H | [_ H]]; discriminate H.
    + split; [ intros [= <-]; right; auto | ].
      intros [H | [_ H]]; [ discriminate H | congruence ].
  - split; [ intros [= <-]; left; reflexivity | ].
    intros [H | [H _]]; [ congruence | discriminate H ].
Qed.

(** The degraded report: whenever the availability gate fails, the
    report is the fixed one of lines 135-171, whose [unavailable] list is
    the constant [['emergency_services', 'activity_data']]. *)
Lemma gate_closed_report (w : world) (x y : float) (country_code : pyval)
    (s : Sources) :
  fetch_sources w (PFloat x) (PFloat y) = Ok s ->
  services_available s = false ->
  calculate_safety_score w (PFloat x) (PFloat y) country_code
  = Ok (unavailable_report w (snd (time_risk (hour_now w)))).
Proof.
  intros Hs Hgate. rewrite calculate_safety_score_float.
  unfold calculate_safety_score_body. cbv zeta.
  rewrite Hs. simpl. rewrite Hgate. reflexivity.
Qed.

(** C3.  On the scoring path, the value [final_score] of line 229 lies in
    [0, 100]; the reported score is that value rounded to one decimal; and
    the rating is the band of [final_score] itself: SAFE from 75,
    MODERATE from 55, CAUTION from 35, HIGH RISK below. *)
Theorem final_score_bounded_and_banded (w : world)
    (lat lon country_code : pyval) (r : SafetyReport) :
  calculate_safety_score w lat lon country_code = Ok r ->
  rating r <> "SERVICE UNAVAILABLE" -> rating r <> "ERROR" ->
  exists s m,
    fetch_sources w lat lon = Ok s
    /\ country_multiplier country_code = Ok m
    /\ let final_score := final_score_of (raw_score_of (hour_now w) s) m in
       in_range 0 100 final_score = true
       /\ score r = py_round final_score 1
       /\ in_range 0 100 (score r) = true
       /\ (num_ge final_score 75 = true -> rating r = "SAFE")
       /\ (num_ge final_score 75 = false -> num_ge final_score 55 = true ->
           rating r = "MODERATE")
       /\ (num_ge final_score 55 = false -> num_ge final_score 35 = true ->
           rating r = "CAUTION")
       /\ (num_ge final_score 35 = false -> rating r = "HIGH RISK").
Proof.
  intros Hr Hu He.
  destruct (scored_path_inv w lat lon country_code r Hr Hu He)
    as (s & m & Hs & _ & Hm & ->).
  exists s, m. split; [ exact Hs | ]. split; [ exact Hm | ]. cbv zeta.
  destruct (final_score_bounds (hour_now w) s country_code m Hm) as [Hfs Hround].
  split; [ exact Hfs | ]. split; [ reflexivity | ]. split; [ exact Hround | ].
  destruct (final_score_bands_nested (hour_now w) s country_code m Hm)
    as [H55 H35].
  cbn [scored_report rating]. unfold rating_of.
  repeat split.
  - intros ->. reflexivity.
  - intros -> ->. reflexivity.
  - intros Hlow ->. rewrite (H55 Hlow), Hlow. reflexivity.
  - intros Hlow. rewrite (H55 (H35 Hlow)), (H35 Hlow), Hlow. reflexivity.
Qed.






Lemma unavailable_of_gate (hosp police activity infra : bool) (src : string) :
  (hosp || police) && activity = true ->
  In src (unavailable_of hosp police activity infra) ->
  src = "infrastructure".
Proof.
  unfold unavailable_of.
  destruct hosp, police, activity, infra; simpl; intros Hgate Hin;
    try discriminate Hgate; intuition congruence.
Qed.

(** C9.  In every report built on the scoring path, the only name the
    [unavailable] list can hold is 'infrastructure'; 'emergency_services'
    and 'activity_data' never occur, since the gate was passed. *)
Theorem scored_unavailable_only_infrastructure (w : world)
    (lat lon country_code : pyval) (r : SafetyReport) :
  calculate_safety_score w lat lon country_code = Ok r ->
  rating r <> "SERVICE UNAVAILABLE" -> rating r <> "ERROR" ->
  (forall src, In src (unavailable (service_status r)) ->
               src = "infrastructure")
  /\ ~ In "emergency_services" (unavailable (service_status r))
  /\ ~ In "activity_data" (unavailable (service_status r)).
Proof.
  intros Hr Hu He.
  destruct (scored_path_inv w lat lon country_code r Hr Hu He)
    as (s & m & _ & Hgate & _ & ->).
  cbn [scored_report service_status unavailable].
  unfold services_available in Hgate.
  pose proof (fun src => unavailable_of_gate _ _ _ (infra_success s) src Hgate)
    as Hsub.
  split; [ exact Hsub | ].
  split; intros Hin; apply Hsub in Hin; discriminate Hin.
Qed.

(** The thresholds on both sides: 75, 55 and 35 belong to the upper
    band, the float just below each to the lower one. *)
Lemma rating_of_boundaries :
  fst (rating_of (NFloat 75)) = "SAFE"
  /\ fst (rating_of (NFloat 0x1.2bfffffffffffp+6)) = "MODERATE"
  /\ fst (rating_of (NFloat 55)) = "MODERATE"
  /\ fst (rating_of (NFloat 0x1.b7fffffffffffp+5)) = "CAUTION"
  /\ fst (rating_of (NFloat 35)) = "CAUTION"
  /\ fst (rating_of (NFloat 0x1.17fffffffffffp+5)) = "HIGH RISK"
  /\ fst (rating_of (NInt 100)) = "SAFE"
  /\ fst (rating_of (NInt 0)) = "HIGH RISK".
Proof. repeat split; vm_compute; reflexivity. Qed.

(** The reported score can sit in the band above the rating's: 74.96
    is rated MODERATE and reported as 75.0. *)
Lemma rounded_score_crosses_band :
  fst (rating_of (NFloat 74.96)) = "MODERATE"
  /\ py_round (NFloat 74.96) 1 = NFloat 75.
Proof. split; vm_compute; reflexivity. Qed.

(** The two scenarios of the specification: noon in Norway with
    everything close by is clamped to 100 and SAFE; 02:00 with nothing
    around is HIGH RISK. *)
Lemma specification_scenarios :
  weighted_score 88 96 (NInt 92) 80 = 89.56%float
  /\ final_score_of (weighted_score 88 96 (NInt 92) 80) 1.18 = NInt 100
  /\ fst (rating_of (NInt 100)) = "SAFE"
  /\ population_score 2 5 = NFloat 24.5
  /\ fst (rating_of
            (final_score_of
               (weighted_score (fst (time_risk 2)) (emergency_score [])
                  (population_score 2 5) (infrastructure_score 2 3)) 1))
     = "HIGH RISK".
Proof. repeat split; vm_compute; reflexivity. Qed.

(** ** api_safety *)

Lemma py_get_dict (data : pyval) (k : string) (default v : pyval) :
  py_get data k default = Ok v -> exists d, data = PDict d.
Proof. destruct data; simpl; intros H; try discriminate H; eauto. Qed.

(** Line 79 of app.py: a latitude or longitude that is missing or equals
    0 is answered with 400 "Invalid coordinates". *)
Lemma api_safety_rejects_falsy (w : world) (data lat lon : pyval) :
  py_get data "latitude" PNone = Ok lat ->
  py_get data "longitude" PNone = Ok lon ->
  missing_or_zero lat = true \/ missing_or_zero lon = true ->
  api_safety w (Ok data) = (ApiError "Invalid coordinates", 400).
Proof.
  intros Hlat Hlon Hz. unfold api_safety.
  destruct (py_get_dict _ _ _ _ Hlat) as [d ->].
  cbn [bind]. rewrite Hlat, Hlon. cbn [bind py_get].
  assert (Hf : truthy (py_and lat lon) = false).
  { unfold py_and. destruct Hz as [Hz | Hz]; apply missing_or_zero_falsy in Hz.
    - rewrite Hz. exact Hz.
    - destruct (truthy lat) eqn:Et; [ exact Hz | exact Et ]. }
  rewrite Hf. reflexivity.
Qed.

(** A body with float coordinates that are in range and not zero is
    answered with 200 and the report of [calculate_safety_score]. *)
Lemma api_safety_accepts (w : world) (x y : float) (country_code : pyval)
    (r : SafetyReport) :
  (x =? 0)%float = false -> (y =? 0)%float = false ->
  (-90 <=? x)%float = true -> (x <=? 90)%float = true ->
  (-180 <=? y)%float = true -> (y <=? 180)%float = true ->
  calculate_safety_score w (PFloat x) (PFloat y) country_code = Ok r ->
  api_safety w (Ok (PDict [("latitude", PFloat x); ("longitude", PFloat y);
                           ("country_code", country_code)]))
  = (ApiData r, 200).
Proof.
  intros Hx Hy Hx1 Hx2 Hy1 Hy2 Hr. unfold api_safety.
  cbn [bind py_get dict_lookup String.eqb Ascii.eqb Bool.eqb py_and truthy].
  assert (Ht : truthy (py_and (PFloat x) (PFloat y)) = true).
  { unfold py_and. cbn [truthy]. rewrite Hx. cbn [negb truthy]. rewrite Hy.
    reflexivity. }
  rewrite Ht. cbn [negb py_le_lit py_ge_lit bind].
  change (Z2float (-90)) with (-90)%float. change (Z2float 90) with 90%float.
  change (Z2float (-180)) with (-180)%float. change (Z2float 180) with 180%float.
  rewrite Hx1. cbn [bind]. rewrite Hx2. cbn [bind]. rewrite Hy1. cbn [bind].
  rewrite Hy2. cbn [negb bind]. rewrite Hr. reflexivity.
Qed.

(** ** The session registry and the monitoring threads *)

Lemma live_tasks_threads (sid : string) (st : server) :
  live_tasks sid st = length (List.filter (bound_live sid) (threads st)).
Proof. reflexivity. Qed.

Lemma threads_emit (sid event : string) (st : server) :
  threads (emit sid event st) = threads st.
Proof. reflexivity. Qed.



Lemma monitor_location_step_thread (w : world) (t : thread) (st : server) :
  thread_session_id (fst (monitor_location_step w t st)) = thread_session_id t
  /\ (live (fst (monitor_location_step w t st)) = true -> live t = true)
  /\ threads (snd (monitor_location_step w t st)) = threads st.
Proof.
  unfold monitor_location_step.
  destruct (pc t) eqn:Hpc.
  - destruct (active_sessions st !! thread_session_id t) as [r | ];
      [ destruct (active r) | ]; simpl; unfold live; rewrite Hpc; auto.
  - destruct (calculate_safety_score w (thread_lat t) (thread_lon t)
                (thread_country_code t));
      simpl; unfold live; rewrite Hpc; auto.
  - simpl. auto.
Qed.


(** Once the record is gone, the thread returns at its next check. *)
Lemma monitor_location_returns_after_removal (w : world) (t : thread)
    (st : server) :
  pc t = AtCheck ->
  active_sessions st !! thread_session_id t = None ->
  pc (fst (monitor_location_step w t st)) = Returned.
Proof.
  intros Hpc Hgone. unfold monitor_location_step. rewrite Hpc, Hgone.
  reflexivity.
Qed.

(** A disconnect removes the record, and a second one changes nothing. *)
Lemma handle_disconnect_idempotent (sid : string) (st : server) :
  active_sessions (handle_disconnect sid st) !! sid = None
  /\ handle_disconnect sid (handle_disconnect sid st)
     = handle_disconnect sid st.
Proof.
  assert (Hgone : active_sessions (handle_disconnect sid st) !! sid = None).
  { unfold handle_disconnect.
    destruct (active_sessions st !! sid) eqn:Hsid; [ | exact Hsid ].
    cbn [remove_session active_sessions]. apply lookup_delete_eq. }
  split; [ exact Hgone | ].
  unfold handle_disconnect at 1. rewrite Hgone. reflexivity.
Qed.


(** C4: the code at the failing inputs.  A body whose latitude or
    longitude is 0, the other coordinate being in range, is answered with
    400 "Invalid coordinates" and no report. *)
Theorem api_safety_rejects_zero_coordinate (w : world) :
  api_safety w (Ok (PDict [("latitude", PInt 0); ("longitude", PFloat 10)]))
  = (ApiError "Invalid coordinates", 400)
  /\ api_safety w (Ok (PDict [("latitude", PFloat 0); ("longitude", PFloat 10)]))
     = (ApiError "Invalid coordinates", 400)
  /\ api_safety w (Ok (PDict [("latitude", PFloat 51.4779); ("longitude", PInt 0)]))
     = (ApiError "Invalid coordinates", 400).
Proof.
  split; [ | split ].
  - apply (api_safety_rejects_falsy w _ (PInt 0) (PFloat 10));
      [ reflexivity | reflexivity | left; reflexivity ].
  - apply (api_safety_rejects_falsy w _ (PFloat 0) (PFloat 10));
      [ reflexivity | reflexivity | left; reflexivity ].
  - apply (api_safety_rejects_falsy w _ (PFloat 51.4779) (PInt 0));
      [ reflexivity | reflexivity | right; reflexivity ].
Qed.

(** * Further properties of the code *)

(** ** The order of binary64 values *)

Ltac compare_cases :=
  repeat match goal with
         | H : context [ (?a ?= ?b)%Z ] |- _ =>
             destruct (Z.compare_spec a b); subst
         | |- context [ (?a ?= ?b)%Z ] =>
             destruct (Z.compare_spec a b); subst
         | H : context [ Pos.compare_cont Eq ?a ?b ] |- _ =>
             change (Pos.compare_cont Eq a b) with (Pos.compare a b) in H;
             destruct (Pos.compare_spec a b); subst
         | |- context [ Pos.compare_cont Eq ?a ?b ] =>
             change (Pos.compare_cont Eq a b) with (Pos.compare a b);
             destruct (Pos.compare_spec a b); subst
         end;
  simpl in *; try reflexivity; try discriminate; try lia.






(** ** sorted(places, key=distance) *)

Lemma insert_by_distance_perm (p : place) (l : list place) :
  Permutation (p :: l) (insert_by_distance p l).
Proof.
  induction l as [ | q l IH ]; simpl; [ reflexivity | ].
  destruct (distance q <? distance p)%float; [ | reflexivity ].
  rewrite perm_swap. apply perm_skip. exact IH.
Qed.

Lemma sorted_by_distance_perm (l : list place) :
  Permutation l (sorted_by_distance l).
Proof.
  induction l as [ | p l IH ]; simpl; [ reflexivity | ].
  rewrite <- insert_by_distance_perm. apply perm_skip. exact IH.
Qed.






(** ** fetch_osm_data and get_nearby_places *)

Lemma py_get_Ok (obj : pyval) (k : string) (default v : pyval) :
  py_get obj k default = Ok v ->
  exists d, obj = PDict d
            /\ v = match dict_lookup d k with Some x => x | None => default end.
Proof.
  destruct obj; simpl; intros H; try discriminate H.
  injection H as <-. eauto.
Qed.

(** The outcomes of [fetch_osm_data], by the response. *)
Lemma fetch_osm_data_by_response (resp : http_response) :
  exists elements success,
    fetch_osm_data resp = Ok (elements, success)
    /\ (success = true <-> exists d, resp = Response 200 (Ok (PDict d)))
    /\ (success = false -> elements = PList [])
    /\ (forall d, resp = Response 200 (Ok (PDict d)) ->
        elements = match dict_lookup d "elements" with
                   | Some v => v
                   | None => PList []
                   end).
Proof.
  unfold fetch_osm_data.
  destruct resp as [e | status json]; simpl.
  - exists (PList []), false. repeat split; try discriminate.
    intros [d H]. discriminate H.
  - destruct (status =? 200) eqn:Hst.
    + apply Z.eqb_eq in Hst. subst status.
      destruct json as [body | e]; simpl.
      * destruct body as [ | b | z | f | s | l | d ]; simpl;
          try (exists (PList []), false; repeat split; try discriminate;
               intros [d' H]; discriminate H).
        exists (match dict_lookup d "elements" with
                | Some v => v
                | None => PList []
                end), true.
        repeat split; try discriminate; eauto.
        intros d' [= <-]. reflexivity.
      * exists (PList []), false. repeat split; try discriminate.
        intros [d H]. discriminate H.
    + exists (PList []), false. repeat split; try discriminate.
      * intros [d [= H _]]. subst status. discriminate Hst.
      * intros d [= H _]. subst status. discriminate Hst.
Qed.

(** X1.  [fetch_osm_data] never raises.  It reports success exactly when
    the request returned status 200 with a body that decodes to a JSON
    object, and then hands over that object's 'elements' member (an
    empty list when the key is absent); in every other case (transport
    error, other status, undecodable body, a body that is not an
    object) it returns the empty list with the flag false. *)
Theorem fetch_osm_data_outcomes (resp : http_response) :
  exists elements success,
    fetch_osm_data resp = Ok (elements, success)
    /\ (success = true <-> exists d, resp = Response 200 (Ok (PDict d)))
    /\ (success = false -> elements = PList [])
    /\ (forall d, resp = Response 200 (Ok (PDict d)) ->
        elements = match dict_lookup d "elements" with
                   | Some v => v
                   | None => PList []
                   end).
Proof.
  destruct (fetch_osm_data_by_response resp)
    as (elements & success & Hret & Hok & Hfail & Hel).
  exists elements, success.
  split; [ exact Hret | ]. split; [ exact Hok | ].
  split; [ exact Hfail | exact Hel ].
Qed.

Lemma fetch_osm_data_failure (resp : http_response) (elements : pyval) :
  fetch_osm_data resp = Ok (elements, false) -> elements = PList [].
Proof.
  destruct (fetch_osm_data_by_response resp) as (el & ok & Heq & _ & Hfail & _).
  rewrite Heq. intros [= -> ->]. apply Hfail. reflexivity.
Qed.

(** What [get_nearby_places] returns, by cases. *)
Lemma get_nearby_places_cases (w : world) (lat lon : pyval)
    (place_type : string) (radius : Z) :
  (get_nearby_places w lat lon place_type radius = Ok ([], false)
   /\ (existsb (String.eqb place_type) queries = false
       \/ exists elements,
            fetch_osm_data (overpass w place_type) = Ok (elements, false)))
  \/ (exists elements,
        existsb (String.eqb place_type) queries = true
        /\ fetch_osm_data (overpass w place_type) = Ok (elements, true)
        /\ ((exists elems,
               py_iter elements = Ok elems
               /\ get_nearby_places w lat lon place_type radius
                  = Ok (sorted_by_distance
                          (places_of_elems lat lon place_type elems), true))
            \/ (iterable elements = false
                /\ get_nearby_places w lat lon place_type radius
                   = Raise (Exn TypeError
                              ("'" +:+ type_name elements
                               +:+ "' object is not iterable"))))).
Proof.
  unfold get_nearby_places.
  destruct (existsb (String.eqb place_type) queries) eqn:Hq; simpl;
    [ | left; split; [ reflexivity | left; reflexivity ] ].
  destruct (fetch_osm_data_by_response (overpass w place_type))
    as (elements & ok & Heq & _ & _ & _).
  rewrite Heq. simpl. destruct ok; simpl.
  - right. exists elements. split; [ reflexivity | ]. split; [ reflexivity | ].
    destruct elements; simpl; eauto.
  - left. split; [ reflexivity | ]. right. eauto.
Qed.

(** X2.  Whenever [get_nearby_places] reports failure, its list is
    empty: a failed fetch and an unknown place type both give
    [([], False)]. *)
Theorem get_nearby_places_failure_is_empty (w : world) (lat lon : pyval)
    (place_type : string) (radius : Z) (places : list place) :
  get_nearby_places w lat lon place_type radius = Ok (places, false) ->
  places = []
  /\ (existsb (String.eqb place_type) queries = false
      \/ exists elements,
           fetch_osm_data (overpass w place_type) = Ok (elements, false)).
Proof.
  intros H.
  destruct (get_nearby_places_cases w lat lon place_type radius)
    as [[Heq Hwhy] | (elements & _ & _ & [(elems & _ & Heq) | [_ Heq]])];
    rewrite Heq in H; try discriminate H.
  injection H as <-. split; [ reflexivity | exact Hwhy ].
Qed.

(** X3.  [get_nearby_places] raises in one situation only: the place
    type is known, the server answered 200 with a JSON object, and that
    object's 'elements' is not something a loop can run over (null, a
    boolean, a number).  The exception is the TypeError of the [for]
    statement. *)
Theorem get_nearby_places_raises_iff (w : world) (lat lon : pyval)
    (place_type : string) (radius : Z) :
  (exists e, get_nearby_places w lat lon place_type radius = Raise e)
  <-> existsb (String.eqb place_type) queries = true
      /\ exists d v,
           overpass w place_type = Response 200 (Ok (PDict d))
           /\ dict_lookup d "elements" = Some v
           /\ iterable v = false
           /\ get_nearby_places w lat lon place_type radius
              = Raise (Exn TypeError
                         ("'" +:+ type_name v +:+ "' object is not iterable")).
Proof.
  split.
  - intros [e He].
    destruct (get_nearby_places_cases w lat lon place_type radius)
      as [[Heq _] | (elements & Hq & Hfetch & [(elems & _ & Heq) | [Hit Heq]])];
      try (rewrite Heq in He; discriminate He).
    split; [ exact Hq | ].
    destruct (fetch_osm_data_by_response (overpass w place_type))
      as (el & ok & Hout & Hok & _ & Hel).
    rewrite Hfetch in Hout. injection Hout as <- <-.
    destruct Hok as [Hok _]. destruct (Hok eq_refl) as [d Hresp].
    specialize (Hel d Hresp).
    destruct (dict_lookup d "elements") as [v | ] eqn:Hv.
    + subst elements. exists d, v. repeat split; assumption.
    + subst elements. discriminate Hit.
  - intros (_ & d & v & _ & _ & _ & Heq). eauto.
Qed.

Lemma place_of_elem_Some (lat lon : pyval) (place_type : string)
    (elem : pyval) (p : place) :
  place_of_elem lat lon place_type elem = Some p ->
  type_ p = place_type
  /\ resolve_coord elem "lat" = Ok (latitude p)
  /\ resolve_coord elem "lon" = Ok (longitude p)
  /\ truthy (latitude p) = true /\ truthy (longitude p) = true
  /\ exists d,
       calculate_distance lat lon (latitude p) (longitude p) = Ok d
       /\ (d =? infinity)%float = false
       /\ distance p = float_round d 2.
Proof.
  unfold place_of_elem, place_of_elem_body.
  destruct (resolve_coord elem "lat") as [e_lat | ]; simpl; [ | discriminate ].
  destruct (resolve_coord elem "lon") as [e_lon | ]; simpl; [ | discriminate ].
  destruct (truthy (py_and e_lat e_lon)) eqn:Ht; simpl; [ | discriminate ].
  destruct (calculate_distance lat lon e_lat e_lon) as [d | ] eqn:Hd; simpl;
    [ | discriminate ].
  destruct (d =? infinity)%float eqn:Hinf; [ discriminate | ].
  destruct (py_get elem "tags" (PDict [])) as [tags | ]; simpl; [ | discriminate ].
  destruct (py_get tags "name" (PStr (str_title place_type))) as [nm | ];
    simpl; [ | discriminate ].
  intros [= <-]. simpl.
  unfold py_and in Ht.
  destruct (truthy e_lat) eqn:Hlat; [ | rewrite Hlat in Ht; discriminate Ht ].
  repeat split; try reflexivity; try assumption.
  exists d. repeat split; assumption.
Qed.

Lemma places_of_elems_In (lat lon : pyval) (place_type : string)
    (elems : list pyval) (p : place) :
  In p (places_of_elems lat lon place_type elems) ->
  exists elem, In elem elems /\ place_of_elem lat lon place_type elem = Some p.
Proof.
  induction elems as [ | e elems IH ]; simpl; [ intros [] | ].
  destruct (place_of_elem lat lon place_type e) as [q | ] eqn:He.
  - intros [<- | Hin]; [ eauto | ].
    destruct (IH Hin) as (elem & Hel & Hp). eauto.
  - intros Hin. destruct (IH Hin) as (elem & Hel & Hp). eauto.
Qed.

Lemma get_nearby_places_success (w : world) (lat lon : pyval)
    (place_type : string) (radius : Z) (places : list place) (ok : bool) :
  get_nearby_places w lat lon place_type radius = Ok (places, ok) ->
  exists elems,
    places = sorted_by_distance (places_of_elems lat lon place_type elems).
Proof.
  intros H.
  destruct (get_nearby_places_cases w lat lon place_type radius)
    as [[Heq _] | (elements & _ & _ & [(elems & _ & Heq) | [_ Heq]])];
    rewrite Heq in H; try discriminate H; injection H as <- <-.
  - exists []. reflexivity.
  - exists elems. reflexivity.
Qed.

(** X4.  Every record [get_nearby_places] returns carries the requested
    place type, coordinates that are both true values (so never 0 or
    missing), and a distance that is [calculate_distance] from the
    centre to those coordinates, different from infinity, rounded to two
    decimals. *)
Theorem get_nearby_places_records (w : world) (lat lon : pyval)
    (place_type : string) (radius : Z) (places : list place) (ok : bool)
    (p : place) :
  get_nearby_places w lat lon place_type radius = Ok (places, ok) ->
  In p places ->
  type_ p = place_type
  /\ truthy (latitude p) = true /\ truthy (longitude p) = true
  /\ exists d,
       calculate_distance lat lon (latitude p) (longitude p) = Ok d
       /\ (d =? infinity)%float = false
       /\ distance p = float_round d 2.
Proof.
  intros H Hin.
  destruct (get_nearby_places_success _ _ _ _ _ _ _ H) as [elems ->].
  apply (Permutation_in _ (Permutation_sym (sorted_by_distance_perm _))) in Hin.
  destruct (places_of_elems_In _ _ _ _ _ Hin) as (elem & _ & Hp).
  destruct (place_of_elem_Some _ _ _ _ _ Hp) as (Ht & _ & _ & Hlat & Hlon & Hd).
  repeat split; assumption.
Qed.


(** ** The report *)





Lemma score_at_least_21_all : for_all_scores score_at_least_21 = true.
Proof. vm_compute. reflexivity. Qed.

Lemma scored_report_score (w : world) (s : Sources) (country_code : pyval)
    (m : float) :
  country_multiplier country_code = Ok m ->
  in_range 21 100
    (score (scored_report w s (final_score_of (raw_score_of (hour_now w) s) m)))
  = true.
Proof.
  intros Hm. cbn [scored_report score].
  apply (for_all_scores_spec _ score_at_least_21_all).
  - apply time_risk_in.
  - apply emergency_score_in.
  - apply population_score_in.
  - apply infrastructure_score_in.
  - exact (country_multiplier_in _ _ Hm).
Qed.

Lemma confidence_of_not_zero (hosp police activity infra : bool) :
  confidence_of hosp police activity infra <> NInt 0.
Proof. unfold confidence_of. discriminate. Qed.

Lemma rating_of_color (fs : pynum) :
  snd (rating_of fs) <> "#999999".
Proof.
  unfold rating_of.
  destruct (num_ge fs 75); [ discriminate | ].
  destruct (num_ge fs 55); [ discriminate | ].
  destruct (num_ge fs 35); discriminate.
Qed.

(** X7.  In every report [calculate_safety_score] returns, the reports
    without a score (rating "SERVICE UNAVAILABLE" or "ERROR") are exactly
    those with score 0, exactly those with confidence 0 and exactly the
    gray ones; every other report has a score of at least 21. *)
Theorem no_score_reports_recognisable (w : world)
    (lat lon country_code : pyval) (r : SafetyReport) :
  calculate_safety_score w lat lon country_code = Ok r ->
  (no_score r <-> score r = NInt 0)
  /\ (no_score r <-> confidence r = NInt 0)
  /\ (no_score r <-> color r = "#999999")
  /\ (~ no_score r -> in_range 21 100 (score r) = true).
Proof.
  intros Hr.
  destruct (calculate_safety_score_inv w lat lon country_code r Hr)
    as [(e & _ & ->) | Hb].
  - assert (Hn : no_score (error_report w e)) by (right; reflexivity).
    repeat split; try reflexivity; try (intros _; exact Hn).
    intros Hnot. destruct (Hnot Hn).
  - inversion Hb as [s Hs Hgate Heq | s m Hs Hgate Hm Heq]; subst r.
    + assert (Hn : no_score (unavailable_report w (snd (time_risk (hour_now w)))))
        by (left; reflexivity).
      repeat split; try reflexivity; try (intros _; exact Hn).
      intros Hnot. destruct (Hnot Hn).
    + pose proof (scored_report_score w s country_code m Hm) as Hscore.
      destruct (scored_rating_not_degraded w s
                  (final_score_of (raw_score_of (hour_now w) s) m)) as [Hu He].
      assert (Hnot : ~ no_score
                (scored_report w s
                   (final_score_of (raw_score_of (hour_now w) s) m)))
        by (intros [H | H]; [ exact (Hu H) | exact (He H) ]).
      repeat split; try (intros H; destruct (Hnot H)).
      * intros H0. rewrite H0 in Hscore. discriminate Hscore.
      * intros H0. destruct (confidence_of_not_zero _ _ _ _ H0).
      * intros H0. destruct (rating_of_color _ H0).
      * intros _. exact Hscore.
Qed.

Lemma confidence_of_is_85 (hosp police activity infra : bool) :
  confidence_of hosp police activity infra = NFloat 85 ->
  hosp && police && activity && infra = true.
Proof.
  intros H.
  apply (f_equal (fun n => match n with
                           | NFloat f => (f =? 85)%float
                           | NInt _ => false
                           end)) in H.
  destruct hosp, police, activity, infra; vm_compute in H;
    solve [ reflexivity | discriminate H ].
Qed.

Lemma confidence_of_gate (hosp police activity infra : bool) :
  (hosp || police) && activity = true ->
  (confidence_of hosp police activity infra = NFloat 42.5
   \/ confidence_of hosp police activity infra = NFloat 63.8
   \/ confidence_of hosp police activity infra = NFloat 85).
Proof.
  destruct hosp, police, activity, infra; simpl; intros Hgate;
    try discriminate Hgate;
    solve [ left; vm_compute; reflexivity
          | right; left; vm_compute; reflexivity
          | right; right; vm_compute; reflexivity ].
Qed.

(** X8.  The confidence of a scored report is 42.5, 63.8 or 85.0, since
    the availability gate leaves at least two of the four tracked
    fetches successful; it is 85.0 exactly when the hospital, police,
    activity and infrastructure fetches all succeeded. *)
Theorem scored_confidence_values (w : world) (lat lon country_code : pyval)
    (r : SafetyReport) :
  calculate_safety_score w lat lon country_code = Ok r ->
  rating r <> "SERVICE UNAVAILABLE" -> rating r <> "ERROR" ->
  exists s,
    fetch_sources w lat lon = Ok s
    /\ (confidence r = NFloat 42.5 \/ confidence r = NFloat 63.8
        \/ confidence r = NFloat 85)
    /\ (confidence r = NFloat 85
        <-> hosp_success s && police_success s && activity_success s
            && infra_success s = true).
Proof.
  intros Hr Hu He.
  destruct (scored_path_inv w lat lon country_code r Hr Hu He)
    as (s & m & Hs & Hgate & _ & ->).
  exists s. split; [ exact Hs | ].
  cbn [scored_report confidence]. unfold services_available in Hgate.
  split; [ exact (confidence_of_gate _ _ _ _ Hgate) | ].
  split; [ apply confidence_of_is_85 | ].
  destruct (hosp_success s), (police_success s), (activity_success s),
    (infra_success s); simpl; intros H; try discriminate H.
  vm_compute. reflexivity.
Qed.

(** X9.  The service status of a scored report depends on the
    infrastructure fetch alone: when it succeeded the status is "All
    services operational" in green with an empty unavailable list, and
    when it failed it is "Limited data: infrastructure" in amber; there is
    never a message. *)
Theorem scored_service_status (w : world) (lat lon country_code : pyval)
    (r : SafetyReport) :
  calculate_safety_score w lat lon country_code = Ok r ->
  rating r <> "SERVICE UNAVAILABLE" -> rating r <> "ERROR" ->
  exists s,
    fetch_sources w lat lon = Ok s
    /\ message (service_status r) = None
    /\ (infra_success s = true ->
        overall (service_status r) = "All services operational"
        /\ status_color (service_status r) = "#4CAF50"
        /\ unavailable (service_status r) = [])
    /\ (infra_success s = false ->
        overall (service_status r) = "Limited data: infrastructure"
        /\ status_color (service_status r) = "#FF9800"
        /\ unavailable (service_status r) = ["infrastructure"]).
Proof.
  intros Hr Hu He.
  destruct (scored_path_inv w lat lon country_code r Hr Hu He)
    as (s & m & Hs & Hgate & _ & ->).
  exists s. split; [ exact Hs | ]. split; [ reflexivity | ].
  cbn [scored_report service_status overall status_color unavailable].
  unfold services_available in Hgate.
  destruct (hosp_success s), (police_success s), (activity_success s);
    try discriminate Hgate;
    split; intros ->; repeat split.
Qed.

Lemma get_nearby_places_same_answer (w w' : world) (lat lon : pyval)
    (place_type : string) (radius : Z) :
  overpass w place_type = overpass w' place_type ->
  get_nearby_places w lat lon place_type radius
  = get_nearby_places w' lat lon place_type radius.
Proof. intros H. unfold get_nearby_places. rewrite H. reflexivity. Qed.

Lemma get_nearby_places_failed (w : world) (lat lon : pyval)
    (place_type : string) (radius : Z) (elements : pyval) :
  fetch_osm_data (overpass w place_type) = Ok (elements, false) ->
  get_nearby_places w lat lon place_type radius = Ok ([], false).
Proof.
  intros H. unfold get_nearby_places. rewrite H.
  destruct (existsb (String.eqb place_type) queries); reflexivity.
Qed.

Lemma get_nearby_places_no_elements (w : world) (lat lon : pyval)
    (place_type : string) (radius : Z) :
  existsb (String.eqb place_type) queries = true ->
  overpass w place_type = elements_response [] ->
  get_nearby_places w lat lon place_type radius = Ok ([], true).
Proof.
  intros Hq H. unfold get_nearby_places. rewrite Hq, H. reflexivity.
Qed.

(** X10.  A failed bus stop or train station fetch leaves no trace in
    the result: if the two queries fail in one world and return no
    elements in another that is otherwise the same, [calculate_safety_score]
    gives the same outcome in both. *)
Theorem transit_failure_is_invisible (w w' : world)
    (lat lon country_code : pyval) (bus train : pyval) :
  same_but_transit w w' ->
  fetch_osm_data (overpass w "bus_stop") = Ok (bus, false) ->
  fetch_osm_data (overpass w "train") = Ok (train, false) ->
  overpass w' "bus_stop" = elements_response [] ->
  overpass w' "train" = elements_response [] ->
  calculate_safety_score w lat lon country_code
  = calculate_safety_score w' lat lon country_code.
Proof.
  intros (Hhour & Hnow & Hsame) Hbus Htrain Hbus' Htrain'.
  assert (Hbody : calculate_safety_score_body w lat lon country_code
                  = calculate_safety_score_body w' lat lon country_code).
  { unfold calculate_safety_score_body, fetch_sources. cbv zeta.
    rewrite (get_nearby_places_same_answer w w' lat lon "hospital")
      by (apply Hsame; discriminate).
    rewrite (get_nearby_places_same_answer w w' lat lon "police")
      by (apply Hsame; discriminate).
    rewrite (get_nearby_places_same_answer w w' lat lon "activity")
      by (apply Hsame; discriminate).
    rewrite (get_nearby_places_same_answer w w' lat lon "infrastructure")
      by (apply Hsame; discriminate).
    rewrite (get_nearby_places_failed w lat lon "bus_stop" 1000 bus Hbus).
    rewrite (get_nearby_places_failed w lat lon "train" 2000 train Htrain).
    rewrite (get_nearby_places_no_elements w' lat lon "bus_stop" 1000
               eq_refl Hbus').
    rewrite (get_nearby_places_no_elements w' lat lon "train" 2000
               eq_refl Htrain').
    destruct (get_nearby_places w' lat lon "hospital" 5000) as [[hs hb] | ];
      [ | reflexivity ].
    destruct (get_nearby_places w' lat lon "police" 5000) as [[ps pb] | ];
      [ | reflexivity ].
    cbn [bind].
    destruct (get_nearby_places w' lat lon "activity" 600) as [[acts ab] | ];
      [ | reflexivity ].
    destruct (get_nearby_places w' lat lon "infrastructure" 500)
      as [[infs ib] | ]; [ | reflexivity ].
    cbn [bind]. unfold services_available, unavailable_report, scored_report,
      raw_score_of, emergency_of, infra_count_of.
    cbn [hosp_success police_success activity_success infra_success
         bus_success train_success src_hospitals src_police src_bus_stops
         src_trains src_activity src_infra].
    rewrite Hhour, Hnow. reflexivity. }
  unfold calculate_safety_score. rewrite Hbody.
  unfold error_report. rewrite Hhour, Hnow. reflexivity.
Qed.


(** ** The scoring bands *)

Lemma SFlt_le_trans (y m k : spec_float) :
  SFltb y m = true -> SFleb m k = true -> SFleb y k = true.
Proof.
  unfold SFltb, SFleb.
  destruct y as [[] | [] | | [] my ey], m as [[] | [] | | [] mm em],
    k as [[] | [] | | [] mk ek];
    simpl; try reflexivity; try discriminate;
    intros H1 H2; compare_cases.
Qed.

Lemma lt_le_trans (y m k : float) :
  (y <? m)%float = true -> (m <=? k)%float = true -> (y <=? k)%float = true.
Proof. rewrite ltb_spec, !leb_spec. apply SFlt_le_trans. Qed.

Lemma emergency_score_band (p : place) (rest : list place) :
  emergency_score (p :: rest)
  = distance_band (float_min (distance p) (map distance rest)).
Proof. reflexivity. Qed.

Lemma distance_band_nearer (d m : float) :
  (d <? m)%float = true -> distance_band m <= distance_band d.
Proof.
  intros Hlt. unfold distance_band.
  pose proof (lt_le_trans d m 0.8 Hlt) as H1.
  pose proof (lt_le_trans d m 1.5 Hlt) as H2.
  pose proof (lt_le_trans d m 2.5 Hlt) as H3.
  pose proof (lt_le_trans d m 4.0 Hlt) as H4.
  destruct (m <=? 0.8)%float; [ rewrite (H1 eq_refl); lia | ].
  destruct (m <=? 1.5)%float;
    [ rewrite (H2 eq_refl); destruct (d <=? 0.8)%float; lia | ].
  destruct (m <=? 2.5)%float;
    [ rewrite (H3 eq_refl); destruct (d <=? 0.8)%float;
      destruct (d <=? 1.5)%float; lia | ].
  destruct (m <=? 4.0)%float;
    [ rewrite (H4 eq_refl); destruct (d <=? 0.8)%float;
      destruct (d <=? 1.5)%float; destruct (d <=? 2.5)%float; lia | ].
  destruct (d <=? 0.8)%float; destruct (d <=? 1.5)%float;
    destruct (d <=? 2.5)%float; destruct (d <=? 4.0)%float; lia.
Qed.

Lemma distance_band_ge_30 (d : float) : 30 <= distance_band d.
Proof.
  unfold distance_band.
  destruct (d <=? 0.8)%float; destruct (d <=? 1.5)%float;
    destruct (d <=? 2.5)%float; destruct (d <=? 4.0)%float; lia.
Qed.

Lemma emergency_score_one_more (l : list place) (p : place) :
  emergency_score l <= emergency_score (l ++ [p]).
Proof.
  destruct l as [ | q rest ].
  - change ([] ++ [p]) with [p]. rewrite emergency_score_band.
    pose proof (distance_band_ge_30 (float_min (distance p) (map distance []))).
    simpl emergency_score at 1. lia.
  - change ((q :: rest) ++ [p]) with (q :: (rest ++ [p])).
    rewrite !emergency_score_band, map_app. unfold float_min.
    rewrite fold_left_app. simpl.
    match goal with
    | |- context [ (distance p <? ?m)%float ] =>
        destruct (distance p <? m)%float eqn:Hlt;
        [ exact (distance_band_nearer _ _ Hlt) | lia ]
    end.
Qed.

(** X11.  Finding more emergency places never lowers the emergency
    score: the score of a list of places is at most the score of that
    list followed by further places; in particular the police stations
    can only raise what the hospitals alone would give.  Without any
    place the score is 22, with at least one it is at least 30. *)
Theorem emergency_score_more_places (l more : list place) :
  emergency_score l <= emergency_score (l ++ more)
  /\ emergency_score [] = 22
  /\ (l <> [] -> 30 <= emergency_score l).
Proof.
  split; [ | split ].
  - induction more as [ | p more IH ] using rev_ind.
    + rewrite app_nil_r. lia.
    + rewrite app_assoc.
      pose proof (emergency_score_one_more (l ++ more) p). lia.
  - reflexivity.
  - destruct l as [ | p rest ]; [ intros H; destruct (H eq_refl) | intros _ ].
    rewrite emergency_score_band. apply distance_band_ge_30.
Qed.

(** X12.  At a given hour, more activity never lowers the population
    score and more infrastructure never lowers the infrastructure
    score. *)
Theorem density_scores_monotone (hour count count' : Z) :
  count <= count' ->
  (num_float (population_score hour count)
   <=? num_float (population_score hour count'))%float = true
  /\ infrastructure_score hour count <= infrastructure_score hour count'.
Proof.
  intros Hle. split.
  - unfold population_score.
    destruct ((hour <? 6) || (22 <? hour));
      destruct (Z.leb_spec 60 count); destruct (Z.leb_spec 60 count');
      destruct (Z.leb_spec 40 count); destruct (Z.leb_spec 40 count');
      destruct (Z.leb_spec 25 count); destruct (Z.leb_spec 25 count');
      destruct (Z.leb_spec 12 count); destruct (Z.leb_spec 12 count');
      try lia; vm_compute; reflexivity.
  - unfold infrastructure_score.
    destruct ((6 <=? hour) && (hour <=? 19));
      destruct (Z.leb_spec 20 count); destruct (Z.leb_spec 20 count');
      destruct (Z.leb_spec 10 count); destruct (Z.leb_spec 10 count');
      lia.
Qed.

Lemma time_score_dominates_all : for_all_scores time_score_dominates = true.
Proof. vm_compute. reflexivity. Qed.

Lemma time_risk_low (hour : Z) :
  9 <= hour <= 18 -> fst (time_risk hour) = 88.
Proof.
  intros [H1 H2]. unfold time_risk.
  destruct (Z.leb_spec 9 hour); [ | lia ].
  destruct (Z.leb_spec hour 18); [ reflexivity | lia ].
Qed.

Lemma time_risk_high (hour : Z) :
  hour < 7 \/ 20 < hour -> fst (time_risk hour) = 25.
Proof.
  intros H. unfold time_risk.
  destruct (Z.leb_spec 9 hour); destruct (Z.leb_spec hour 18);
    destruct (Z.leb_spec 7 hour); destruct (Z.ltb_spec hour 9);
    destruct (Z.ltb_spec 18 hour); destruct (Z.leb_spec hour 20);
    simpl; try reflexivity; lia.
Qed.

(** X13.  The hour bounds the rating.  Between 09:00 and 18:59 no scored
    report is rated "HIGH RISK", whatever the data and the country; and
    before 07:00 or after 20:59, with a country factor of at most 1.00
    (India, Brazil, China, Mexico, or any code outside the table), no
    report is rated "SAFE". *)
Theorem hour_bounds_rating (w : world) (lat lon country_code : pyval)
    (r : SafetyReport) :
  calculate_safety_score w lat lon country_code = Ok r ->
  rating r <> "SERVICE UNAVAILABLE" -> rating r <> "ERROR" ->
  exists m,
    country_multiplier country_code = Ok m
    /\ (9 <= hour_now w <= 18 -> rating r <> "HIGH RISK")
    /\ (hour_now w < 7 \/ 20 < hour_now w -> (m <=? 1)%float = true ->
        rating r <> "SAFE").
Proof.
  intros Hr Hu He.
  destruct (scored_path_inv w lat lon country_code r Hr Hu He)
    as (s & m & Hs & _ & Hm & ->).
  exists m. split; [ exact Hm | ].
  assert (H : time_score_dominates (fst (time_risk (hour_now w)))
                (emergency_score (emergency_of s))
                (population_score (hour_now w) (len (src_activity s)))
                (infrastructure_score (hour_now w) (infra_count_of s)) m = true).
  { apply (for_all_scores_spec _ time_score_dominates_all).
    - apply time_risk_in.
    - apply emergency_score_in.
    - apply population_score_in.
    - apply infrastructure_score_in.
    - exact (country_multiplier_in _ _ Hm). }
  unfold time_score_dominates in H. cbv zeta in H.
  fold (raw_score_of (hour_now w) s) in H.
  apply andb_prop in H as [Hlow Hhigh].
  cbn [scored_report rating]. unfold rating_of. split.
  - intros Hhour. rewrite (time_risk_low _ Hhour) in Hlow. simpl in Hlow.
    destruct (num_ge _ 75); [ discriminate | ].
    destruct (num_ge _ 55); [ discriminate | ].
    rewrite Hlow. discriminate.
  - intros Hhour Hle. rewrite (time_risk_high _ Hhour), Hle in Hhigh.
    simpl in Hhigh.
    destruct (num_ge _ 75); [ discriminate Hhigh | ].
    destruct (num_ge _ 55); [ discriminate | ].
    destruct (num_ge _ 35); discriminate.
Qed.

(** ** api_safety *)

(** X14.  [api_safety] answers with a report only after validation: if
    the body of the answer is a report, the status is 200, the request
    body is a JSON object whose latitude and longitude are both true
    values, the latitude is a number of [-90, 90] and the longitude one
    of [-180, 180], and the report is what [calculate_safety_score]
    returns for these values and the body's country code ('XX' when
    absent). *)
Theorem api_safety_report_is_validated (w : world)
    (request_json : result pyval) (r : SafetyReport) (status : Z) :
  api_safety w request_json = (ApiData r, status) ->
  status = 200
  /\ exists data lat lon country_code,
       request_json = Ok data
       /\ py_get data "latitude" PNone = Ok lat
       /\ py_get data "longitude" PNone = Ok lon
       /\ py_get data "country_code" (PStr "XX") = Ok country_code
       /\ truthy lat = true /\ truthy lon = true
       /\ py_le_lit (-90) lat = Ok true /\ py_ge_lit lat 90 = Ok true
       /\ py_le_lit (-180) lon = Ok true /\ py_ge_lit lon 180 = Ok true
       /\ calculate_safety_score w lat lon country_code = Ok r.
Proof.
  unfold api_safety.
  destruct request_json as [data | e]; cbn [bind]; [ | discriminate ].
  destruct (py_get data "latitude" PNone) as [lat | ] eqn:Hlat; cbn [bind];
    [ | discriminate ].
  destruct (py_get data "longitude" PNone) as [lon | ] eqn:Hlon; cbn [bind];
    [ | discriminate ].
  destruct (py_get data "country_code" (PStr "XX")) as [cc | ] eqn:Hcc;
    cbn [bind]; [ | discriminate ].
  destruct (truthy (py_and lat lon)) eqn:Ht; cbn [negb]; [ | discriminate ].
  destruct (py_le_lit (-90) lat) as [[] | ] eqn:H1; cbn [bind];
    try discriminate.
  destruct (py_ge_lit lat 90) as [[] | ] eqn:H2; cbn [bind negb];
    try discriminate.
  destruct (py_le_lit (-180) lon) as [[] | ] eqn:H3; cbn [bind negb];
    try discriminate.
  destruct (py_ge_lit lon 180) as [[] | ] eqn:H4; cbn [bind negb];
    try discriminate.
  destruct (calculate_safety_score w lat lon cc) as [r' | ] eqn:Hr;
    cbn [bind]; [ | discriminate ].
  intros [= <- <-]. split; [ reflexivity | ].
  exists data, lat, lon, cc.
  unfold py_and in Ht.
  destruct (truthy lat) eqn:Htl; [ | rewrite Htl in Ht; discriminate Ht ].
  repeat split; assumption.
Qed.

Lemma small_ints_in (z : Z) : -180 <= z <= 180 -> In z small_ints.
Proof.
  intros Hz. unfold small_ints. apply in_map_iff.
  exists (Z.to_nat (z + 180)). split; [ lia | ].
  apply in_seq. lia.
Qed.

Lemma small_int_formats (z : Z) :
  -180 <= z <= 180 -> format_4f (PInt z) = Ok tt.
Proof.
  intros Hz.
  assert (H : forallb (fun x => negb (is_infinity (Z2float x))) small_ints
              = true) by (vm_compute; reflexivity).
  rewrite forallb_forall in H. specialize (H z (small_ints_in z Hz)).
  unfold format_4f, int_to_float.
  destruct (is_infinity (Z2float z)); [ discriminate H | reflexivity ].
Qed.

Lemma in_range_formats (v : pyval) (lo hi : Z) :
  -180 <= lo -> hi <= 180 ->
  py_le_lit lo v = Ok true -> py_ge_lit v hi = Ok true ->
  format_4f v = Ok tt.
Proof.
  intros Hlo Hhi.
  destruct v as [ | b | z | f | s | l | d ]; simpl; try discriminate;
    try reflexivity.
  intros [= H1] [= H2]. apply Z.leb_le in H1, H2.
  apply small_int_formats. lia.
Qed.

Lemma py_le_lit_real (k : Z) (v : pyval) :
  is_real v = true -> exists b, py_le_lit k v = Ok b.
Proof. destruct v; simpl; intros; try discriminate; eauto. Qed.

Lemma py_ge_lit_real (v : pyval) (k : Z) :
  is_real v = true -> exists b, py_ge_lit v k = Ok b.
Proof. destruct v; simpl; intros; try discriminate; eauto. Qed.

(** X15.  A request whose body is a JSON object with numbers (int, float
    or bool) for latitude and longitude is never answered with 500: the
    answer is 200 with a report, 400 "Invalid coordinates" or 400
    "Coordinates out of range", whatever the country code and the state
    of the Overpass server. *)
Theorem api_safety_numbers_never_500 (w : world) (d : list (string * pyval))
    (lat lon : pyval) :
  dict_lookup d "latitude" = Some lat ->
  dict_lookup d "longitude" = Some lon ->
  is_real lat = true -> is_real lon = true ->
  (exists r, api_safety w (Ok (PDict d)) = (ApiData r, 200))
  \/ api_safety w (Ok (PDict d)) = (ApiError "Invalid coordinates", 400)
  \/ api_safety w (Ok (PDict d)) = (ApiError "Coordinates out of range", 400).
Proof.
  intros Hlat Hlon Hrlat Hrlon. unfold api_safety.
  cbn [bind py_get]. rewrite Hlat, Hlon. cbn [bind].
  destruct (truthy (py_and lat lon)); cbn [negb];
    [ | right; left; reflexivity ].
  destruct (py_le_lit_real (-90) lat Hrlat) as [b1 H1].
  destruct (py_ge_lit_real lat 90 Hrlat) as [b2 H2].
  destruct (py_le_lit_real (-180) lon Hrlon) as [b3 H3].
  destruct (py_ge_lit_real lon 180 Hrlon) as [b4 H4].
  rewrite H1. cbn [bind].
  destruct b1; [ rewrite H2 | ]; cbn [bind];
    [ | right; right; reflexivity ].
  destruct b2; [ rewrite H3 | ]; cbn [bind];
    [ | right; right; reflexivity ].
  destruct b3; [ rewrite H4 | ]; cbn [bind negb];
    [ | right; right; reflexivity ].
  destruct b4; cbn [negb]; [ | right; right; reflexivity ].
  left.
  destruct (calculate_safety_score_formattable w lat lon
              (match dict_lookup d "country_code" with
               | Some v => v
               | None => PStr "XX"
               end)) as (r & Hr & _).
  - apply (in_range_formats lat (-90) 90); [ lia | lia | exact H1 | exact H2 ].
  - apply (in_range_formats lon (-180) 180); [ lia | lia | exact H3 | exact H4 ].
  - rewrite Hr. cbn [bind]. eauto.
Qed.

(** ** get_location_multi_source, api_location *)

Lemma provider_location_Some (resp : http_response)
    (parse : pyval -> result location) (loc : location) :
  provider_location resp parse = Some loc <->
  exists body, resp = Response 200 (Ok body) /\ parse body = Ok loc
               /\ truthy (loc_lat loc) = true /\ truthy (loc_lon loc) = true.
Proof.
  unfold provider_location, try_provider. split.
  - destruct resp as [e | status [body | e]]; try discriminate.
    + destruct (status =? 200) eqn:Hs; try discriminate.
      apply Z.eqb_eq in Hs. subst status. cbn [bind].
      destruct (parse body) as [loc' | e] eqn:Hp; cbn [bind];
        try discriminate.
      unfold py_and.
      destruct (truthy (loc_lat loc')) eqn:Hl.
      * destruct (truthy (loc_lon loc')) eqn:Hl'; try discriminate.
        intros [= <-]. eauto.
      * rewrite Hl. discriminate.
    + destruct (status =? 200); discriminate.
  - intros (body & -> & Hp & Hl & Hl'). cbn [Z.eqb Pos.eqb bind].
    rewrite Hp. cbn [bind]. unfold py_and. rewrite Hl, Hl'. reflexivity.
Qed.

Lemma get_location_multi_source_eq (net : string -> http_response) :
  get_location_multi_source net =
  match provider_location (net "https://ipapi.co/json/") parse_ipapi with
  | Some loc => Some loc
  | None => provider_location (net "http://ip-api.com/json/") parse_ip_api
  end.
Proof.
  unfold get_location_multi_source, apis, first_location, provider_location,
    try_except.
  destruct (try_provider (net "https://ipapi.co/json/") parse_ipapi)
    as [[loc | ] | e];
  destruct (try_provider (net "http://ip-api.com/json/") parse_ip_api)
    as [[loc' | ] | e']; reflexivity.
Qed.

Lemma parse_ipapi_Ok (body : pyval) (loc : location) :
  parse_ipapi body = Ok loc <->
  exists d, body = PDict d
    /\ loc = {| loc_lat := member_or d "latitude" PNone;
                loc_lon := member_or d "longitude" PNone;
                loc_city := member_or d "city" (PStr "Unknown");
                loc_country := member_or d "country_name" (PStr "Unknown");
                loc_code := member_or d "country_code" (PStr "XX") |}.
Proof.
  split.
  - destruct body; try discriminate. intros [= <-]. eauto.
  - intros (d & -> & ->). reflexivity.
Qed.

Lemma parse_ip_api_Ok (body : pyval) (loc : location) :
  parse_ip_api body = Ok loc <->
  exists d, body = PDict d
    /\ loc = {| loc_lat := member_or d "lat" PNone;
                loc_lon := member_or d "lon" PNone;
                loc_city := member_or d "city" (PStr "Unknown");
                loc_country := member_or d "country" (PStr "Unknown");
                loc_code := member_or d "countryCode" (PStr "XX") |}.
Proof.
  split.
  - destruct body; try discriminate. intros [= <-]. eauto.
  - intros (d & -> & ->). reflexivity.
Qed.

Lemma member_or_truthy (d : list (string * pyval)) (k : string) :
  truthy (member_or d k PNone) = true <->
  exists v, dict_lookup d k = Some v /\ truthy v = true.
Proof.
  unfold member_or. destruct (dict_lookup d k) as [v | ]; split.
  - eauto.
  - intros (v' & [= <-] & H). exact H.
  - discriminate.
  - intros (v' & [=] & _).
  Qed.

Lemma usable_ipapi (resp : http_response) :
  usable resp "latitude" "longitude" <->
  exists loc, provider_location resp parse_ipapi = Some loc.
Proof.
  split.
  - intros (d & lat & lon & -> & Hlat & Hlon & Ht & Ht').
    exists {| loc_lat := lat; loc_lon := lon;
              loc_city := member_or d "city" (PStr "Unknown");
              loc_country := member_or d "country_name" (PStr "Unknown");
              loc_code := member_or d "country_code" (PStr "XX") |}.
    apply provider_location_Some. exists (PDict d).
    split; [ reflexivity | ]. split; [ | split; assumption ].
    apply parse_ipapi_Ok. exists d. split; [ reflexivity | ].
    unfold member_or. rewrite Hlat, Hlon. reflexivity.
  - intros (loc & H). apply provider_location_Some in H.
    destruct H as (body & -> & Hp & Ht & Ht').
    apply parse_ipapi_Ok in Hp. destruct Hp as (d & -> & ->).
    cbn [loc_lat loc_lon] in Ht, Ht'.
    apply member_or_truthy in Ht, Ht'.
    destruct Ht as (lat & Hlat & Ht). destruct Ht' as (lon & Hlon & Ht').
    exists d, lat, lon. repeat split; assumption.
Qed.

Lemma usable_ip_api (resp : http_response) :
  usable resp "lat" "lon" <->
  exists loc, provider_location resp parse_ip_api = Some loc.
Proof.
  split.
  - intros (d & lat & lon & -> & Hlat & Hlon & Ht & Ht').
    exists {| loc_lat := lat; loc_lon := lon;
              loc_city := member_or d "city" (PStr "Unknown");
              loc_country := member_or d "country" (PStr "Unknown");
              loc_code := member_or d "countryCode" (PStr "XX") |}.
    apply provider_location_Some. exists (PDict d).
    split; [ reflexivity | ]. split; [ | split; assumption ].
    apply parse_ip_api_Ok. exists d. split; [ reflexivity | ].
    unfold member_or. rewrite Hlat, Hlon. reflexivity.
  - intros (loc & H). apply provider_location_Some in H.
    destruct H as (body & -> & Hp & Ht & Ht').
    apply parse_ip_api_Ok in Hp. destruct Hp as (d & -> & ->).
    cbn [loc_lat loc_lon] in Ht, Ht'.
    apply member_or_truthy in Ht, Ht'.
    destruct Ht as (lat & Hlat & Ht). destruct Ht' as (lon & Hlon & Ht').
    exists d, lat, lon. repeat split; assumption.
Qed.

(** X16.  [GET /api/location] answers 503 "Location detection failed"
    exactly when neither provider gives a usable answer, and 200
    otherwise.  An answer is unusable when the request fails, the status
    is not 200, the body is not JSON or not an object, or a coordinate
    is missing, null or 0. *)
Theorem api_location_503_iff (net : string -> http_response) :
  (api_location net = (LocationError "Location detection failed", 503)
   <-> ~ usable (net "https://ipapi.co/json/") "latitude" "longitude"
       /\ ~ usable (net "http://ip-api.com/json/") "lat" "lon")
  /\ (snd (api_location net) = 200 \/ snd (api_location net) = 503).
Proof.
  unfold api_location. rewrite get_location_multi_source_eq.
  rewrite usable_ipapi, usable_ip_api.
  destruct (provider_location (net "https://ipapi.co/json/") parse_ipapi)
    as [loc | ];
  [ | destruct (provider_location (net "http://ip-api.com/json/") parse_ip_api)
        as [loc | ] ].
  - split; [ | left; reflexivity ]. split; [ discriminate | ].
    intros [H _]. exfalso. apply H. eauto.
  - split; [ | left; reflexivity ]. split; [ discriminate | ].
    intros [_ H]. exfalso. apply H. eauto.
  - split; [ | right; reflexivity ]. split; [ | reflexivity ].
    intros _. split; intros (loc & H); discriminate H.
Qed.

(** X17.  The first provider wins: when https://ipapi.co/json/ answers
    200 with an object whose latitude and longitude are true values, the
    location is built from that object (city and country default to
    'Unknown', the code to 'XX'), whatever the second provider would
    answer. *)
Theorem first_provider_wins (net : string -> http_response)
    (d : list (string * pyval)) (lat lon : pyval) :
  net "https://ipapi.co/json/" = Response 200 (Ok (PDict d)) ->
  dict_lookup d "latitude" = Some lat -> truthy lat = true ->
  dict_lookup d "longitude" = Some lon -> truthy lon = true ->
  get_location_multi_source net =
  Some {| loc_lat := lat; loc_lon := lon;
          loc_city := member_or d "city" (PStr "Unknown");
          loc_country := member_or d "country_name" (PStr "Unknown");
          loc_code := member_or d "country_code" (PStr "XX") |}.
Proof.
  intros Hnet Hlat Ht Hlon Ht'. rewrite get_location_multi_source_eq.
  assert (H : provider_location (net "https://ipapi.co/json/") parse_ipapi =
              Some {| loc_lat := lat; loc_lon := lon;
                      loc_city := member_or d "city" (PStr "Unknown");
                      loc_country := member_or d "country_name" (PStr "Unknown");
                      loc_code := member_or d "country_code" (PStr "XX") |}).
  { apply provider_location_Some. exists (PDict d).
    split; [ exact Hnet | ]. split; [ | split; assumption ].
    apply parse_ipapi_Ok. exists d. split; [ reflexivity | ].
    unfold member_or. rewrite Hlat, Hlon. reflexivity. }
  rewrite H. reflexivity.
Qed.

(** X18.  The fallback: when the first provider's answer is unusable
    (for whatever reason, a raised exception included) and
    http://ip-api.com/json/ answers 200 with an object whose lat and lon
    are true values, the location is built from the second object under
    that provider's own keys. *)
Theorem second_provider_is_fallback (net : string -> http_response)
    (d : list (string * pyval)) (lat lon : pyval) :
  ~ usable (net "https://ipapi.co/json/") "latitude" "longitude" ->
  net "http://ip-api.com/json/" = Response 200 (Ok (PDict d)) ->
  dict_lookup d "lat" = Some lat -> truthy lat = true ->
  dict_lookup d "lon" = Some lon -> truthy lon = true ->
  get_location_multi_source net =
  Some {| loc_lat := lat; loc_lon := lon;
          loc_city := member_or d "city" (PStr "Unknown");
          loc_country := member_or d "country" (PStr "Unknown");
          loc_code := member_or d "countryCode" (PStr "XX") |}.
Proof.
  intros Hfirst Hnet Hlat Ht Hlon Ht'. rewrite get_location_multi_source_eq.
  destruct (provider_location (net "https://ipapi.co/json/") parse_ipapi)
    as [loc | ] eqn:H1.
  - exfalso. apply Hfirst. apply usable_ipapi. eauto.
  - apply provider_location_Some. exists (PDict d).
    split; [ exact Hnet | ]. split; [ | split; assumption ].
    apply parse_ip_api_Ok. exists d. split; [ reflexivity | ].
    unfold member_or. rewrite Hlat, Hlon. reflexivity.
Qed.

(** ** The session registry of app.py *)

Lemma handle_start_monitoring_cases (sid : string) (data : pyval)
    (st : server) :
  handle_start_monitoring sid data st = emit sid "error" st
  \/ exists lat lon country_code,
       truthy lat = true /\ truthy lon = true
       /\ handle_start_monitoring sid data st
          = emit sid "monitoring_started"
              {| active_sessions :=
                   <[sid := {| active := true; session_latitude := lat;
                               session_longitude := lon;
                               session_country_code := country_code;
                               update_count := 0 |}]> (active_sessions st);
                 threads := threads st
                   ++ [{| thread_session_id := sid; thread_lat := lat;
                          thread_lon := lon;
                          thread_country_code := country_code;
                          pc := AtCheck |}];
                 emitted := emitted st |}.
Proof.
  unfold handle_start_monitoring.
  destruct (py_get data "latitude" PNone) as [lat | e]; cbn [bind];
    [ | left; reflexivity ].
  destruct (py_get data "longitude" PNone) as [lon | e]; cbn [bind];
    [ | left; reflexivity ].
  destruct (py_get data "country_code" (PStr "XX")) as [cc | e]; cbn [bind];
    [ | left; reflexivity ].
  destruct (truthy (py_and lat lon)) eqn:Ht; cbn [negb];
    [ | left; reflexivity ].
  right. exists lat, lon, cc. unfold py_and in Ht.
  destruct (truthy lat) eqn:Hl; [ | rewrite Hl in Ht; discriminate Ht ].
  auto.
Qed.

(** The invariant of the registry: every record is active, holds true
    coordinates and a counter that is not negative. *)
Lemma run_operation_registry (st : server) (op : operation) :
  (forall sid r, active_sessions st !! sid = Some r -> record_ok r) ->
  forall sid r, active_sessions (run_operation st op) !! sid = Some r ->
                record_ok r.
Proof.
  intros Hinv sid r.
  destruct op as [sid' data | sid' | sid' | i w]; cbn [run_operation].
  - destruct (handle_start_monitoring_cases sid' data st)
      as [-> | (lat & lon & cc & Hl & Hl' & ->)];
      cbn [emit active_sessions]; [ apply Hinv | ].
    destruct (decide (sid' = sid)) as [-> | Hne].
    + rewrite lookup_insert_eq. intros [= <-].
      unfold record_ok. cbn. repeat split; auto; lia.
    + rewrite lookup_insert_ne by exact Hne. apply Hinv.
  - unfold handle_stop_monitoring.
    destruct (active_sessions st !! sid'); [ | apply Hinv ].
    cbn [emit remove_session active_sessions].
    intros H. apply lookup_delete_Some in H. destruct H as [_ H].
    exact (Hinv _ _ H).
  - unfold handle_disconnect.
    destruct (active_sessions st !! sid'); [ | apply Hinv ].
    cbn [remove_session active_sessions].
    intros H. apply lookup_delete_Some in H. destruct H as [_ H].
    exact (Hinv _ _ H).
  - destruct (threads st !! i) as [t | ]; [ | apply Hinv ].
    unfold monitor_location_step.
    destruct (pc t).
    + destruct (active_sessions st !! thread_session_id t) as [r0 | ];
        [ destruct (active r0) | ]; cbn [active_sessions]; apply Hinv.
    + destruct (calculate_safety_score w (thread_lat t) (thread_lon t)
                  (thread_country_code t));
        cbn [active_sessions emit]; [ | apply Hinv ].
      destruct (active_sessions st !! thread_session_id t) as [r0 | ] eqn:Hr0;
        [ | apply Hinv ].
      destruct (decide (thread_session_id t = sid)) as [<- | Hne].
      * rewrite lookup_insert_eq. intros [= <-].
        apply Hinv in Hr0. destruct Hr0 as (Ha & Hl & Hl' & Hc).
        unfold record_ok. cbn. repeat split; auto; lia.
      * rewrite lookup_insert_ne by exact Hne. apply Hinv.
    + cbn [active_sessions]. apply Hinv.
Qed.

Lemma run_registry (ops : list operation) (sid : string) (r : session) :
  active_sessions (run ops initial_server) !! sid = Some r -> record_ok r.
Proof.
  unfold run.
  assert (Hinit : forall sid r,
             active_sessions initial_server !! sid = Some r -> record_ok r).
  { intros sid0 r0 H. cbn in H. rewrite lookup_empty in H. discriminate H. }
  revert Hinit sid r. generalize initial_server as st.
  induction ops as [ | op ops IH ]; intros st Hinv sid r; cbn [fold_left].
  - apply Hinv.
  - apply IH. apply run_operation_registry. exact Hinv.
Qed.

(** X19.  In every state the process reaches, each record of
    [active_sessions] has 'active' True and true (present, non-zero)
    coordinates: the handlers delete a record in the same critical
    section that clears its flag, so the test of the flag on line 148
    never ends a thread; only the absence of the record does. *)
Theorem registry_records_are_active (ops : list operation) (sid : string)
    (r : session) :
  active_sessions (run ops initial_server) !! sid = Some r ->
  active r = true
  /\ truthy (session_latitude r) = true
  /\ truthy (session_longitude r) = true.
Proof.
  intros H. apply run_registry in H. destruct H as (Ha & Hl & Hl' & _).
  auto.
Qed.

Lemma monitor_location_step_sessions (w : world) (t : thread) (st : server)
    (sid : string) :
  client_fields <$> active_sessions (snd (monitor_location_step w t st)) !! sid
  = client_fields <$> active_sessions st !! sid.
Proof.
  unfold monitor_location_step.
  destruct (pc t).
  - destruct (active_sessions st !! thread_session_id t) as [r | ];
      [ destruct (active r) | ]; reflexivity.
  - destruct (calculate_safety_score w (thread_lat t) (thread_lon t)
                (thread_country_code t)); [ | reflexivity ].
    cbn [snd emit active_sessions].
    destruct (active_sessions st !! thread_session_id t) as [r | ] eqn:Hr;
      [ | reflexivity ].
    destruct (decide (thread_session_id t = sid)) as [<- | Hne].
    + rewrite lookup_insert_eq, Hr. reflexivity.
    + rewrite lookup_insert_ne by exact Hne. reflexivity.
  - reflexivity.
Qed.

(** X21.  A step of a monitoring thread never creates, deletes,
    deactivates or re-locates a session, and starts no thread: for every
    session id the record is present after the step exactly if it was
    before, with the same 'active', 'latitude', 'longitude' and
    'country_code'; only 'update_count' can change. *)
Theorem thread_step_keeps_sessions (st : server) (i : nat) (w : world)
    (sid : string) :
  client_fields <$> active_sessions (run_operation st (ThreadStep i w)) !! sid
  = client_fields <$> active_sessions st !! sid
  /\ length (threads (run_operation st (ThreadStep i w)))
     = length (threads st).
Proof.
  cbn [run_operation].
  destruct (threads st !! i) as [t | ] eqn:Ht; [ | split; reflexivity ].
  pose proof (monitor_location_step_sessions w t st sid) as Hs.
  destruct (monitor_location_step_thread w t st) as (_ & _ & Hth).
  destruct (monitor_location_step w t st) as [t' st'].
  cbn [snd active_sessions threads] in *. split; [ exact Hs | ].
  rewrite length_insert, Hth. reflexivity.
Qed.

Lemma filter_insert_unbound (f : thread -> bool) (l : list thread) (i : nat)
    (t t' : thread) :
  l !! i = Some t -> f t = false -> f t' = false ->
  List.filter f (<[i := t']> l) = List.filter f l.
Proof.
  revert i. induction l as [ | u l IH ]; intros i Hi Ht Ht';
    [ discriminate Hi | ].
  destruct i as [ | i ]; simpl in *.
  - injection Hi as ->. rewrite Ht, Ht'. reflexivity.
  - rewrite (IH i Hi Ht Ht'). reflexivity.
Qed.

Lemma room_events_emit (sid sid' event : string) (st : server) :
  sid' <> sid -> room_events sid (emit sid' event st) = room_events sid st.
Proof.
  intros Hne. unfold room_events, emit. cbn [emitted].
  rewrite List.filter_app. cbn [List.filter fst].
  apply String.eqb_neq in Hne. rewrite Hne. apply app_nil_r.
Qed.

(** X22.  Sessions do not interfere: an event of another client, or a
    step of a thread bound to another session id, leaves the record of
    [sid], the events emitted to its room and the number of its live
    threads as they were. *)
Theorem other_sessions_do_not_interfere (st : server) (op : operation)
    (sid : string) :
  op_session st op <> Some sid ->
  active_sessions (run_operation st op) !! sid = active_sessions st !! sid
  /\ room_events sid (run_operation st op) = room_events sid st
  /\ live_tasks sid (run_operation st op) = live_tasks sid st.
Proof.
  intros Hop.
  destruct op as [sid' data | sid' | sid' | i w];
    cbn [run_operation op_session] in *.
  - assert (Hne : sid' <> sid) by congruence.
    destruct (handle_start_monitoring_cases sid' data st)
      as [-> | (lat & lon & cc & _ & _ & ->)];
      rewrite room_events_emit by exact Hne;
      rewrite !live_tasks_threads, threads_emit; cbn [emit active_sessions].
    + auto.
    + rewrite lookup_insert_ne by exact Hne. cbn [threads].
      split; [ reflexivity | ]. split; [ reflexivity | ].
      rewrite List.filter_app. cbn [List.filter].
      unfold bound_live at 2. cbn [thread_session_id].
      apply String.eqb_neq in Hne. rewrite Hne. cbn [andb].
      rewrite app_nil_r. reflexivity.
  - assert (Hne : sid' <> sid) by congruence.
    unfold handle_stop_monitoring.
    destruct (active_sessions st !! sid'); [ | auto ].
    rewrite room_events_emit by exact Hne.
    rewrite !live_tasks_threads, threads_emit.
    cbn [emit remove_session active_sessions threads].
    rewrite lookup_delete_ne by exact Hne. auto.
  - assert (Hne : sid' <> sid) by congruence.
    unfold handle_disconnect.
    destruct (active_sessions st !! sid'); [ | auto ].
    rewrite !live_tasks_threads.
    cbn [remove_session active_sessions threads].
    rewrite lookup_delete_ne by exact Hne. auto.
  - destruct (threads st !! i) as [t | ] eqn:Ht; [ | auto ].
    cbn [fmap option_fmap option_map] in Hop.
    assert (Hne : thread_session_id t <> sid) by congruence.
    destruct (monitor_location_step_thread w t st) as (Hsid & _ & Hth).
    rewrite !live_tasks_threads. unfold room_events.
    assert (Hb : forall u, thread_session_id u = thread_session_id t ->
                           bound_live sid u = false).
    { intros u Hu. unfold bound_live. rewrite Hu.
      apply String.eqb_neq in Hne. rewrite Hne. reflexivity. }
    assert (Hstep : active_sessions (snd (monitor_location_step w t st)) !! sid
                    = active_sessions st !! sid
                    /\ List.filter (fun ev => String.eqb (fst ev) sid)
                         (emitted (snd (monitor_location_step w t st)))
                       = List.filter (fun ev => String.eqb (fst ev) sid)
                           (emitted st)).
    { unfold monitor_location_step.
      destruct (pc t).
      - destruct (active_sessions st !! thread_session_id t) as [r | ];
          [ destruct (active r) | ]; auto.
      - destruct (calculate_safety_score w (thread_lat t) (thread_lon t)
                    (thread_country_code t)); [ | auto ].
        cbn [snd emit active_sessions emitted].
        rewrite List.filter_app. cbn [List.filter fst].
        apply String.eqb_neq in Hne. rewrite Hne, app_nil_r.
        apply String.eqb_neq in Hne.
        destruct (active_sessions st !! thread_session_id t) as [r | ];
          [ rewrite lookup_insert_ne by exact Hne | ]; auto.
      - auto. }
    destruct (monitor_location_step w t st) as [t' st'].
    cbn [fst snd active_sessions threads emitted] in *.
    destruct Hstep as [Hs He]. split; [ exact Hs | ]. split; [ exact He | ].
    rewrite Hth.
    rewrite (filter_insert_unbound (bound_live sid) (threads st) i t t' Ht);
      [ reflexivity | apply Hb; reflexivity | apply Hb; exact Hsid ].
Qed.

(** One operation on a state where the session of thread [i] is gone and
    is not started again: the session stays gone, and the thread moves
    towards its return by each step of its own. *)
Lemma stale_thread_step (st : server) (op : operation) (i : nat) (t : thread) :
  threads st !! i = Some t ->
  active_sessions st !! thread_session_id t = None ->
  no_start (thread_session_id t) [op] = true ->
  exists t',
    threads (run_operation st op) !! i = Some t'
    /\ thread_session_id t' = thread_session_id t
    /\ (remaining (pc t') <= remaining (pc t) - thread_steps i [op])%nat
    /\ active_sessions (run_operation st op) !! thread_session_id t = None.
Proof.
  intros Ht Hgone Hns.
  destruct op as [sid' data | sid' | sid' | j w];
    cbn [run_operation no_start thread_steps] in *.
  - rewrite andb_true_r in Hns. apply negb_true_iff, String.eqb_neq in Hns.
    exists t.
    destruct (handle_start_monitoring_cases sid' data st)
      as [-> | (lat & lon & cc & _ & _ & ->)];
      cbn [emit active_sessions threads].
    + repeat split; auto; lia.
    + rewrite lookup_insert_ne by exact Hns.
      rewrite lookup_app_l by (apply lookup_lt_Some in Ht; exact Ht).
      repeat split; auto; lia.
  - exists t. unfold handle_stop_monitoring.
    destruct (active_sessions st !! sid');
      cbn [emit remove_session active_sessions threads].
    + repeat split; auto; [ lia | ].
      apply lookup_delete_None. right. exact Hgone.
    + repeat split; auto; lia.
  - exists t. unfold handle_disconnect.
    destruct (active_sessions st !! sid');
      cbn [emit remove_session active_sessions threads].
    + repeat split; auto; [ lia | ].
      apply lookup_delete_None. right. exact Hgone.
    + repeat split; auto; lia.
  - destruct (Nat.eqb_spec j i) as [-> | Hji].
    + rewrite Ht. unfold monitor_location_step. rewrite Hgone.
      destruct (pc t) eqn:Hpc.
      * exists (set_pc t Returned). cbn [active_sessions threads].
        rewrite list_lookup_insert_eq by (apply lookup_lt_Some in Ht; exact Ht).
        repeat split; auto; cbn; lia.
      * exists (set_pc t AtCheck).
        destruct (calculate_safety_score w (thread_lat t) (thread_lon t)
                    (thread_country_code t));
          cbn [emit active_sessions threads];
          (rewrite list_lookup_insert_eq
             by (apply lookup_lt_Some in Ht; exact Ht));
          repeat split; auto; cbn; lia.
      * exists t. cbn [active_sessions threads].
        rewrite list_lookup_insert_eq by (apply lookup_lt_Some in Ht; exact Ht).
        repeat split; auto; rewrite ?Hpc; cbn; lia.
    + destruct (threads st !! j) as [u | ] eqn:Hu.
      * exists t.
        destruct (monitor_location_step_thread w u st) as (_ & _ & Hth).
        pose proof (monitor_location_step_sessions w u st
                      (thread_session_id t)) as Hs.
        destruct (monitor_location_step w u st) as [u' st'].
        cbn [snd active_sessions threads] in *.
        rewrite list_lookup_insert_ne by exact Hji. rewrite Hth.
        rewrite Hgone in Hs.
        destruct (active_sessions st' !! thread_session_id t);
          [ discriminate Hs | ].
        repeat split; auto; lia.
      * exists t. repeat split; auto; lia.
Qed.

Lemma stale_thread_run (ops : list operation) (i : nat) :
  forall (st : server) (t : thread),
  threads st !! i = Some t ->
  active_sessions st !! thread_session_id t = None ->
  no_start (thread_session_id t) ops = true ->
  exists t',
    threads (run ops st) !! i = Some t'
    /\ thread_session_id t' = thread_session_id t
    /\ (remaining (pc t') <= remaining (pc t) - thread_steps i ops)%nat
    /\ active_sessions (run ops st) !! thread_session_id t = None.
Proof.
  unfold run.
  induction ops as [ | op ops IH ]; intros st t Ht Hgone Hns.
  - exists t. cbn. repeat split; auto; lia.
  - assert (Hns1 : no_start (thread_session_id t) [op] = true
                   /\ no_start (thread_session_id t) ops = true).
    { destruct op; cbn [no_start] in *; auto.
      apply andb_true_iff in Hns. destruct Hns as [-> ->]. auto. }
    destruct Hns1 as [Hns1 Hns2].
    destruct (stale_thread_step st op i t Ht Hgone Hns1)
      as (t1 & Ht1 & Hsid1 & Hrem1 & Hgone1).
    rewrite <- Hsid1 in Hgone1, Hns2.
    destruct (IH _ t1 Ht1 Hgone1 Hns2) as (t' & Ht' & Hsid' & Hrem' & Hgone').
    exists t'. cbn [fold_left]. rewrite Hsid1 in *.
    repeat split; auto.
    assert (Hsteps : thread_steps i (op :: ops)
                     = (thread_steps i [op] + thread_steps i ops)%nat).
    { destruct op; cbn [thread_steps]; try reflexivity.
      destruct (Nat.eqb i0 i); reflexivity. }
    lia.
Qed.

(** X23.  A thread whose session has been removed ends by itself: once
    the record of its session id is gone, and as long as the client
    does not start monitoring again, the registry stays without the
    record and [monitor_location] has returned after at most two more
    steps of the thread (the scoring call in progress, then the check),
    whatever the other clients and threads do in between. *)
Theorem stale_thread_returns (ops : list operation) (st : server) (i : nat)
    (t : thread) :
  threads st !! i = Some t ->
  active_sessions st !! thread_session_id t = None ->
  no_start (thread_session_id t) ops = true ->
  (2 <= thread_steps i ops)%nat ->
  active_sessions (run ops st) !! thread_session_id t = None
  /\ exists t', threads (run ops st) !! i = Some t'
                /\ thread_session_id t' = thread_session_id t
                /\ pc t' = Returned.
Proof.
  intros Ht Hgone Hns Hsteps.
  destruct (stale_thread_run ops i st t Ht Hgone Hns)
    as (t' & Ht' & Hsid & Hrem & Hgone').
  split; [ exact Hgone' | ]. exists t'. repeat split; auto.
  destruct (pc t') eqn:Hpc'; [ | | reflexivity ];
    destruct (pc t); cbn in Hrem; lia.
Qed.

End SafetyEngine.

(** * The program on concrete inputs *)

Lemma ref_libm_annex_f : AnnexF ref_libm.
Proof. split; try split; vm_compute; reflexivity. Qed.




(** Two runs with the reference libm: a NaN latitude next to finite
    values, and two longitudes that are the same infinity. *)
Lemma calculate_distance_nan :
  calculate_distance ref_libm (PFloat nan) (PFloat 2.3522)
    (PFloat 48.857) (PFloat 2.3522) = Ok nan
  /\ calculate_distance ref_libm (PFloat 48.8566) (PFloat infinity)
       (PFloat 48.857) (PFloat infinity) = Ok nan.
Proof. split; vm_compute; reflexivity. Qed.

(** One infinite longitude: the sentinel. *)
Lemma calculate_distance_infinite_longitude :
  calculate_distance ref_libm (PFloat 48.8566) (PFloat neg_infinity)
    (PFloat 48.857) (PFloat 2.3522) = Ok infinity.
Proof.
  apply (calculate_distance_infinite_dlon ref_libm ref_libm_annex_f).
  reflexivity.
Qed.

(** The way on the equator is dropped from the hospitals of
    [world_noon]. *)
Lemma get_nearby_places_excludes_witness :
  place_of_elem ref_libm (PFloat 48.8566) (PFloat 2.3522) "hospital"
    equator_way = None
  /\ get_nearby_places ref_libm world_noon (PFloat 48.8566) (PFloat 2.3522)
       "hospital" 5000
     = Ok (sorted_by_distance
             (places_of_elems ref_libm (PFloat 48.8566) (PFloat 2.3522)
                "hospital" ([osm_node 48.857 2.3522] ++ [])), true).
Proof.
  apply (get_nearby_places_excludes_zero_coordinate ref_libm world_noon
           (PFloat 48.8566) (PFloat 2.3522) "hospital" 5000
           [osm_node 48.857 2.3522] [] equator_way (PInt 0)).
  - reflexivity.
  - reflexivity.
  - left. reflexivity.
  - reflexivity.
Defined.

(** A fault caught at the boundary: ["elements": null] makes the loop
    of [get_nearby_places] raise, and the caller gets the error report. *)
Lemma null_elements_error_report :
  calculate_safety_score_body ref_libm world_null_elements
    (PFloat 48.8566) (PFloat 2.3522) (PStr "FR")
  = Raise (Exn TypeError "'NoneType' object is not iterable")
  /\ calculate_safety_score ref_libm world_null_elements
       (PFloat 48.8566) (PFloat 2.3522) (PStr "FR")
     = Ok (error_report world_null_elements
             (Exn TypeError "'NoneType' object is not iterable")).
Proof. split; vm_compute; reflexivity. Qed.

(** A latitude that is a string makes the banner before the [try]
    raise. *)
Lemma string_latitude_raises (w : world) :
  calculate_safety_score ref_libm w (PStr "abc") (PFloat 2.3522) (PStr "FR")
  = Raise (Exn ValueError "Unknown format code 'f' for object of type 'str'").
Proof. reflexivity. Qed.

(** The same through app.py: a [start_monitoring] event whose latitude is
    the string "48.85" is accepted, the string being a true value, and
    every scoring call of its thread raises at the banner; the thread
    stays live and the client never gets an update. *)
Lemma string_latitude_monitored :
  let st :=
    run ref_libm
      [StartMonitoring "sid-1"
         (PDict [("latitude", PStr "48.85"); ("longitude", PFloat 2.3522)]);
       ThreadStep 0 world_noon; ThreadStep 0 world_noon;
       ThreadStep 0 world_noon; ThreadStep 0 world_noon] initial_server in
  live_tasks "sid-1" st = 1%nat
  /\ emitted st = [("sid-1", "monitoring_started")].
Proof. vm_compute. split; reflexivity. Qed.

(** C2: the code at the failing inputs.  With only the activity fetch
    failing, or only the hospital and police fetches failing, the gate is
    closed and the report lists both 'emergency_services' and
    'activity_data', one of which did not fail. *)
Theorem unavailable_report_lists_both :
  (exists s r,
     fetch_sources ref_libm world_activity_down (PFloat 48.8566) (PFloat 2.3522)
     = Ok s
     /\ hosp_success s = true /\ police_success s = true
     /\ activity_success s = false
     /\ calculate_safety_score ref_libm world_activity_down
          (PFloat 48.8566) (PFloat 2.3522) (PStr "FR") = Ok r
     /\ rating r = "SERVICE UNAVAILABLE"
     /\ unavailable (service_status r) = ["emergency_services"; "activity_data"])
  /\ (exists s r,
        fetch_sources ref_libm world_emergency_down (PFloat 48.8566)
          (PFloat 2.3522) = Ok s
        /\ hosp_success s = false /\ police_success s = false
        /\ activity_success s = true
        /\ calculate_safety_score ref_libm world_emergency_down
             (PFloat 48.8566) (PFloat 2.3522) (PStr "FR") = Ok r
        /\ rating r = "SERVICE UNAVAILABLE"
        /\ unavailable (service_status r)
           = ["emergency_services"; "activity_data"]).
Proof.
  split; eexists; eexists;
    (split; [ vm_compute; reflexivity | ]);
    do 3 (split; [ reflexivity | ]);
    (split; [ vm_compute; reflexivity | ]);
    split; reflexivity.
Qed.

Ltac run_score := vm_compute; reflexivity.
Ltac other_rating := let H := fresh in intros H; vm_compute in H; discriminate H.

(** The scoring run of [world_noon]. *)
Lemma final_score_witness :
  exists r,
    calculate_safety_score ref_libm world_noon (PFloat 48.8566) (PFloat 2.3522)
      (PStr "no") = Ok r
    /\ exists s m,
         fetch_sources ref_libm world_noon (PFloat 48.8566) (PFloat 2.3522) = Ok s
         /\ country_multiplier (PStr "no") = Ok m
         /\ let final_score :=
              final_score_of (raw_score_of (hour_now world_noon) s) m in
            in_range 0 100 final_score = true
            /\ score r = py_round final_score 1
            /\ in_range 0 100 (score r) = true
            /\ (num_ge final_score 75 = true -> rating r = "SAFE")
            /\ (num_ge final_score 75 = false -> num_ge final_score 55 = true ->
                rating r = "MODERATE")
            /\ (num_ge final_score 55 = false -> num_ge final_score 35 = true ->
                rating r = "CAUTION")
            /\ (num_ge final_score 35 = false -> rating r = "HIGH RISK").
Proof.
  eexists. split; [ run_score | ].
  apply (final_score_bounded_and_banded ref_libm world_noon);
    [ run_score | other_rating | other_rating ].
Defined.


(** A code written with the long s is Sweden's. *)
Lemma long_s_code_is_sweden :
  country_multiplier (PStr "ſe") = Ok 1.16%float
  /\ country_multiplier (PStr "ﬁ") = Ok 1.17%float.
Proof. split; vm_compute; reflexivity. Qed.

Lemma str_upper_fr_unknown : ~ In (str_upper "fr") (map fst COUNTRY_BASELINES).
Proof.
  intros H. vm_compute in H.
  repeat match type of H with
         | _ \/ _ => destruct H as [H | H]; [ discriminate H | ]
         end.
  exact H.
Qed.


Lemma scored_unavailable_witness :
  exists r,
    calculate_safety_score ref_libm world_noon (PFloat 48.8566) (PFloat 2.3522)
      (PStr "no") = Ok r
    /\ unavailable (service_status r) = ["infrastructure"]
    /\ (forall src, In src (unavailable (service_status r)) ->
                    src = "infrastructure")
    /\ ~ In "emergency_services" (unavailable (service_status r))
    /\ ~ In "activity_data" (unavailable (service_status r)).
Proof.
  eexists. split; [ run_score | ]. split; [ vm_compute; reflexivity | ].
  apply (scored_unavailable_only_infrastructure ref_libm world_noon
           (PFloat 48.8566) (PFloat 2.3522) (PStr "no"));
    [ run_score | other_rating | other_rating ].
Defined.


(** A stop followed by a start before the old thread has made its next
    check leaves the old thread running next to the new one. *)
Lemma restart_keeps_old_thread :
  live_tasks "sid-1"
    (run ref_libm
       [StartMonitoring "sid-1" start_request; ThreadStep 0 world_noon;
        StopMonitoring "sid-1"; StartMonitoring "sid-1" start_request;
        ThreadStep 0 world_noon; ThreadStep 0 world_noon;
        ThreadStep 1 world_noon]
       initial_server) = 2%nat.
Proof. vm_compute. reflexivity. Qed.


(** ** The added properties at work *)

(** The activity query of [world_activity_down] times out. *)
Lemma get_nearby_places_failure_witness :
  exists places,
    get_nearby_places ref_libm world_activity_down (PFloat 48.8566)
      (PFloat 2.3522) "activity" 500 = Ok (places, false)
    /\ places = []
    /\ (existsb (String.eqb "activity") queries = false
        \/ exists elements,
             fetch_osm_data (overpass world_activity_down "activity")
             = Ok (elements, false)).
Proof.
  eexists. split; [ run_score | ].
  apply (get_nearby_places_failure_is_empty ref_libm world_activity_down
           (PFloat 48.8566) (PFloat 2.3522) "activity" 500).
  run_score.
Defined.

(** The hospital of [world_noon]. *)
Lemma get_nearby_places_records_witness :
  exists places p,
    get_nearby_places ref_libm world_noon (PFloat 48.8566) (PFloat 2.3522)
      "hospital" 5000 = Ok (places, true)
    /\ In p places
    /\ type_ p = "hospital"
    /\ truthy (latitude p) = true /\ truthy (longitude p) = true
    /\ exists d,
         calculate_distance ref_libm (PFloat 48.8566) (PFloat 2.3522)
           (latitude p) (longitude p) = Ok d
         /\ (d =? infinity)%float = false
         /\ distance p = float_round d 2.
Proof.
  eexists. eexists. split; [ run_score | ]. split; [ left; reflexivity | ].
  eapply (get_nearby_places_records ref_libm world_noon (PFloat 48.8566)
            (PFloat 2.3522) "hospital" 5000);
    [ run_score | left; reflexivity ].
Defined.



(** The degraded report of [world_activity_down]. *)
Lemma no_score_witness :
  exists r,
    calculate_safety_score ref_libm world_activity_down (PFloat 48.8566)
      (PFloat 2.3522) (PStr "FR") = Ok r
    /\ (no_score r <-> score r = NInt 0)
    /\ (no_score r <-> confidence r = NInt 0)
    /\ (no_score r <-> color r = "#999999")
    /\ (~ no_score r -> in_range 21 100 (score r) = true).
Proof.
  eexists. split; [ run_score | ].
  apply (no_score_reports_recognisable ref_libm world_activity_down
           (PFloat 48.8566) (PFloat 2.3522) (PStr "FR")).
  run_score.
Defined.

Lemma scored_confidence_witness :
  exists r,
    calculate_safety_score ref_libm world_noon (PFloat 48.8566) (PFloat 2.3522)
      (PStr "no") = Ok r
    /\ exists s,
         fetch_sources ref_libm world_noon (PFloat 48.8566) (PFloat 2.3522)
         = Ok s
         /\ (confidence r = NFloat 42.5 \/ confidence r = NFloat 63.8
             \/ confidence r = NFloat 85)
         /\ (confidence r = NFloat 85
             <-> hosp_success s && police_success s && activity_success s
                 && infra_success s = true).
Proof.
  eexists. split; [ run_score | ].
  apply (scored_confidence_values ref_libm world_noon (PFloat 48.8566)
           (PFloat 2.3522) (PStr "no"));
    [ run_score | other_rating | other_rating ].
Defined.

Lemma scored_service_status_witness :
  exists r,
    calculate_safety_score ref_libm world_noon (PFloat 48.8566) (PFloat 2.3522)
      (PStr "no") = Ok r
    /\ exists s,
         fetch_sources ref_libm world_noon (PFloat 48.8566) (PFloat 2.3522)
         = Ok s
         /\ message (service_status r) = None
         /\ (infra_success s = true ->
             overall (service_status r) = "All services operational"
             /\ status_color (service_status r) = "#4CAF50"
             /\ unavailable (service_status r) = [])
         /\ (infra_success s = false ->
             overall (service_status r) = "Limited data: infrastructure"
             /\ status_color (service_status r) = "#FF9800"
             /\ unavailable (service_status r) = ["infrastructure"]).
Proof.
  eexists. split; [ run_score | ].
  apply (scored_service_status ref_libm world_noon (PFloat 48.8566)
           (PFloat 2.3522) (PStr "no"));
    [ run_score | other_rating | other_rating ].
Defined.

Lemma transit_failure_witness :
  same_but_transit world_transit_down world_noon
  /\ calculate_safety_score ref_libm world_transit_down (PFloat 48.8566)
       (PFloat 2.3522) (PStr "no")
     = calculate_safety_score ref_libm world_noon (PFloat 48.8566)
         (PFloat 2.3522) (PStr "no").
Proof.
  assert (Hsame : same_but_transit world_transit_down world_noon).
  { split; [ reflexivity | ]. split; [ reflexivity | ].
    intros place_type Hbus Htrain. cbn [overpass world_transit_down].
    apply String.eqb_neq in Hbus, Htrain. rewrite Hbus, Htrain.
    reflexivity. }
  split; [ exact Hsame | ].
  apply (transit_failure_is_invisible ref_libm world_transit_down world_noon
           (PFloat 48.8566) (PFloat 2.3522) (PStr "no") (PList []) (PList []));
    [ exact Hsame | reflexivity | reflexivity | reflexivity | reflexivity ].
Defined.

Lemma density_scores_witness :
  (num_float (population_score 22 3)
   <=? num_float (population_score 22 30))%float = true
  /\ infrastructure_score 22 3 <= infrastructure_score 22 30.
Proof. apply (density_scores_monotone 22 3 30). lia. Defined.

Lemma hour_bounds_witness :
  exists r,
    calculate_safety_score ref_libm world_noon (PFloat 48.8566) (PFloat 2.3522)
      (PStr "no") = Ok r
    /\ exists m,
         country_multiplier (PStr "no") = Ok m
         /\ (9 <= hour_now world_noon <= 18 -> rating r <> "HIGH RISK")
         /\ (hour_now world_noon < 7 \/ 20 < hour_now world_noon ->
             (m <=? 1)%float = true -> rating r <> "SAFE").
Proof.
  eexists. split; [ run_score | ].
  apply (hour_bounds_rating ref_libm world_noon (PFloat 48.8566)
           (PFloat 2.3522) (PStr "no"));
    [ run_score | other_rating | other_rating ].
Defined.

Lemma api_safety_report_witness :
  exists r,
    api_safety ref_libm world_noon (Ok start_request) = (ApiData r, 200)
    /\ 200 = 200
    /\ exists data lat lon country_code,
         Ok start_request = Ok data
         /\ py_get data "latitude" PNone = Ok lat
         /\ py_get data "longitude" PNone = Ok lon
         /\ py_get data "country_code" (PStr "XX") = Ok country_code
         /\ truthy lat = true /\ truthy lon = true
         /\ py_le_lit (-90) lat = Ok true /\ py_ge_lit lat 90 = Ok true
         /\ py_le_lit (-180) lon = Ok true /\ py_ge_lit lon 180 = Ok true
         /\ calculate_safety_score ref_libm world_noon lat lon country_code
            = Ok r.
Proof.
  eexists. split; [ run_score | ].
  apply (api_safety_report_is_validated ref_libm world_noon (Ok start_request)).
  run_score.
Defined.

(** A latitude of 91. *)
Lemma api_safety_numbers_witness :
  (exists r,
     api_safety ref_libm world_noon
       (Ok (PDict [("latitude", PInt 91); ("longitude", PInt 10)]))
     = (ApiData r, 200))
  \/ api_safety ref_libm world_noon
       (Ok (PDict [("latitude", PInt 91); ("longitude", PInt 10)]))
     = (ApiError "Invalid coordinates", 400)
  \/ api_safety ref_libm world_noon
       (Ok (PDict [("latitude", PInt 91); ("longitude", PInt 10)]))
     = (ApiError "Coordinates out of range", 400).
Proof.
  apply (api_safety_numbers_never_500 ref_libm world_noon
           [("latitude", PInt 91); ("longitude", PInt 10)] (PInt 91) (PInt 10));
    reflexivity.
Defined.

Lemma first_provider_witness :
  get_location_multi_source net_up =
  Some {| loc_lat := PFloat 48.8566; loc_lon := PFloat 2.3522;
          loc_city := PStr "Paris"; loc_country := PStr "France";
          loc_code := PStr "FR" |}.
Proof.
  apply (first_provider_wins net_up
           [("latitude", PFloat 48.8566); ("longitude", PFloat 2.3522);
            ("city", PStr "Paris"); ("country_name", PStr "France");
            ("country_code", PStr "FR")] (PFloat 48.8566) (PFloat 2.3522));
    reflexivity.
Defined.

(** The second provider's answer has no country: it reads 'Unknown'. *)
Lemma second_provider_witness :
  get_location_multi_source net_rate_limited =
  Some {| loc_lat := PFloat 48.8566; loc_lon := PFloat 2.3522;
          loc_city := PStr "Paris"; loc_country := PStr "Unknown";
          loc_code := PStr "FR" |}.
Proof.
  apply (second_provider_is_fallback net_rate_limited
           [("lat", PFloat 48.8566); ("lon", PFloat 2.3522);
            ("city", PStr "Paris"); ("countryCode", PStr "FR")]
           (PFloat 48.8566) (PFloat 2.3522));
    try reflexivity.
  intros (d & lat & lon & H & _). discriminate H.
Defined.

(** A session after its first update. *)
Lemma registry_records_witness :
  exists r,
    active_sessions
      (run ref_libm
         [StartMonitoring "sid-1" start_request; ThreadStep 0 world_noon;
          ThreadStep 0 world_noon] initial_server) !! "sid-1" = Some r
    /\ active r = true
    /\ truthy (session_latitude r) = true
    /\ truthy (session_longitude r) = true.
Proof.
  eexists. split; [ run_score | ].
  apply (registry_records_are_active ref_libm
           [StartMonitoring "sid-1" start_request; ThreadStep 0 world_noon;
            ThreadStep 0 world_noon] "sid-1").
  run_score.
Defined.

(** Another client stops while "sid-1" is monitored. *)
Lemma other_sessions_witness :
  active_sessions
    (run_operation ref_libm
       (run ref_libm [StartMonitoring "sid-1" start_request;
                      StartMonitoring "sid-2" start_request] initial_server)
       (StopMonitoring "sid-2")) !! "sid-1"
  = active_sessions
      (run ref_libm [StartMonitoring "sid-1" start_request;
                     StartMonitoring "sid-2" start_request] initial_server)
      !! "sid-1"
  /\ room_events "sid-1"
       (run_operation ref_libm
          (run ref_libm [StartMonitoring "sid-1" start_request;
                         StartMonitoring "sid-2" start_request] initial_server)
          (StopMonitoring "sid-2"))
     = room_events "sid-1"
         (run ref_libm [StartMonitoring "sid-1" start_request;
                        StartMonitoring "sid-2" start_request] initial_server)
  /\ live_tasks "sid-1"
       (run_operation ref_libm
          (run ref_libm [StartMonitoring "sid-1" start_request;
                         StartMonitoring "sid-2" start_request] initial_server)
          (StopMonitoring "sid-2"))
     = live_tasks "sid-1"
         (run ref_libm [StartMonitoring "sid-1" start_request;
                        StartMonitoring "sid-2" start_request] initial_server).
Proof.
  apply (other_sessions_do_not_interfere ref_libm
           (run ref_libm [StartMonitoring "sid-1" start_request;
                          StartMonitoring "sid-2" start_request] initial_server)
           (StopMonitoring "sid-2") "sid-1").
  cbn [op_session]. intros H. discriminate H.
Defined.

(** The thread finishes its scoring call, another client starts, and the
    thread's check finds no record. *)
Lemma stale_thread_witness :
  active_sessions
    (run ref_libm
       [ThreadStep 0 world_noon; StartMonitoring "sid-2" start_request;
        ThreadStep 0 world_noon] stale_server) !! "sid-1" = None
  /\ exists t',
       threads
         (run ref_libm
            [ThreadStep 0 world_noon; StartMonitoring "sid-2" start_request;
             ThreadStep 0 world_noon] stale_server) !! 0%nat = Some t'
       /\ thread_session_id t' = "sid-1"
       /\ pc t' = Returned.
Proof.
  apply (stale_thread_returns ref_libm
           [ThreadStep 0 world_noon; StartMonitoring "sid-2" start_request;
            ThreadStep 0 world_noon] stale_server 0%nat stale_thread).
  - reflexivity.
  - reflexivity.
  - reflexivity.
  - cbn. lia.
Defined.
